(** * agents-os / leader-toolbox memory engine: a shallow embedding

    The development follows the Python package [memory] of
    [leader-toolbox/memory-py]: the pydantic models, the chunker, the SQLite
    and in-memory storage backends, the embedding manager, the hybrid search
    merge and the top-level manager.

    Conventions used throughout:
    - Python [str] is [string]; the characters are the code points below 256.
    - Python [float] scores and weights are exact rationals ([Q]); time stamps
      are whole seconds ([Z]), which Python prints as the digits followed by
      [.0].
    - [Optional[T]] is [option T]; a Python exception is a value of [exn]
      returned through [result]; mutable objects are threaded explicitly.
    - [uuid.uuid4()] is a counter-based supply of identifiers. *)

From Stdlib Require Import QArith Qabs ZArith String Ascii List Bool Lia Sorted.
From Stdlib Require Import Lqa.
From stdpp Require Import gmap strings list fin_maps pretty.

Open Scope Z_scope.

(** ** Exceptions and results *)

Inductive exn : Type :=
| ValueError (msg : string)
| ValidationError (fields : list string)
| RuntimeError (msg : string)
| IntegrityError (msg : string)
| FileNotFoundError (msg : string)
| IndexError (msg : string)
| CancelledError.

(** [except Exception] catches everything except the [BaseException]-only
    classes; [asyncio.CancelledError] is one of those. *)
Definition is_Exception (e : exn) : bool :=
  match e with
  | CancelledError => false
  | _ => true
  end.

Inductive result (A : Type) : Type :=
| Ok (a : A)
| Raise (e : exn).
Arguments Ok {A} a.
Arguments Raise {A} e.


(** ** Rational helpers for Python float comparisons *)

Definition Qgtb (x y : Q) : bool := negb (Qle_bool x y).
Definition Qgeb (x y : Q) : bool := Qle_bool y x.
Definition Qltb (x y : Q) : bool := negb (Qle_bool y x).

(** [min(a, b)] returns [a] unless [b < a]; [max(a, b)] returns [a] unless
    [b > a]. *)
Definition py_min (a b : Q) : Q := if Qltb b a then b else a.
Definition py_max (a b : Q) : Q := if Qgtb b a then b else a.

(** ** models.py *)

Module Models.

Inductive Mode : Type := ModeVector | ModeKeyword | ModeHybrid.

Record SearchOptions : Type := mkSearchOptions {
  mode : Mode;
  max_results : Z;
  min_score : Q;
  sources : option (list string);
  vector_weight : option Q;
  keyword_weight : option Q
}.

(** Field constraints [Field(ge=lo, le=hi)]. *)
Definition int_in_range (lo hi v : Z) : bool := (lo <=? v) && (v <=? hi).
Definition float_in_range (lo hi v : Q) : bool := Qle_bool lo v && Qle_bool v hi.

(** An [Optional[float]] field with [ge]/[le]: [None] is accepted. *)
Definition optional_float_in_range (lo hi : Q) (v : option Q) : bool :=
  match v with
  | None => true
  | Some x => float_in_range lo hi x
  end.

(** [validate_weights_sum(cls, v, values)]: [values_vector_weight] is
    [values.get('vector_weight')] when the key is present, that is when the
    field [vector_weight] passed its own validation. Returns [false] when the
    validator raises [ValueError]. *)
Definition validate_weights_sum (v : option Q)
    (values_vector_weight : option (option Q)) : bool :=
  match v, values_vector_weight with
  | Some kw, Some (Some vw) =>
      negb (Qgtb (Qabs ((kw + vw) - 1)) (1 # 1000))
  | _, _ => true
  end.

(** [SearchOptions(mode=..., max_results=..., ...)]: pydantic validates the
    fields in declaration order, each field's constraints first and its
    validators afterwards, and raises one [ValidationError] naming the
    fields that failed. *)
Definition SearchOptions_new (mode : Mode) (max_results : Z) (min_score : Q)
    (sources : option (list string)) (vector_weight keyword_weight : option Q)
    : result SearchOptions :=
  let e_max := if int_in_range 1 100 max_results then [] else ["max_results"%string] in
  let e_min := if float_in_range 0 1 min_score then [] else ["min_score"%string] in
  let vw_ok := optional_float_in_range 0 1 vector_weight in
  let e_vw := if vw_ok then [] else ["vector_weight"%string] in
  let values_vw := if vw_ok then Some vector_weight else None in
  let e_kw :=
    if optional_float_in_range 0 1 keyword_weight
    then if validate_weights_sum keyword_weight values_vw then []
         else ["keyword_weight"%string]
    else ["keyword_weight"%string] in
  match (e_max ++ e_min ++ e_vw ++ e_kw)%list with
  | [] => Ok (mkSearchOptions mode max_results min_score sources
                              vector_weight keyword_weight)
  | errs => Raise (ValidationError errs)
  end.

(** [SearchOptions()] with every default. *)
Definition SearchOptions_default : result SearchOptions :=
  SearchOptions_new ModeHybrid 10 (3 # 10) None None None.

Record SearchResult : Type := mkSearchResult {
  sr_file_id : string;
  sr_file_path : string;
  sr_text : string;
  sr_score : Q;
  sr_start_char : Z;
  sr_end_char : Z;
  sr_excerpt : option string;
  (* the keys of [metadata] that the search code writes *)
  sr_search_type : string;
  sr_vector_score : option Q;
  sr_keyword_score : option Q;
  sr_combined_score : option Q;
  sr_vector_weight : option Q;
  sr_keyword_weight : option Q;
  sr_appears_in_both : option bool
}.

Record FileInfo : Type := mkFileInfo {
  fi_id : string;
  fi_path : string;
  fi_hash : string;
  fi_size : Z;
  fi_mtime : Z;
  fi_metadata : list (string * string)
}.

Record ChunkInfo : Type := mkChunkInfo {
  ci_id : string;
  ci_file_id : string;
  ci_text : string;
  ci_start_char : Z;
  ci_end_char : Z;
  ci_metadata : list (string * string)
}.

Record SyncStats : Type := mkSyncStats {
  files_processed : Z;
  files_added : Z;
  files_updated : Z;
  files_deleted : Z;
  chunks_created : Z;
  embeddings_generated : Z;
  errors : list string
}.

(** [SyncStats()] *)
Definition SyncStats_default : SyncStats := mkSyncStats 0 0 0 0 0 0 [].

End Models.

(** ** Python string helpers *)

Module PyStr.

Definition chars (s : string) : list ascii := list_ascii_of_string s.
Definition of_chars (l : list ascii) : string := string_of_list_ascii l.

Definition ord (c : ascii) : Z := Z.of_N (N_of_ascii c).
Definition len (s : string) : Z := Z.of_nat (String.length s).

(** [str.isspace] on one character, also the class [\s] of [re] on [str]
    patterns: the code points 9-13, 28-32, 133 and 160 among those below
    256. *)
Definition isspace (c : ascii) : bool :=
  let n := ord c in
  ((9 <=? n) && (n <=? 13)) || ((28 <=? n) && (n <=? 32))
  || (n =? 133) || (n =? 160).

Fixpoint lstrip_chars (l : list ascii) : list ascii :=
  match l with
  | [] => []
  | c :: r => if isspace c then lstrip_chars r else l
  end.

Definition rstrip_chars (l : list ascii) : list ascii :=
  rev (lstrip_chars (rev l)).

(** [s.strip()] *)
Definition strip (s : string) : string :=
  of_chars (rstrip_chars (lstrip_chars (chars s))).

(** Truth value of a string: [if s:] *)
Definition truthy (s : string) : bool :=
  match s with EmptyString => false | _ => true end.

(** Index normalisation of a slice bound. *)
Definition clamp_index (n i : Z) : Z :=
  if i <? 0 then Z.max 0 (i + n) else Z.min i n.

(** [s[i:j]], [s[i:]] and [s[:j]]; a missing bound is [None]. *)
Definition slice (s : string) (i j : option Z) : string :=
  let n := len s in
  let lo := match i with Some i => clamp_index n i | None => 0 end in
  let hi := match j with Some j => clamp_index n j | None => n end in
  of_chars (take (Z.to_nat (hi - lo)) (drop (Z.to_nat lo) (chars s))).

(** [s[i]] for an index in range (negative indices count from the end);
    [None] stands for [IndexError]. *)
Definition index (s : string) (i : Z) : option ascii :=
  let n := len s in
  let k := if i <? 0 then i + n else i in
  if (0 <=? k) && (k <? n) then nth_error (chars s) (Z.to_nat k) else None.

Fixpoint is_prefix (p l : list ascii) : bool :=
  match p, l with
  | [], _ => true
  | _ :: _, [] => false
  | a :: p', b :: l' => if Ascii.eqb a b then is_prefix p' l' else false
  end.

(** First position at or after [pos] (the position of the head of [l]) where
    [sub] occurs, [-1] when there is none. *)
Fixpoint find_from (sub l : list ascii) (pos : Z) : Z :=
  if is_prefix sub l then pos
  else match l with
       | [] => -1
       | _ :: r => find_from sub r (pos + 1)
       end.

(** [s.find(sub, start)] for [0 <= start]. *)
Definition find (s sub : string) (start : Z) : Z :=
  if len s <? start then -1
  else find_from (chars sub) (drop (Z.to_nat start) (chars s)) start.

(** [sub in s] *)
Definition contains (s sub : string) : bool := negb (find s sub 0 =? -1).

(** [s.endswith(suffix)] *)
Definition endswith (s suffix : string) : bool :=
  is_prefix (rev (chars suffix)) (rev (chars s)).

(** Decimal rendering of an [int]. *)
Definition str_of_int (z : Z) : string := pretty z.

(** Rendering of a [float] holding a whole number of seconds. *)
Definition str_of_float (z : Z) : string := (pretty z ++ ".0")%string.

End PyStr.

(** ** hashlib.md5 (RFC 1321), on the UTF-8 encoding of a string *)

Module MD5.

Definition mask32 : Z := 4294967295.
Definition add32 (x y : Z) : Z := Z.land (x + y) mask32.
Definition not32 (x : Z) : Z := Z.lxor x mask32.
Definition rotl32 (x c : Z) : Z :=
  Z.land (Z.lor (Z.shiftl x c) (Z.shiftr x (32 - c))) mask32.

Definition K : list Z :=
  [ 3614090360; 3905402710; 606105819; 3250441966;
    4118548399; 1200080426; 2821735955; 4249261313;
    1770035416; 2336552879; 4294925233; 2304563134;
    1804603682; 4254626195; 2792965006; 1236535329;
    4129170786; 3225465664; 643717713; 3921069994;
    3593408605; 38016083; 3634488961; 3889429448;
    568446438; 3275163606; 4107603335; 1163531501;
    2850285829; 4243563512; 1735328473; 2368359562;
    4294588738; 2272392833; 1839030562; 4259657740;
    2763975236; 1272893353; 4139469664; 3200236656;
    681279174; 3936430074; 3572445317; 76029189;
    3654602809; 3873151461; 530742520; 3299628645;
    4096336452; 1126891415; 2878612391; 4237533241;
    1700485571; 2399980690; 4293915773; 2240044497;
    1873313359; 4264355552; 2734768916; 1309151649;
    4149444226; 3174756917; 718787259; 3951481745 ].

Definition shifts : list Z :=
  [ 7; 12; 17; 22; 7; 12; 17; 22; 7; 12; 17; 22; 7; 12; 17; 22;
    5; 9; 14; 20; 5; 9; 14; 20; 5; 9; 14; 20; 5; 9; 14; 20;
    4; 11; 16; 23; 4; 11; 16; 23; 4; 11; 16; 23; 4; 11; 16; 23;
    6; 10; 15; 21; 6; 10; 15; 21; 6; 10; 15; 21; 6; 10; 15; 21 ].

(** [str.encode()]: UTF-8 of the code points below 256. *)
Definition utf8_char (c : ascii) : list Z :=
  let n := PyStr.ord c in
  if n <? 128 then [n]
  else [Z.lor 192 (Z.shiftr n 6); Z.lor 128 (Z.land n 63)].

Definition encode (s : string) : list Z :=
  flat_map utf8_char (PyStr.chars s).

Fixpoint le_bytes (k : nat) (v : Z) : list Z :=
  match k with
  | O => []
  | S k' => Z.land v 255 :: le_bytes k' (Z.shiftr v 8)
  end.

Definition pad (msg : list Z) : list Z :=
  let n := Z.of_nat (length msg) in
  (msg ++ [128] ++ repeat 0 (Z.to_nat ((55 - n) mod 64))
       ++ le_bytes 8 (8 * n))%list.

Fixpoint blocks (fuel : nat) (size : nat) (bs : list Z) : list (list Z) :=
  match fuel, bs with
  | O, _ | _, [] => []
  | S fuel', _ => take size bs :: blocks fuel' size (drop size bs)
  end.

Definition word_of_bytes (bs : list Z) : Z :=
  fold_right (fun b acc => b + 256 * acc) 0 bs.

Definition block_words (block : list Z) : list Z :=
  map word_of_bytes (blocks 16 4 block).

Definition state : Type := (Z * Z * Z * Z)%type.

Definition round_step (M : list Z) (st : state) (i : nat) : state :=
  let '(A, B, C, D) := st in
  let iz := Z.of_nat i in
  let '(F, g) :=
    if iz <? 16 then (Z.lor (Z.land B C) (Z.land (not32 B) D), iz)
    else if iz <? 32 then
      (Z.lor (Z.land D B) (Z.land (not32 D) C), (5 * iz + 1) mod 16)
    else if iz <? 48 then (Z.lxor (Z.lxor B C) D, (3 * iz + 5) mod 16)
    else (Z.lxor C (Z.lor B (not32 D)), (7 * iz) mod 16) in
  let F' := add32 (add32 (add32 F A) (nth i K 0)) (nth (Z.to_nat g) M 0) in
  (D, add32 B (rotl32 F' (nth i shifts 0)), B, C).

Definition process_block (st : state) (block : list Z) : state :=
  let '(a0, b0, c0, d0) := st in
  let '(A, B, C, D) := fold_left (round_step (block_words block)) (seq 0 64) st in
  (add32 a0 A, add32 b0 B, add32 c0 C, add32 d0 D).

Definition init : state := (1732584193, 4023233417, 2562383102, 271733878).

Definition digest (msg : list Z) : list Z :=
  let padded := pad msg in
  let '(A, B, C, D) :=
    fold_left process_block (blocks (length padded) 64 padded) init in
  (le_bytes 4 A ++ le_bytes 4 B ++ le_bytes 4 C ++ le_bytes 4 D)%list.

Definition hex_digit (n : Z) : ascii :=
  if n <? 10 then ascii_of_N (Z.to_N (48 + n)) else ascii_of_N (Z.to_N (87 + n)).

Definition hex_byte (b : Z) : list ascii :=
  [hex_digit (Z.shiftr b 4); hex_digit (Z.land b 15)].

(** [hashlib.md5(s.encode()).hexdigest()] *)
Definition md5_hex (s : string) : string :=
  PyStr.of_chars (flat_map hex_byte (digest (encode s))).

End MD5.

(** ** Python dict with string keys, in insertion order *)

Section OrderedDict.
Context {V : Type}.

(** [d[k] = v]: an existing key keeps its position. *)
Fixpoint od_set (d : list (string * V)) (k : string) (v : V)
    : list (string * V) :=
  match d with
  | [] => [(k, v)]
  | (k', v') :: r =>
      if String.eqb k k' then (k, v) :: r else (k', v') :: od_set r k v
  end.

(** [d.get(k)] *)
Fixpoint od_get (d : list (string * V)) (k : string) : option V :=
  match d with
  | [] => None
  | (k', v') :: r => if String.eqb k k' then Some v' else od_get r k
  end.

(** [k in d] *)
Definition od_mem (d : list (string * V)) (k : string) : bool :=
  match od_get d k with Some _ => true | None => false end.

(** [del d[k]] for a key that is present. *)
Fixpoint od_del (d : list (string * V)) (k : string) : list (string * V) :=
  match d with
  | [] => []
  | (k', v') :: r => if String.eqb k k' then r else (k', v') :: od_del r k
  end.
End OrderedDict.

Definition pydict : Type := list (string * string).

(** [{**d, **e}] and [d.update(e)] *)
Definition dict_update (d e : pydict) : pydict :=
  fold_left (fun acc kv => od_set acc (fst kv) (snd kv)) e d.

(** ** processing/chunker.py *)

Module Chunker.

Import PyStr.

Record TextChunk : Type := mkTextChunk {
  text : string;
  start_char : Z;
  end_char : Z;
  metadata : pydict
}.

Record TextChunker : Type := mkTextChunker {
  chunk_size : Z;
  overlap : Z;
  preserve_structure : bool
}.

(** [TextChunker.__init__] *)
Definition TextChunker_new (chunk_size_chars chunk_overlap_chars : Z)
    (preserve_structure : bool) : result TextChunker :=
  if chunk_size_chars <=? chunk_overlap_chars
  then Raise (ValueError "Overlap must be less than chunk size")
  else Ok (mkTextChunker chunk_size_chars chunk_overlap_chars preserve_structure).

Definition newline : ascii := ascii_of_N 10.
Definition space : ascii := ascii_of_N 32.

(** The regular expression [\n\s*\n] anchored at the head of [l], whose
    first character has been checked to be a newline and removed: [\s*] is
    greedy and gives characters back until a newline follows, so the match
    ends after the last newline of the whitespace run. Returns what follows
    the match. *)
Fixpoint after_last_newline (r : list ascii) (best : option (list ascii))
    : option (list ascii) :=
  match r with
  | [] => best
  | c :: r' =>
      if isspace c
      then after_last_newline r' (if Ascii.eqb c newline then Some r' else best)
      else best
  end.

Definition match_blank_line (l : list ascii) : option (list ascii) :=
  match l with
  | c :: r => if Ascii.eqb c newline then after_last_newline r None else None
  | [] => None
  end.

(** [re.split(r'\n\s*\n', text)]: [cur] holds the current piece reversed. *)
Fixpoint re_split_blank (fuel : nat) (l cur : list ascii) : list string :=
  match fuel with
  | O => [of_chars (rev cur ++ l)]
  | S fuel' =>
      match l with
      | [] => [of_chars (rev cur)]
      | c :: r =>
          match match_blank_line l with
          | Some rest => of_chars (rev cur) :: re_split_blank fuel' rest []
          | None => re_split_blank fuel' r (c :: cur)
          end
      end
  end.

Definition split_paragraphs (text : string) : list string :=
  re_split_blank (S (String.length text)) (chars text) [].

(** [_get_overlap_text] *)
Definition _get_overlap_text (self : TextChunker) (text : string) : string :=
  if len text <=? overlap self then text
  else
    let overlap_text := slice text (Some (- overlap self)) None in
    let space_pos := find overlap_text " " 0 in
    if 0 <? space_pos then slice overlap_text (Some (space_pos + 1)) None
    else overlap_text.

(** Loop state of [_chunk_with_structure]. *)
Record structure_state : Type := mkStructureState {
  st_chunks : list TextChunk;
  st_current_chunk : string;
  st_current_start : Z;
  st_text_pos : Z
}.

Definition structure_step (self : TextChunker) (text : string) (meta : pydict)
    (st : structure_state) (para0 : string) : structure_state :=
  let para := strip para0 in
  if negb (truthy para) then st
  else
    let para_start0 := find text para (st_text_pos st) in
    let para_start := if para_start0 =? -1 then st_text_pos st else para_start0 in
    let text_pos := para_start + len para in
    let current_chunk := st_current_chunk st in
    let current_start := st_current_start st in
    if (chunk_size self <? len current_chunk + len para + 2) && truthy current_chunk
    then
      let chunk_end := current_start + len current_chunk in
      let chunk := mkTextChunk (strip current_chunk) current_start chunk_end meta in
      let overlap_text := _get_overlap_text self current_chunk in
      let overlap_start := Z.max 0 (chunk_end - len overlap_text) in
      mkStructureState (st_chunks st ++ [chunk])
        (overlap_text ++ String newline (String newline EmptyString) ++ para)
        overlap_start text_pos
    else if truthy current_chunk
    then mkStructureState (st_chunks st)
           (current_chunk ++ String newline (String newline EmptyString) ++ para)
           current_start text_pos
    else mkStructureState (st_chunks st) para para_start text_pos.

(** [_chunk_with_structure] *)
Definition _chunk_with_structure (self : TextChunker) (text : string)
    (meta : pydict) : list TextChunk :=
  let st := fold_left (structure_step self text meta) (split_paragraphs text)
                      (mkStructureState [] EmptyString 0 0) in
  if truthy (strip (st_current_chunk st))
  then st_chunks st ++
       [mkTextChunk (strip (st_current_chunk st)) (st_current_start st)
          (st_current_start st + len (st_current_chunk st)) meta]
  else st_chunks st.

(** The inner [for j in range(min(50, len(chunk_text)))] loop with its
    [break]: the first [j] from [j0] on whose character [chunk_text[-(j+1)]]
    is whitespace. *)
Fixpoint snap_back (chunk_text : string) (bound : Z) (fuel : nat) (j : Z)
    : option Z :=
  match fuel with
  | O => None
  | S fuel' =>
      if bound <=? j then None
      else match index chunk_text (- (j + 1)) with
           | Some c => if isspace c then Some j
                       else snap_back chunk_text bound fuel' (j + 1)
           | None => None
           end
  end.

(** One iteration of the loop of [_chunk_sliding_window], at offset [i]. *)
Definition window_at (self : TextChunker) (text : string) (meta : pydict)
    (i : Z) : list TextChunk :=
  let end0 := Z.min (i + chunk_size self) (len text) in
  let chunk_text0 := slice text (Some i) (Some end0) in
  let '(chunk_text, end_) :=
    if (end0 <? len text)
       && negb (match index text end0 with Some c => isspace c | None => false end)
    then match snap_back chunk_text0 (Z.min 50 (len chunk_text0)) 50 0 with
         | Some j =>
             let ct := slice chunk_text0 None (Some (- (j + 1))) in
             (ct, i + len ct)
         | None => (chunk_text0, end0)
         end
    else (chunk_text0, end0) in
  if truthy (strip chunk_text)
  then [mkTextChunk (strip chunk_text) i end_ meta]
  else [].

(** [range(0, stop, step)] for a positive [step]. *)
Definition range_step (stop step : Z) : list Z :=
  if step <=? 0 then []
  else map (fun k => Z.of_nat k * step)
           (seq 0 (Z.to_nat ((stop + step - 1) / step))).

(** [_chunk_sliding_window] *)
Definition _chunk_sliding_window (self : TextChunker) (text : string)
    (meta : pydict) : list TextChunk :=
  flat_map (window_at self text meta)
           (range_step (len text) (chunk_size self - overlap self)).

(** [_chunk_text_internal] *)
Definition _chunk_text_internal (self : TextChunker) (text : string)
    (meta : pydict) : list TextChunk :=
  let chunks :=
    if preserve_structure self then _chunk_with_structure self text meta
    else [] in
  match chunks with
  | [] => _chunk_sliding_window self text meta
  | _ => chunks
  end.

(** [backend.fastapi_chat.chunk_text], the legacy chunker. *)
Fixpoint existing_chunk_text (fuel : nat) (text : string)
    (size_chars overlap : Z) (start : Z) : list string :=
  match fuel with
  | O => []
  | S fuel' =>
      if start <? len text then
        let end_ := start + size_chars in
        let chunk := slice text (Some start) (Some end_) in
        let start' := end_ - overlap in
        chunk :: existing_chunk_text fuel' text size_chars overlap
                   (if start' <? 0 then 0 else start')
      else []
  end.

(** The conversion loop of [TextChunker.chunk_text] over the legacy pieces. *)
Fixpoint convert_existing (self : TextChunker) (text : string) (meta : pydict)
    (pieces : list string) (current_pos : Z) : list TextChunk :=
  match pieces with
  | [] => []
  | chunk_text :: rest =>
      let found := find text chunk_text current_pos in
      let start_pos := if found =? -1 then current_pos else found in
      let end_pos := start_pos + len chunk_text in
      mkTextChunk chunk_text start_pos end_pos meta
        :: convert_existing self text meta rest
             (start_pos + len chunk_text - overlap self)
  end.

(** [TextChunker.chunk_text]; [legacy_importable] tells whether
    [from backend.fastapi_chat import chunk_text] succeeds. *)
Definition chunk_text (legacy_importable : bool) (self : TextChunker)
    (text : string) (meta : pydict) : list TextChunk :=
  if negb (truthy (strip text)) then []
  else if legacy_importable then
    convert_existing self text meta
      (existing_chunk_text (S (String.length text)) text
         (chunk_size self) (overlap self) 0) 0
  else _chunk_text_internal self text meta.

(** *** MarkdownChunker *)

Record Section_ : Type := mkSection {
  sec_text : string;
  sec_title : string;
  sec_level : Z;
  sec_start : Z;
  sec_end : Z
}.

(** [text.split('\n')] *)
Fixpoint split_lines_chars (l cur : list ascii) : list string :=
  match l with
  | [] => [of_chars (rev cur)]
  | c :: r =>
      if Ascii.eqb c newline then of_chars (rev cur) :: split_lines_chars r []
      else split_lines_chars r (c :: cur)
  end.

Definition split_lines (text : string) : list string :=
  split_lines_chars (chars text) [].

(** ['\n'.join(lines)] *)
Fixpoint join_lines (lines : list string) : string :=
  match lines with
  | [] => EmptyString
  | [l] => l
  | l :: rest => l ++ String newline (join_lines rest)
  end.

Definition hash_char : ascii := ascii_of_N 35.

Fixpoint count_hashes (l : list ascii) : nat :=
  match l with
  | c :: r => if Ascii.eqb c hash_char then S (count_hashes r) else O
  | [] => O
  end.

(** [re.match(r'^(#{1,6})\s+(.+)$', line)] on a line without newline:
    the level (length of group 1) and the title (group 2). After one to six
    hashes comes a whitespace run; the title is what follows the run, or
    the last character of the run when the run reaches the end of the line
    and has at least two characters. *)
Definition heading_match (line : string) : option (Z * string) :=
  let l := chars line in
  let h := count_hashes l in
  if (1 <=? h)%nat && (h <=? 6)%nat then
    let rest := drop h l in
    let after := lstrip_chars rest in
    let m := (length rest - length after)%nat in
    match after with
    | _ :: _ => if (1 <=? m)%nat then Some (Z.of_nat h, of_chars after) else None
    | [] => if (2 <=? m)%nat
            then Some (Z.of_nat h, of_chars (drop (m - 1) rest))
            else None
    end
  else None.

Record parse_state : Type := mkParseState {
  ps_sections : list Section_;
  ps_current_section : list string;
  ps_current_title : string;
  ps_current_level : Z;
  ps_section_start : Z;
  ps_char_pos : Z
}.

Definition lines_nonempty (ls : list string) : bool :=
  match ls with [] => false | _ => true end.

Definition parse_step (st : parse_state) (line : string) : parse_state :=
  let line_start := ps_char_pos st in
  let char_pos := ps_char_pos st + (len line + 1) in
  match heading_match line with
  | Some (level, title) =>
      if lines_nonempty (ps_current_section st) then
        let section_text := join_lines (ps_current_section st) in
        let sections :=
          if truthy (strip section_text)
          then ps_sections st ++
               [mkSection section_text (ps_current_title st)
                  (ps_current_level st) (ps_section_start st) (line_start - 1)]
          else ps_sections st in
        mkParseState sections [line] title level line_start char_pos
      else
        mkParseState (ps_sections st) [line] (ps_current_title st)
          (ps_current_level st)
          (if negb (truthy (ps_current_title st)) then line_start
           else ps_section_start st)
          char_pos
  | None =>
      let current_section := ps_current_section st ++ [line] in
      mkParseState (ps_sections st) current_section (ps_current_title st)
        (ps_current_level st)
        (if negb (truthy (ps_current_title st))
            && negb (lines_nonempty (ps_current_section st))
         then line_start else ps_section_start st)
        char_pos
  end.

(** [_parse_markdown_sections] *)
Definition _parse_markdown_sections (text : string) : list Section_ :=
  let st := fold_left parse_step (split_lines text)
                      (mkParseState [] [] EmptyString 0 0 0) in
  if lines_nonempty (ps_current_section st) then
    let section_text := join_lines (ps_current_section st) in
    if truthy (strip section_text)
    then ps_sections st ++
         [mkSection section_text (ps_current_title st) (ps_current_level st)
            (ps_section_start st) (ps_char_pos st - 1)]
    else ps_sections st
  else ps_sections st.

Definition section_metadata (meta : pydict) (section : Section_) : pydict :=
  dict_update meta
    [("section_level", str_of_int (sec_level section));
     ("section_title", sec_title section);
     ("chunk_type", "markdown")].

(** [_chunk_large_section] *)
Definition _chunk_large_section (self : TextChunker) (section : Section_)
    (meta : pydict) : list TextChunk :=
  map (fun chunk =>
         mkTextChunk (text chunk)
           (start_char chunk + sec_start section)
           (end_char chunk + sec_start section)
           (dict_update (metadata chunk)
              [("section_level", str_of_int (sec_level section));
               ("section_title", sec_title section);
               ("chunk_type", "markdown");
               ("is_large_section", "True")]))
      (_chunk_sliding_window self (sec_text section) meta).

Record markdown_state : Type := mkMarkdownState {
  ms_chunks : list TextChunk;
  ms_current_chunk : string;
  ms_current_start : Z
}.

Definition markdown_step (self : TextChunker) (meta : pydict)
    (st : markdown_state) (section : Section_) : markdown_state :=
  let section_text := sec_text section in
  let current_chunk := ms_current_chunk st in
  let current_start := ms_current_start st in
  if (chunk_size self <? len current_chunk + len section_text)
     && truthy current_chunk
  then
    let chunk := mkTextChunk (strip current_chunk) current_start
                   (current_start + len current_chunk)
                   (section_metadata meta section) in
    if chunk_size self <? len section_text then
      mkMarkdownState
        (ms_chunks st ++ [chunk] ++ _chunk_large_section self section meta)
        EmptyString (sec_end section)
    else
      let overlap_text := _get_overlap_text self current_chunk in
      mkMarkdownState (ms_chunks st ++ [chunk])
        (overlap_text ++ String newline (String newline EmptyString) ++ section_text)
        (Z.max 0 (sec_start section - len overlap_text))
  else if truthy current_chunk
  then mkMarkdownState (ms_chunks st)
         (current_chunk ++ String newline (String newline EmptyString) ++ section_text)
         current_start
  else mkMarkdownState (ms_chunks st) section_text (sec_start section).

(** [MarkdownChunker.chunk_text] *)
Definition markdown_chunk_text (self : TextChunker) (text : string)
    (meta : pydict) : list TextChunk :=
  let st := fold_left (markdown_step self meta) (_parse_markdown_sections text)
                      (mkMarkdownState [] EmptyString 0) in
  if truthy (strip (ms_current_chunk st))
  then ms_chunks st ++
       [mkTextChunk (strip (ms_current_chunk st)) (ms_current_start st)
          (ms_current_start st + len (ms_current_chunk st)) meta]
  else ms_chunks st.

(** Positions of the input covered by the ranges of the chunks. *)
Definition covered (chunks : list TextChunk) (pos : Z) : bool :=
  existsb (fun c => (start_char c <=? pos) && (pos <? end_char c)) chunks.

Definition covers_all (chunks : list TextChunk) (text : string) : bool :=
  forallb (fun k => covered chunks (Z.of_nat k)) (seq 0 (String.length text)).

End Chunker.

(** ** hashlib.sha256 (FIPS 180-4), on the UTF-8 encoding of a string *)

Module SHA256.

Definition mask32 : Z := 4294967295.
Definition add32 (x y : Z) : Z := Z.land (x + y) mask32.
Definition not32 (x : Z) : Z := Z.lxor x mask32.
Definition rotr32 (x c : Z) : Z :=
  Z.land (Z.lor (Z.shiftr x c) (Z.shiftl x (32 - c))) mask32.

Definition K : list Z :=
  [ 1116352408; 1899447441; 3049323471; 3921009573;
    961987163; 1508970993; 2453635748; 2870763221;
    3624381080; 310598401; 607225278; 1426881987;
    1925078388; 2162078206; 2614888103; 3248222580;
    3835390401; 4022224774; 264347078; 604807628;
    770255983; 1249150122; 1555081692; 1996064986;
    2554220882; 2821834349; 2952996808; 3210313671;
    3336571891; 3584528711; 113926993; 338241895;
    666307205; 773529912; 1294757372; 1396182291;
    1695183700; 1986661051; 2177026350; 2456956037;
    2730485921; 2820302411; 3259730800; 3345764771;
    3516065817; 3600352804; 4094571909; 275423344;
    430227734; 506948616; 659060556; 883997877;
    958139571; 1322822218; 1537002063; 1747873779;
    1955562222; 2024104815; 2227730452; 2361852424;
    2428436474; 2756734187; 3204031479; 3329325298 ].

Definition init : list Z :=
  [ 1779033703; 3144134277; 1013904242; 2773480762;
    1359893119; 2600822924; 528734635; 1541459225 ].

Fixpoint be_bytes (k : nat) (v : Z) : list Z :=
  match k with
  | O => []
  | S k' => (be_bytes k' (Z.shiftr v 8) ++ [Z.land v 255])%list
  end.

Definition pad (msg : list Z) : list Z :=
  let n := Z.of_nat (length msg) in
  (msg ++ [128] ++ repeat 0 (Z.to_nat ((55 - n) mod 64))
       ++ be_bytes 8 (8 * n))%list.

Definition word_of_bytes (bs : list Z) : Z :=
  fold_left (fun acc b => 256 * acc + b) bs 0.

Definition block_words (block : list Z) : list Z :=
  map word_of_bytes (MD5.blocks 16 4 block).

(** The message schedule: [w] grows from 16 to 64 words. *)
Definition schedule_step (w : list Z) (i : nat) : list Z :=
  let w15 := nth (i - 15) w 0 in
  let w2 := nth (i - 2) w 0 in
  let s0 := Z.lxor (Z.lxor (rotr32 w15 7) (rotr32 w15 18)) (Z.shiftr w15 3) in
  let s1 := Z.lxor (Z.lxor (rotr32 w2 17) (rotr32 w2 19)) (Z.shiftr w2 10) in
  (w ++ [add32 (add32 (add32 (nth (i - 16) w 0) s0) (nth (i - 7) w 0)) s1])%list.

Definition schedule (block : list Z) : list Z :=
  fold_left schedule_step (seq 16 48) (block_words block).

Definition compress_step (w : list Z) (st : list Z) (i : nat) : list Z :=
  match st with
  | [a; b; c; d; e; f; g; h] =>
      let S1 := Z.lxor (Z.lxor (rotr32 e 6) (rotr32 e 11)) (rotr32 e 25) in
      let ch := Z.lxor (Z.land e f) (Z.land (not32 e) g) in
      let t1 := add32 (add32 (add32 (add32 h S1) ch) (nth i K 0)) (nth i w 0) in
      let S0 := Z.lxor (Z.lxor (rotr32 a 2) (rotr32 a 13)) (rotr32 a 22) in
      let maj := Z.lxor (Z.lxor (Z.land a b) (Z.land a c)) (Z.land b c) in
      let t2 := add32 S0 maj in
      [add32 t1 t2; a; b; c; add32 d t1; e; f; g]
  | _ => st
  end.

Fixpoint add_words (xs ys : list Z) : list Z :=
  match xs, ys with
  | x :: xs', y :: ys' => add32 x y :: add_words xs' ys'
  | _, _ => []
  end.

Definition process_block (st : list Z) (block : list Z) : list Z :=
  add_words st (fold_left (compress_step (schedule block)) (seq 0 64) st).

Definition digest (msg : list Z) : list Z :=
  let padded := pad msg in
  flat_map (be_bytes 4)
    (fold_left process_block (MD5.blocks (length padded) 64 padded) init).

(** [hashlib.sha256(s.encode()).hexdigest()] *)
Definition sha256_hex (s : string) : string :=
  PyStr.of_chars (flat_map MD5.hex_byte (digest (MD5.encode s))).

End SHA256.

(** ** A state-and-exception monad for the stateful code

    A computation maps the state before to an outcome and the state after;
    mutations made before an exception is raised stay in place. *)

Definition M (S A : Type) : Type := S -> result A * S.

Definition ret {S A : Type} (a : A) : M S A := fun s => (Ok a, s).

Definition raise {S A : Type} (e : exn) : M S A := fun s => (Raise e, s).

Definition bind {S A B : Type} (m : M S A) (k : A -> M S B) : M S B :=
  fun s =>
    match m s with
    | (Ok a, s') => k a s'
    | (Raise e, s') => (Raise e, s')
    end.

Definition get_state {S : Type} : M S S := fun s => (Ok s, s).
Definition modify {S : Type} (f : S -> S) : M S unit := fun s => (Ok tt, f s).

(** [try: m  except Exception as e: h e] *)
Definition try_except {S A : Type} (m : M S A) (h : exn -> M S A) : M S A :=
  fun s =>
    match m s with
    | (Raise e, s') => if is_Exception e then h e s' else (Raise e, s')
    | r => r
    end.

(** [try: m  finally: f] for a [finally] block that only mutates. *)
Definition try_finally {S A : Type} (m : M S A) (f : S -> S) : M S A :=
  fun s => let '(r, s') := m s in (r, f s').

Declare Scope py_scope.
Delimit Scope py_scope with py.
Notation "x <- m ;; k" := (bind m (fun x => k))
  (at level 100, m at next level, right associativity) : py_scope.
Notation "m ;;; k" := (bind m (fun _ => k))
  (at level 100, right associativity) : py_scope.

(** [for x in xs: body x], stopping at the first exception. *)
Fixpoint for_each {S A : Type} (xs : list A) (body : A -> M S unit) : M S unit :=
  match xs with
  | [] => ret tt
  | x :: rest => bind (body x) (fun _ => for_each rest body)
  end.

(** A computation that leaves an observation of the state as it found it,
    whatever its outcome. *)
Definition preserves {St A X : Type} (obs : St -> X) (m : M St A) : Prop :=
  forall s, obs (snd (m s)) = obs s.

(** A numpy vector. *)
Definition ndarray : Type := list Q.

(** ** storage/base.py: the capability interface of a backend *)

Module StorageBase.
Import Models.

Class StorageBackend (S : Type) : Type := {
  add_file : FileInfo -> M S string;
  get_file : string -> S -> option FileInfo;
  get_file_by_path : string -> S -> option FileInfo;
  update_file : FileInfo -> M S bool;
  delete_file : string -> M S bool;
  add_chunk : ChunkInfo -> option ndarray -> M S string;
  get_chunk : string -> S -> option ChunkInfo;
  get_chunks_by_file : string -> S -> list ChunkInfo;
  delete_chunks_by_file : string -> M S Z;
  get_cached_embedding : string -> string -> string -> S -> option ndarray;
  cache_embedding : string -> string -> string -> ndarray -> M S unit
}.

(** Stable insertion sort of chunks by [start_char], ascending. *)
Fixpoint insert_by_start (c : ChunkInfo) (l : list ChunkInfo) : list ChunkInfo :=
  match l with
  | [] => [c]
  | d :: r => if ci_start_char c <=? ci_start_char d then c :: l
              else d :: insert_by_start c r
  end.

Definition sort_by_start (l : list ChunkInfo) : list ChunkInfo :=
  fold_right insert_by_start [] l.

(** What the manager relies on from a backend, stated on the operations of
    the interface: the cache never fails and touches neither files nor
    chunks; a file with a new id and a new path is stored without
    disturbing the others; a chunk with a new id whose file exists is
    stored, and storing a chunk disturbs nothing else. *)
Class StorageLaws (S : Type) `{StorageBackend S} : Prop := {
  cache_embedding_ok : forall h p m v s,
    fst (cache_embedding h p m v s) = Ok tt;
  cache_embedding_get_file : forall h p m v s id,
    get_file id (snd (cache_embedding h p m v s)) = get_file id s;
  cache_embedding_get_file_by_path : forall h p m v s path,
    get_file_by_path path (snd (cache_embedding h p m v s))
    = get_file_by_path path s;
  cache_embedding_get_chunk : forall h p m v s id,
    get_chunk id (snd (cache_embedding h p m v s)) = get_chunk id s;
  add_file_ok : forall f s, fst (add_file f s) = Ok (fi_id f);
  add_file_get_file : forall f s,
    get_file (fi_id f) (snd (add_file f s)) = Some f;
  add_file_get_file_other : forall f s id,
    get_file_by_path (fi_path f) s = None ->
    id <> fi_id f ->
    get_file id (snd (add_file f s)) = get_file id s;
  add_file_get_file_by_path_other : forall f s path,
    get_file_by_path (fi_path f) s = None ->
    get_file (fi_id f) s = None ->
    path <> fi_path f ->
    get_file_by_path path (snd (add_file f s)) = get_file_by_path path s;
  add_file_get_chunk : forall f s id,
    get_file_by_path (fi_path f) s = None ->
    get_file (fi_id f) s = None ->
    get_chunk id (snd (add_file f s)) = get_chunk id s;
  add_chunk_get_file : forall c e s id,
    get_file id (snd (add_chunk c e s)) = get_file id s;
  add_chunk_get_file_by_path : forall c e s path,
    get_file_by_path path (snd (add_chunk c e s)) = get_file_by_path path s;
  add_chunk_get_chunk : forall c e s id,
    fst (add_chunk c e s) = Ok id ->
    id = ci_id c /\ get_chunk (ci_id c) (snd (add_chunk c e s)) = Some c;
  add_chunk_get_chunk_other : forall c e s id,
    id <> ci_id c ->
    get_chunk id (snd (add_chunk c e s)) = get_chunk id s;
  add_chunk_succeeds : forall c e s,
    get_chunk (ci_id c) s = None ->
    get_file (ci_file_id c) s <> None ->
    fst (add_chunk c e s) = Ok (ci_id c)
}.

End StorageBase.

(** ** storage/sqlite_backend.py *)

Module SQLiteBackend.
Import Models.

(** A row of [chunks]; [embedding] is the nullable BLOB column. *)
Record ChunkRow : Type := mkChunkRow {
  rowid : Z;
  chunk : ChunkInfo;
  embedding : option ndarray
}.

(** A row of [embedding_cache]. *)
Record CacheRow : Type := mkCacheRow {
  c_hash : string;
  c_provider : string;
  c_model : string;
  c_embedding : ndarray
}.

(** The database: one list of rows per table, in insertion order.
    [chunks_seq] is the AUTOINCREMENT counter of [chunks]; [chunks_fts] and
    [chunks_vec] are the full-text and vector indexes, keyed by chunk
    rowid. *)
Record t : Type := mk {
  has_vector_support : bool;
  files : list FileInfo;
  chunks : list ChunkRow;
  chunks_seq : Z;
  chunks_fts : list (Z * string);
  chunks_vec : list (Z * ndarray);
  embedding_cache : list CacheRow
}.

(** The schema right after [_create_schema] on a new database. *)
Definition empty (has_vector_support : bool) : t :=
  mk has_vector_support [] [] 0 [] [] [].

(** Dimension of the [vec0] table, fixed by [_create_schema]. *)
Definition vec_dimension : nat := 384.

Definition set_files (db : t) (fs : list FileInfo) : t :=
  mk (has_vector_support db) fs (chunks db) (chunks_seq db) (chunks_fts db)
     (chunks_vec db) (embedding_cache db).

(** [ON DELETE CASCADE] of [chunks.file_id], with [PRAGMA foreign_keys = ON]:
    the chunk rows whose parent is among the removed file ids go away. The
    cascade touches the table [chunks] only. *)
Definition cascade_chunks (removed_ids : list string) (cs : list ChunkRow)
    : list ChunkRow :=
  List.filter (fun r => negb (existsb (String.eqb (ci_file_id (chunk r))) removed_ids)) cs.

(** [add_file]: [INSERT OR REPLACE INTO files]. A row that collides on the
    primary key [id] or on the unique [path] is deleted first (with the
    cascade of that deletion), then the new row is inserted. *)
Definition add_file (file_info : FileInfo) : M t string :=
  fun db =>
    let clash f := String.eqb (fi_id f) (fi_id file_info)
                   || String.eqb (fi_path f) (fi_path file_info) in
    let removed := map fi_id (List.filter clash (files db)) in
    let kept := List.filter (fun f => negb (clash f)) (files db) in
    (Ok (fi_id file_info),
     mk (has_vector_support db) (kept ++ [file_info])
        (cascade_chunks removed (chunks db)) (chunks_seq db) (chunks_fts db)
        (chunks_vec db) (embedding_cache db)).

(** [get_file] *)
Definition get_file (file_id : string) (db : t) : option FileInfo :=
  List.find (fun f => String.eqb (fi_id f) file_id) (files db).

(** [get_file_by_path] *)
Definition get_file_by_path (path : string) (db : t) : option FileInfo :=
  List.find (fun f => String.eqb (fi_path f) path) (files db).

(** [update_file]: [UPDATE files SET path = ?, ... WHERE id = ?]; the unique
    index on [path] rejects a path held by another row. *)
Definition update_file (file_info : FileInfo) : M t bool :=
  fun db =>
    let target f := String.eqb (fi_id f) (fi_id file_info) in
    if existsb target (files db) then
      if existsb (fun f => negb (target f)
                           && String.eqb (fi_path f) (fi_path file_info))
                 (files db)
      then (Raise (IntegrityError "UNIQUE constraint failed: files.path"), db)
      else (Ok true,
            set_files db
              (map (fun f => if target f then file_info else f) (files db)))
    else (Ok false, db).

(** [delete_file]: one [DELETE FROM files WHERE id = ?] and a commit. *)
Definition delete_file (file_id : string) : M t bool :=
  fun db =>
    let hit f := String.eqb (fi_id f) file_id in
    let removed := map fi_id (List.filter hit (files db)) in
    (Ok (existsb hit (files db)),
     mk (has_vector_support db) (List.filter (fun f => negb (hit f)) (files db))
        (cascade_chunks removed (chunks db)) (chunks_seq db) (chunks_fts db)
        (chunks_vec db) (embedding_cache db)).

(** [add_chunk]: the insert into [chunks] is checked against the unique
    [id] and the foreign key; then the row is mirrored into the full-text
    index and, when the extension is loaded and a vector of the table's
    dimension is given, into the vector index (a failure of that last
    insert is logged and ignored). *)
Definition add_chunk (chunk_info : ChunkInfo) (emb : option ndarray)
    : M t string :=
  fun db =>
    if existsb (fun r => String.eqb (ci_id (chunk r)) (ci_id chunk_info)) (chunks db)
    then (Raise (IntegrityError "UNIQUE constraint failed: chunks.id"), db)
    else if negb (existsb (fun f => String.eqb (fi_id f) (ci_file_id chunk_info))
                          (files db))
    then (Raise (IntegrityError "FOREIGN KEY constraint failed"), db)
    else
      let chunk_rowid := chunks_seq db + 1 in
      let vec' :=
        match emb with
        | Some e =>
            if has_vector_support db && (length e =? vec_dimension)%nat
            then chunks_vec db ++ [(chunk_rowid, e)]
            else chunks_vec db
        | None => chunks_vec db
        end in
      (Ok (ci_id chunk_info),
       mk (has_vector_support db) (files db)
          (chunks db ++ [mkChunkRow chunk_rowid chunk_info emb])
          chunk_rowid
          (chunks_fts db ++ [(chunk_rowid, ci_text chunk_info)])
          vec' (embedding_cache db)).

(** [get_chunk] *)
Definition get_chunk (chunk_id : string) (db : t) : option ChunkInfo :=
  option_map chunk
    (List.find (fun r => String.eqb (ci_id (chunk r)) chunk_id) (chunks db)).

(** [get_chunks_by_file]: [... WHERE file_id = ? ORDER BY start_char] *)
Definition get_chunks_by_file (file_id : string) (db : t) : list ChunkInfo :=
  StorageBase.sort_by_start
    (map chunk
       (List.filter (fun r => String.eqb (ci_file_id (chunk r)) file_id) (chunks db))).

(** [delete_chunks_by_file] *)
Definition delete_chunks_by_file (file_id : string) : M t Z :=
  fun db =>
    let owned r := String.eqb (ci_file_id (chunk r)) file_id in
    let chunk_rowids := map rowid (List.filter owned (chunks db)) in
    let gone (k : Z) := existsb (Z.eqb k) chunk_rowids in
    (Ok (Z.of_nat (length chunk_rowids)),
     mk (has_vector_support db) (files db)
        (List.filter (fun r => negb (owned r)) (chunks db)) (chunks_seq db)
        (List.filter (fun e => negb (gone (fst e))) (chunks_fts db))
        (if has_vector_support db
         then List.filter (fun e => negb (gone (fst e))) (chunks_vec db)
         else chunks_vec db)
        (embedding_cache db)).

(** [get_cached_embedding]: the row must match hash, provider and model;
    an empty BLOB counts as absent. *)
Definition get_cached_embedding (text_hash provider model : string) (db : t)
    : option ndarray :=
  match List.find (fun r => String.eqb (c_hash r) text_hash
                            && String.eqb (c_provider r) provider
                            && String.eqb (c_model r) model)
                  (embedding_cache db) with
  | Some r => match c_embedding r with [] => None | e => Some e end
  | None => None
  end.

(** [cache_embedding]: [INSERT OR REPLACE INTO embedding_cache]; the table's
    primary key is the column [hash] alone, so the row with the same hash is
    replaced whatever its provider and model. *)
Definition cache_embedding (text_hash provider model : string) (emb : ndarray)
    : M t unit :=
  fun db =>
    (Ok tt,
     mk (has_vector_support db) (files db) (chunks db) (chunks_seq db)
        (chunks_fts db) (chunks_vec db)
        (List.filter (fun r => negb (String.eqb (c_hash r) text_hash))
                (embedding_cache db)
         ++ [mkCacheRow text_hash provider model emb])).

#[global] Instance backend : StorageBase.StorageBackend t := {|
  StorageBase.add_file := add_file;
  StorageBase.get_file := get_file;
  StorageBase.get_file_by_path := get_file_by_path;
  StorageBase.update_file := update_file;
  StorageBase.delete_file := delete_file;
  StorageBase.add_chunk := add_chunk;
  StorageBase.get_chunk := get_chunk;
  StorageBase.get_chunks_by_file := get_chunks_by_file;
  StorageBase.delete_chunks_by_file := delete_chunks_by_file;
  StorageBase.get_cached_embedding := get_cached_embedding;
  StorageBase.cache_embedding := cache_embedding
|}.

End SQLiteBackend.

(** ** storage/memory_backend.py *)

Module MemoryBackend.
Import Models.

(** The backend object together with the module-level globals
    [embeddings_store], [metadatas] and [index] it shares with the legacy
    application ([index_built] is [index is not None]). *)
Record t : Type := mk {
  files : list (string * FileInfo);
  chunks : list (string * ChunkInfo);
  chunk_embeddings : list (string * ndarray);
  embedding_cache : gmap string ndarray;
  chunk_to_global_index : list (string * Z);
  initialized : bool;
  embeddings_store : list ndarray;
  metadatas : list pydict;
  index_built : bool
}.

(** [MemoryBackend()] next to empty globals. *)
Definition empty : t := mk [] [] [] ∅ [] false [] [] false.

(** [del l[i]]; [None] stands for [IndexError]. *)
Definition list_del {A : Type} (l : list A) (i : Z) : option (list A) :=
  let n := Z.of_nat (length l) in
  let k := if i <? 0 then i + n else i in
  if (0 <=? k) && (k <? n)
  then Some (take (Z.to_nat k) l ++ drop (S (Z.to_nat k)) l)
  else None.

(** [add_file] *)
Definition add_file (file_info : FileInfo) : M t string :=
  fun b =>
    (Ok (fi_id file_info),
     mk (od_set (files b) (fi_id file_info) file_info) (chunks b)
        (chunk_embeddings b) (embedding_cache b) (chunk_to_global_index b)
        (initialized b) (embeddings_store b) (metadatas b) (index_built b)).

(** [get_file] *)
Definition get_file (file_id : string) (b : t) : option FileInfo :=
  od_get (files b) file_id.

(** [get_file_by_path] *)
Definition get_file_by_path (path : string) (b : t) : option FileInfo :=
  option_map snd
    (List.find (fun kv => String.eqb (fi_path (snd kv)) path) (files b)).

(** [update_file] *)
Definition update_file (file_info : FileInfo) : M t bool :=
  fun b =>
    if od_mem (files b) (fi_id file_info)
    then (Ok true,
          mk (od_set (files b) (fi_id file_info) file_info) (chunks b)
             (chunk_embeddings b) (embedding_cache b) (chunk_to_global_index b)
             (initialized b) (embeddings_store b) (metadatas b) (index_built b))
    else (Ok false, b).

(** [_delete_chunk_from_global] *)
Definition _delete_chunk_from_global (chunk_id : string) : M t unit :=
  fun b =>
    let drop_local (b' : t) : t :=
      mk (files b')
         (if od_mem (chunks b') chunk_id then od_del (chunks b') chunk_id
          else chunks b')
         (if od_mem (chunk_embeddings b') chunk_id
          then od_del (chunk_embeddings b') chunk_id else chunk_embeddings b')
         (embedding_cache b') (chunk_to_global_index b') (initialized b')
         (embeddings_store b') (metadatas b') (index_built b') in
    match od_get (chunk_to_global_index b) chunk_id with
    | Some global_index =>
        match list_del (embeddings_store b) global_index with
        | None => (Raise (IndexError "list assignment index out of range"), b)
        | Some store' =>
            let b1 := mk (files b) (chunks b) (chunk_embeddings b)
                         (embedding_cache b) (chunk_to_global_index b)
                         (initialized b) store' (metadatas b) (index_built b) in
            match list_del (metadatas b) global_index with
            | None => (Raise (IndexError "list assignment index out of range"), b1)
            | Some metas' =>
                let shifted :=
                  map (fun kv => if global_index <? snd kv
                                 then (fst kv, snd kv - 1) else kv)
                      (chunk_to_global_index b) in
                (Ok tt,
                 drop_local
                   (mk (files b) (chunks b) (chunk_embeddings b)
                       (embedding_cache b) (od_del shifted chunk_id)
                       (initialized b) store' metas' false))
            end
        end
    | None => (Ok tt, drop_local b)
    end.

Definition chunks_of_file (file_id : string) (b : t) : list string :=
  map fst (List.filter (fun kv => String.eqb (ci_file_id (snd kv)) file_id) (chunks b)).

(** [delete_file] *)
Definition delete_file (file_id : string) : M t bool :=
  fun b =>
    if negb (od_mem (files b) file_id) then (Ok false, b)
    else
      bind (for_each (chunks_of_file file_id b) _delete_chunk_from_global)
        (fun _ b' =>
           (Ok true,
            mk (od_del (files b') file_id) (chunks b') (chunk_embeddings b')
               (embedding_cache b') (chunk_to_global_index b') (initialized b')
               (embeddings_store b') (metadatas b') (index_built b')))
        b.

(** [add_chunk] *)
Definition add_chunk (chunk_info : ChunkInfo) (emb : option ndarray)
    : M t string :=
  fun b =>
    let chunks' := od_set (chunks b) (ci_id chunk_info) chunk_info in
    match emb with
    | Some e =>
        let meta : pydict :=
          [("source_id", ci_file_id chunk_info);
           ("title", match od_get (ci_metadata chunk_info) "title" with
                     | Some v => v | None => EmptyString end);
           ("excerpt", PyStr.slice (ci_text chunk_info) None (Some 400));
           ("full", ci_text chunk_info)]%string in
        let store' := embeddings_store b ++ [e] in
        (Ok (ci_id chunk_info),
         mk (files b) chunks'
            (od_set (chunk_embeddings b) (ci_id chunk_info) e)
            (embedding_cache b)
            (od_set (chunk_to_global_index b) (ci_id chunk_info)
                    (Z.of_nat (length store') - 1))
            (initialized b) store' (metadatas b ++ [meta]) false)
    | None =>
        (Ok (ci_id chunk_info),
         mk (files b) chunks' (chunk_embeddings b) (embedding_cache b)
            (chunk_to_global_index b) (initialized b) (embeddings_store b)
            (metadatas b) (index_built b))
    end.

(** [get_chunk] *)
Definition get_chunk (chunk_id : string) (b : t) : option ChunkInfo :=
  od_get (chunks b) chunk_id.

(** [get_chunks_by_file] *)
Definition get_chunks_by_file (file_id : string) (b : t) : list ChunkInfo :=
  StorageBase.sort_by_start
    (map snd
       (List.filter (fun kv => String.eqb (ci_file_id (snd kv)) file_id) (chunks b))).

(** [delete_chunks_by_file] *)
Definition delete_chunks_by_file (file_id : string) : M t Z :=
  fun b =>
    let chunks_to_delete := chunks_of_file file_id b in
    bind (for_each chunks_to_delete _delete_chunk_from_global)
         (fun _ => ret (Z.of_nat (length chunks_to_delete))) b.

(** The key [f"{provider}:{model}:{text_hash}"] *)
Definition cache_key (text_hash provider model : string) : string :=
  (provider ++ ":" ++ model ++ ":" ++ text_hash)%string.

(** [get_cached_embedding] *)
Definition get_cached_embedding (text_hash provider model : string) (b : t)
    : option ndarray :=
  embedding_cache b !! cache_key text_hash provider model.

(** [cache_embedding] *)
Definition cache_embedding (text_hash provider model : string) (emb : ndarray)
    : M t unit :=
  fun b =>
    (Ok tt,
     mk (files b) (chunks b) (chunk_embeddings b)
        (<[cache_key text_hash provider model := emb]> (embedding_cache b))
        (chunk_to_global_index b) (initialized b) (embeddings_store b)
        (metadatas b) (index_built b)).

#[global] Instance backend : StorageBase.StorageBackend t := {|
  StorageBase.add_file := add_file;
  StorageBase.get_file := get_file;
  StorageBase.get_file_by_path := get_file_by_path;
  StorageBase.update_file := update_file;
  StorageBase.delete_file := delete_file;
  StorageBase.add_chunk := add_chunk;
  StorageBase.get_chunk := get_chunk;
  StorageBase.get_chunks_by_file := get_chunks_by_file;
  StorageBase.delete_chunks_by_file := delete_chunks_by_file;
  StorageBase.get_cached_embedding := get_cached_embedding;
  StorageBase.cache_embedding := cache_embedding
|}.

End MemoryBackend.

(** ** embeddings/base.py and embeddings/manager.py *)

Module Embeddings.
Import StorageBase.
Local Open Scope py_scope.

(** One provider: its [name] and [model] properties, whether
    [is_available()] holds, and its [embed] method, which either returns
    one vector per text or raises. *)
Record EmbeddingProvider : Type := mkProvider {
  name : string;
  model : string;
  embed_texts : list string -> result (list ndarray);
  is_available : bool
}.

(** [EmbeddingProvider.compute_text_hash] *)
Definition compute_text_hash (text : string) : string := SHA256.sha256_hex text.

(** The manager object. [providers] is the dict of registered providers in
    registration order; [has_storage_backend] is [storage_backend is not
    None]. *)
Record EmbeddingManager : Type := mkManager {
  primary_provider_name : string;
  fallback_provider_name : string;
  cache_enabled : bool;
  has_storage_backend : bool;
  providers : list (string * EmbeddingProvider);
  provider_status : gmap string bool;
  failure_counts : gmap string Z;
  max_failures : Z
}.

Definition set_failures (em : EmbeddingManager) (status : gmap string bool)
    (counts : gmap string Z) : EmbeddingManager :=
  mkManager (primary_provider_name em) (fallback_provider_name em)
    (cache_enabled em) (has_storage_backend em) (providers em)
    status counts (max_failures em).

(** [_is_provider_available] *)
Definition _is_provider_available (em : EmbeddingManager) (provider_name : string)
    : bool :=
  od_mem (providers em) provider_name
  && default false (provider_status em !! provider_name)
  && (default 0 (failure_counts em !! provider_name) <? max_failures em).

(** [_record_failure] *)
Definition _record_failure (em : EmbeddingManager) (provider_name : string)
    : EmbeddingManager :=
  let n := default 0 (failure_counts em !! provider_name) + 1 in
  let counts := <[provider_name := n]> (failure_counts em) in
  if max_failures em <=? n
  then set_failures em (<[provider_name := false]> (provider_status em)) counts
  else set_failures em (provider_status em) counts.

Section WithStorage.
Context {S : Type} `{StorageBackend S}.

(** The manager and the storage backend it was given: the backend is the
    very object the rest of the system writes to. *)
Definition state : Type := (EmbeddingManager * S)%type.

Definition on_manager (f : EmbeddingManager -> EmbeddingManager)
    : M state unit :=
  fun st => (Ok tt, (f (fst st), snd st)).

Definition on_storage {A : Type} (m : M S A) : M state A :=
  fun st => let '(r, s') := m (snd st) in (r, (fst st, s')).

(** One [try: provider.embed(texts) except Exception: _record_failure]
    stage of the chain: [Some v] when the provider answered. *)
Definition try_provider (provider_name : string) (p : EmbeddingProvider)
    (texts : list string) : M state (option (list ndarray)) :=
  match embed_texts p texts with
  | Ok embeddings => ret (Some embeddings)
  | Raise e =>
      if is_Exception e
      then on_manager (fun em => _record_failure em provider_name) ;;;
           ret None
      else raise e
  end.

(** The loop over [self.providers.items()] for the remaining providers. *)
Fixpoint try_emergency (items : list (string * EmbeddingProvider))
    (texts : list string) : M state (list ndarray) :=
  match items with
  | [] => raise (RuntimeError "All embedding providers failed")
  | (provider_name, p) :: rest =>
      st <- get_state ;;
      let em := fst st in
      if negb (String.eqb provider_name (primary_provider_name em)
               || String.eqb provider_name (fallback_provider_name em))
         && _is_provider_available em provider_name
      then r <- try_provider provider_name p texts ;;
           match r with
           | Some embeddings => ret embeddings
           | None => try_emergency rest texts
           end
      else try_emergency rest texts
  end.

Definition try_named (provider_name : string) (texts : list string)
    : M state (option (list ndarray)) :=
  st <- get_state ;;
  match od_get (providers (fst st)) provider_name with
  | Some p => try_provider provider_name p texts
  | None => ret None
  end.

(** [_generate_embeddings] *)
Definition _generate_embeddings (texts : list string) : M state (list ndarray) :=
  st0 <- get_state ;;
  r1 <- (if _is_provider_available (fst st0) (primary_provider_name (fst st0))
         then try_named (primary_provider_name (fst st0)) texts
         else ret None) ;;
  match r1 with
  | Some embeddings => ret embeddings
  | None =>
      st1 <- get_state ;;
      let em := fst st1 in
      r2 <- (if negb (String.eqb (fallback_provider_name em)
                                 (primary_provider_name em))
                && _is_provider_available em (fallback_provider_name em)
             then try_named (fallback_provider_name em) texts
             else ret None) ;;
      match r2 with
      | Some embeddings => ret embeddings
      | None => try_emergency (providers em) texts
      end
  end.

(** The loop of [_get_cached_embeddings] from index [i] on: the list of
    hits, with [None] at every miss, and the indices of the misses. *)
Fixpoint lookup_all (p : EmbeddingProvider) (s : S) (texts : list string)
    (i : nat) : list (option ndarray) * list nat :=
  match texts with
  | [] => ([], [])
  | text :: rest =>
      let '(hits, misses) := lookup_all p s rest (Datatypes.S i) in
      match get_cached_embedding (compute_text_hash text) (name p) (model p) s with
      | Some v => (Some v :: hits, misses)
      | None => (None :: hits, i :: misses)
      end
  end.

(** [_get_cached_embeddings] *)
Definition _get_cached_embeddings (texts : list string) (st : state)
    : option (list (option ndarray) * list nat) :=
  let em := fst st in
  if negb (has_storage_backend em) then None
  else match od_get (providers em) (primary_provider_name em) with
       | None => None
       | Some primary_provider => Some (lookup_all primary_provider (snd st) texts 0)
       end.

(** [_cache_embeddings] *)
Definition _cache_embeddings (texts : list string) (embeddings : list ndarray)
    : M state unit :=
  st <- get_state ;;
  let em := fst st in
  if negb (has_storage_backend em)
     || negb (length texts =? length embeddings)%nat
  then ret tt
  else match od_get (providers em) (primary_provider_name em) with
       | None => ret tt
       | Some primary_provider =>
           try_except
             (for_each (zip texts embeddings)
                (fun te =>
                   on_storage
                     (cache_embedding (compute_text_hash (fst te))
                        (name primary_provider) (model primary_provider)
                        (snd te))))
             (fun _ => ret tt)
       end.

(** The merge loop of [embed]: [idxs] are the positions still to fill,
    [cache_idx] and [miss_idx] the two running counters. *)
Fixpoint merge_loop (idxs : list nat) (cache_hits : list (option ndarray))
    (cache_misses : list nat) (new_embeddings : list ndarray)
    (cache_idx miss_idx : nat) : result (list (option ndarray)) :=
  match idxs with
  | [] => Ok []
  | i :: rest =>
      if existsb (Nat.eqb i) cache_misses
      then match nth_error new_embeddings miss_idx with
           | None => Raise (IndexError "list index out of range")
           | Some v =>
               match merge_loop rest cache_hits cache_misses new_embeddings
                       cache_idx (Datatypes.S miss_idx) with
               | Ok l => Ok (Some v :: l)
               | Raise e => Raise e
               end
           end
      else match nth_error cache_hits cache_idx with
           | None => Raise (IndexError "list index out of range")
           | Some h =>
               match merge_loop rest cache_hits cache_misses new_embeddings
                       (Datatypes.S cache_idx) miss_idx with
               | Ok l => Ok (h :: l)
               | Raise e => Raise e
               end
           end
  end.

(** [[texts[i] for i in cache_misses]] *)
Definition select (texts : list string) (idxs : list nat) : list string :=
  map (fun i => nth i texts EmptyString) idxs.

(** The tail of [embed]: generate everything, then cache. *)
Definition generate_all (texts : list string) : M state (list (option ndarray)) :=
  embeddings <- _generate_embeddings texts ;;
  st <- get_state ;;
  (match embeddings with
   | [] => ret tt
   | _ => if cache_enabled (fst st) && has_storage_backend (fst st)
          then _cache_embeddings texts embeddings
          else ret tt
   end) ;;;
  ret (map Some embeddings).

(** [EmbeddingManager.embed]. The result is a list of Python objects, each
    a vector or [None]. *)
Definition embed (texts : list string) : M state (list (option ndarray)) :=
  match texts with
  | [] => ret []
  | _ =>
      st <- get_state ;;
      match (if cache_enabled (fst st) && has_storage_backend (fst st)
             then _get_cached_embeddings texts st else None) with
      | Some (cache_hits, []) => ret cache_hits
      | Some (cache_hits, cache_misses) =>
          new_embeddings <- _generate_embeddings (select texts cache_misses) ;;
          match new_embeddings with
          | [] => generate_all texts
          | _ =>
              _cache_embeddings (select texts cache_misses) new_embeddings ;;;
              match merge_loop (seq 0 (length texts)) cache_hits cache_misses
                      new_embeddings 0 0 with
              | Ok result => ret result
              | Raise e => raise e
              end
          end
      | None => generate_all texts
      end
  end.

(** [EmbeddingManager.embed_single] *)
Definition embed_single (text : string) : M state (option ndarray) :=
  embeddings <- embed [text] ;;
  match embeddings with
  | v :: _ => ret v
  | [] => raise (IndexError "list index out of range")
  end.

End WithStorage.

End Embeddings.

(** ** The environment: file system, clock, importable modules *)

Module Env.

(** What a path names: a regular file, with the text its bytes decode to,
    or a directory. *)
Inductive kind : Type :=
| RegularFile (content : string)
| Directory.

(** An entry of the file system with the [stat] fields the code reads. *)
Record Entry : Type := mkEntry {
  e_kind : kind;
  st_size : Z;
  st_mtime : Z
}.

(** Paths are kept in the normal form that [str(Path(p))] prints. [fs] lists
    every path that exists; [now] is the reading of the clock;
    [legacy_importable] tells whether [backend.fastapi_chat] can be
    imported. *)
Record t : Type := mk {
  fs : list (string * Entry);
  now : Z;
  legacy_importable : bool
}.

(** [path.exists()] *)
Definition exists_ (env : t) (path : string) : bool := od_mem (fs env) path.

(** [path.stat()]; [None] stands for the [OSError] of a missing path. *)
Definition stat (env : t) (path : string) : option Entry := od_get (fs env) path.

(** [path.is_file()] *)
Definition is_file (env : t) (path : string) : bool :=
  match stat env path with
  | Some (mkEntry (RegularFile _) _ _) => true
  | _ => false
  end.

(** The text read from a regular file. *)
Definition read (env : t) (path : string) : option string :=
  match stat env path with
  | Some (mkEntry (RegularFile content) _ _) => Some content
  | _ => None
  end.

(** [dir_path.rglob('*')]: everything below the directory. *)
Definition rglob (env : t) (dir_path : string) : list string :=
  List.filter (fun p => PyStr.is_prefix (PyStr.chars (dir_path ++ "/")) (PyStr.chars p)
                   && negb (String.eqb p (dir_path ++ "/")))
         (map fst (fs env)).

End Env.

(** ** processing/file_processor.py *)

Module FileProcessor.
Import Models.
Local Open Scope py_scope.

Record t : Type := mk {
  chunk_size : Z;
  overlap : Z;
  max_file_size : Z;
  supported_extensions : list string;
  text_chunker : Chunker.TextChunker;
  markdown_chunker : Chunker.TextChunker
}.

Definition default_extensions : list string :=
  [".md"; ".txt"; ".py"; ".js"; ".ts"; ".html"; ".css";
   ".json"; ".yaml"; ".yml"; ".xml"; ".rst"; ".org"]%string.

(** [FileProcessor.__init__]; [supported_extensions or [...]] takes the
    default list for [None] and for the empty list. *)
Definition new (chunk_size_chars chunk_overlap_chars max_file_size_mb : Z)
    (supported_extensions : option (list string)) : result t :=
  match Chunker.TextChunker_new chunk_size_chars chunk_overlap_chars true with
  | Raise e => Raise e
  | Ok chunker =>
      Ok (mk chunk_size_chars chunk_overlap_chars
            (max_file_size_mb * 1024 * 1024)
            (match supported_extensions with
             | Some (e :: l) => e :: l
             | _ => default_extensions
             end)
            chunker chunker)
  end.

(** [str.lower] on the code points below 256. *)
Definition lower_char (c : ascii) : ascii :=
  let n := PyStr.ord c in
  if ((65 <=? n) && (n <=? 90))
     || ((192 <=? n) && (n <=? 222) && negb (n =? 215))
  then ascii_of_N (Z.to_N (n + 32)) else c.

Definition lower (s : string) : string :=
  PyStr.of_chars (map lower_char (PyStr.chars s)).

(** Last position of [c] in [l], counted from [pos]; [-1] if absent. *)
Fixpoint rfind_char (c : ascii) (l : list ascii) (pos : Z) (best : Z) : Z :=
  match l with
  | [] => best
  | d :: r => rfind_char c r (pos + 1) (if Ascii.eqb c d then pos else best)
  end.

(** [Path.name]: what follows the last slash. *)
Definition path_name (path : string) : string :=
  let i := rfind_char (ascii_of_N 47) (PyStr.chars path) 0 (-1) in
  PyStr.slice path (Some (i + 1)) None.

(** [Path.suffix] *)
Definition suffix (path : string) : string :=
  let name := path_name path in
  let i := rfind_char (ascii_of_N 46) (PyStr.chars name) 0 (-1) in
  if (0 <? i) && (i <? PyStr.len name - 1)
  then PyStr.slice name (Some i) None else EmptyString.

(** [_is_supported_file] *)
Definition _is_supported_file (self : t) (file_path : string) : bool :=
  existsb (String.eqb (lower (suffix file_path))) (supported_extensions self).

(** [uuid.uuid4()] as a supply: the [n]-th identifier handed out. *)
Definition uuid_of (n : nat) : string := ("uuid-" ++ pretty n)%string.

(** [_create_chunks], numbering the chunk identifiers from [n]. The
    [mime_type] entry of the metadata (a table lookup of [mimetypes]) is
    left out. *)
Fixpoint chunk_infos (file_id : string) (text_chunks : list Chunker.TextChunk)
    (i : Z) (n : nat) : list ChunkInfo :=
  match text_chunks with
  | [] => []
  | tc :: rest =>
      mkChunkInfo (uuid_of n) file_id (Chunker.text tc)
        (Chunker.start_char tc) (Chunker.end_char tc)
        (dict_update
           [("chunk_index", PyStr.str_of_int i);
            ("chunk_hash", SHA256.sha256_hex (Chunker.text tc))]%string
           (Chunker.metadata tc))
      :: chunk_infos file_id rest (i + 1) (S n)
  end.

Definition _create_chunks (self : t) (env : Env.t) (file_info : FileInfo)
    (content : string) (n : nat) : list ChunkInfo :=
  let chunk_metadata : pydict :=
    [("file_type", match od_get (fi_metadata file_info) "extension" with
                   | Some v => v | None => EmptyString end);
     ("source_file", fi_path file_info)]%string in
  let text_chunks :=
    if PyStr.endswith (fi_path file_info) ".md"
    then Chunker.markdown_chunk_text (markdown_chunker self) content chunk_metadata
    else Chunker.chunk_text (Env.legacy_importable env) (text_chunker self)
           content chunk_metadata in
  chunk_infos (fi_id file_info) text_chunks 0 n.

(** [process_text]: the identifiers come from the supply, whose counter is
    the state. *)
Definition process_text (self : t) (env : Env.t) (text : string)
    (source_id title : option string) (metadata : option pydict)
    : M nat (FileInfo * list ChunkInfo) :=
  fun n =>
    let '(file_id, n1) :=
      match source_id with
      | Some (String c r) => (String c r, n)
      | _ => (uuid_of n, S n)
      end in
    let file_path :=
      match title with
      | Some (String c r) => String c r
      | _ => ("text_" ++ file_id)%string
      end in
    let file_info :=
      mkFileInfo file_id file_path (MD5.md5_hex text) (PyStr.len text)
        (Env.now env)
        (dict_update
           [("type", "text");
            ("title", match title with Some t => t | None => "None" end)]%string
           (match metadata with Some m => m | None => [] end)) in
    let chunks := _create_chunks self env file_info text n1 in
    (Ok (file_info, chunks), (n1 + length chunks)%nat).

(** [_create_file_info] *)
Definition _create_file_info (file_path : string) (content : string)
    (f : Env.Entry) (metadata : option pydict) (file_id : string) : FileInfo :=
  mkFileInfo file_id file_path (MD5.md5_hex content)
    (PyStr.len content) (Env.st_mtime f)
    (dict_update
       [("extension", suffix file_path); ("encoding", "utf-8")]%string
       (match metadata with Some m => m | None => [] end)).

(** [process_file] *)
Definition process_file (self : t) (env : Env.t) (file_path : string)
    (metadata : option pydict) : M nat (FileInfo * list ChunkInfo) :=
  fun n =>
    if negb (Env.exists_ env file_path)
    then (Raise (FileNotFoundError ("File not found: " ++ file_path)), n)
    else match Env.stat env file_path, Env.read env file_path with
         | Some f, Some content =>
             if max_file_size self <? Env.st_size f
             then (Raise (ValueError "File too large"), n)
             else if negb (_is_supported_file self file_path)
             then (Raise (ValueError ("Unsupported file type: " ++ suffix file_path)), n)
             else
               let file_info :=
                 _create_file_info file_path content f metadata (uuid_of n) in
               let chunks := _create_chunks self env file_info content (S n) in
               (Ok (file_info, chunks), (S n + length chunks)%nat)
         | _, _ => (Raise (ValueError ("Not a file: " ++ file_path)), n)
         end.

(** [get_file_hash]: a digest of path, size and modification time. *)
Definition get_file_hash (env : Env.t) (file_path : string) : option string :=
  match Env.stat env file_path with
  | Some f =>
      Some (MD5.md5_hex
              (file_path ++ ":" ++ PyStr.str_of_int (Env.st_size f) ++ ":"
                         ++ PyStr.str_of_float (Env.st_mtime f)))
  | None => None
  end.

(** [is_file_changed]; a failing [stat] lands in the [except] branch. *)
Definition is_file_changed (env : Env.t) (file_path : string)
    (stored_hash : string) (stored_mtime : Z) : bool :=
  if negb (Env.exists_ env file_path) then true
  else match Env.stat env file_path with
       | None => true
       | Some f =>
           if 1 <? Z.abs (Env.st_mtime f - stored_mtime) then true
           else match get_file_hash env file_path with
                | Some current_hash => negb (String.eqb current_hash stored_hash)
                | None => true
                end
       end.

End FileProcessor.

(** ** manager.py *)

Module Manager.
Import Models StorageBase.
Local Open Scope py_scope.

(** [str(e)] *)
Definition exn_message (e : exn) : string :=
  match e with
  | ValueError msg | RuntimeError msg | IntegrityError msg
  | FileNotFoundError msg | IndexError msg => msg
  | ValidationError fields => "validation error"
  | CancelledError => EmptyString
  end.

Section WithStorage.
Context {S : Type} `{StorageBackend S}.

(** The manager after [initialize()], so that the guard
    [if not self.is_initialized] of the public methods does nothing.
    [watch_directories] is [config.files.watch_directories];
    [uuid_counter] is the state of the identifier supply. The embedding
    manager shares [storage] when caching is configured. *)
Record t : Type := mk {
  storage : S;
  embeddings : Embeddings.EmbeddingManager;
  file_processor : FileProcessor.t;
  watch_directories : list string;
  last_sync : option Z;
  sync_in_progress : bool;
  uuid_counter : nat
}.

Definition set_sync_in_progress (b : bool) (mm : t) : t :=
  mk (storage mm) (embeddings mm) (file_processor mm) (watch_directories mm)
     (last_sync mm) b (uuid_counter mm).

Definition set_last_sync (z : Z) (mm : t) : t :=
  mk (storage mm) (embeddings mm) (file_processor mm) (watch_directories mm)
     (Some z) (sync_in_progress mm) (uuid_counter mm).

Definition on_storage {A : Type} (m : M S A) : M t A :=
  fun mm =>
    let '(r, s') := m (storage mm) in
    (r, mk s' (embeddings mm) (file_processor mm) (watch_directories mm)
           (last_sync mm) (sync_in_progress mm) (uuid_counter mm)).

Definition on_embeddings {A : Type} (m : M (Embeddings.state (S := S)) A)
    : M t A :=
  fun mm =>
    let '(r, (em', s')) := m (embeddings mm, storage mm) in
    (r, mk s' em' (file_processor mm) (watch_directories mm)
           (last_sync mm) (sync_in_progress mm) (uuid_counter mm)).

Definition on_uuid {A : Type} (m : M nat A) : M t A :=
  fun mm =>
    let '(r, n') := m (uuid_counter mm) in
    (r, mk (storage mm) (embeddings mm) (file_processor mm)
           (watch_directories mm) (last_sync mm) (sync_in_progress mm) n').

(** The loop [for chunk in chunks: embed_single; add_chunk]. *)
Definition store_chunks (chunks : list ChunkInfo) : M t unit :=
  for_each chunks
    (fun chunk =>
       embedding <- on_embeddings (Embeddings.embed_single (ci_text chunk)) ;;
       on_storage (add_chunk chunk embedding) ;;;
       ret tt).

(** [ingest_text] *)
Definition ingest_text (env : Env.t) (text : string)
    (metadata : option pydict) : M t string :=
  mm <- get_state ;;
  fc <- on_uuid (FileProcessor.process_text (file_processor mm) env text
                   None None metadata) ;;
  file_id <- on_storage (add_file (fst fc)) ;;
  store_chunks (snd fc) ;;;
  ret file_id.

Definition with_id (file_info : FileInfo) (id : string) : FileInfo :=
  mkFileInfo id (fi_path file_info) (fi_hash file_info) (fi_size file_info)
    (fi_mtime file_info) (fi_metadata file_info).

(** What [ingest_file] does once the file is known to need processing. *)
Definition ingest_file_process (env : Env.t) (file_path : string)
    (metadata : option pydict) (existing_file : option FileInfo)
    : M t string :=
  mm <- get_state ;;
  fc <- on_uuid (FileProcessor.process_file (file_processor mm) env
                   file_path metadata) ;;
  file_id <- match existing_file with
             | Some existing =>
                 on_storage (update_file (with_id (fst fc) (fi_id existing))) ;;;
                 ret (fi_id existing)
             | None => on_storage (add_file (fst fc))
             end ;;
  store_chunks (snd fc) ;;;
  ret file_id.

(** [ingest_file] *)
Definition ingest_file (env : Env.t) (file_path : string)
    (metadata : option pydict) : M t string :=
  mm <- get_state ;;
  match get_file_by_path file_path (storage mm) with
  | Some existing_file =>
      if negb (FileProcessor.is_file_changed env file_path
                 (fi_hash existing_file) (fi_mtime existing_file))
      then ret (fi_id existing_file)
      else on_storage (delete_chunks_by_file (fi_id existing_file)) ;;;
           ingest_file_process env file_path metadata (Some existing_file)
  | None => ingest_file_process env file_path metadata None
  end.

Definition bump (stats : SyncStats) (added updated : Z) : SyncStats :=
  mkSyncStats (files_processed stats + 1) (files_added stats + added)
    (files_updated stats + updated) (files_deleted stats)
    (chunks_created stats) (embeddings_generated stats) (errors stats).

Definition add_error (stats : SyncStats) (msg : string) : SyncStats :=
  mkSyncStats (files_processed stats) (files_added stats)
    (files_updated stats) (files_deleted stats) (chunks_created stats)
    (embeddings_generated stats) (errors stats ++ [msg]).

(** The body of the loop of [_sync_files] for one path. *)
Definition sync_one (env : Env.t) (stats : SyncStats) (file_path : string)
    : M t SyncStats :=
  try_except
    (mm <- get_state ;;
     match get_file_by_path file_path (storage mm) with
     | Some existing_file =>
         if FileProcessor.is_file_changed env file_path
              (fi_hash existing_file) (fi_mtime existing_file)
         then ingest_file env file_path None ;;; ret (bump stats 0 1)
         else ret (bump stats 0 0)
     | None => ingest_file env file_path None ;;; ret (bump stats 1 0)
     end)
    (fun e => ret (add_error stats (file_path ++ ": " ++ exn_message e))).

(** [_sync_files] *)
Fixpoint _sync_files_from (env : Env.t) (files : list string)
    (stats : SyncStats) : M t SyncStats :=
  match files with
  | [] => ret stats
  | file_path :: rest =>
      stats' <- sync_one env stats file_path ;;
      _sync_files_from env rest stats'
  end.

Definition _sync_files (env : Env.t) (files : list string) : M t SyncStats :=
  _sync_files_from env files SyncStats_default.

(** The [try] block of [sync_files]. *)
Definition sync_files_body (env : Env.t) (paths : option (list string))
    : M t SyncStats :=
  mm <- get_state ;;
  let files_to_sync :=
    match paths with
    | Some (p :: ps) => p :: ps
    | _ => flat_map (fun dir_path =>
                       if Env.exists_ env dir_path
                       then Env.rglob env dir_path else [])
                    (watch_directories mm)
    end in
  let files_to_sync :=
    List.filter (fun f => Env.is_file env f
                     && FileProcessor._is_supported_file (file_processor mm) f)
           files_to_sync in
  stats <- _sync_files env files_to_sync ;;
  modify (set_last_sync (Env.now env)) ;;;
  ret stats.

(** [sync_files]; the elapsed time written into the statistics is not
    modelled. *)
Definition sync_files (env : Env.t) (paths : option (list string))
    : M t SyncStats :=
  mm <- get_state ;;
  if sync_in_progress mm
  then ret (mkSyncStats 0 0 0 0 0 0 [])
  else modify (set_sync_in_progress true) ;;;
       try_finally (sync_files_body env paths) (set_sync_in_progress false).

(** The identifiers still to come from the supply name no stored file, no
    stored chunk and no synthetic path: the model's reading of "a fresh
    random uuid". *)
Definition uuid_fresh (mm : t) : Prop :=
  forall k, (uuid_counter mm <= k)%nat ->
    get_file (FileProcessor.uuid_of k) (storage mm) = None
    /\ get_file_by_path ("text_" ++ FileProcessor.uuid_of k) (storage mm) = None
    /\ get_chunk (FileProcessor.uuid_of k) (storage mm) = None.

End WithStorage.

Arguments t S : clear implicits.

End Manager.

(** ** search/hybrid.py *)

Module HybridSearch.
Import Models.

(** The composite key [f"{result.file_id}:{result.start_char}"] *)
Definition key (r : SearchResult) : string :=
  (sr_file_id r ++ ":" ++ PyStr.str_of_int (sr_start_char r))%string.

Definition set_excerpt (r : SearchResult) (e : option string) : SearchResult :=
  mkSearchResult (sr_file_id r) (sr_file_path r) (sr_text r) (sr_score r)
    (sr_start_char r) (sr_end_char r) e (sr_search_type r) (sr_vector_score r)
    (sr_keyword_score r) (sr_combined_score r) (sr_vector_weight r)
    (sr_keyword_weight r) (sr_appears_in_both r).

Definition set_sub_scores (r : SearchResult) (kw_score v_score : Q)
    : SearchResult :=
  mkSearchResult (sr_file_id r) (sr_file_path r) (sr_text r) (sr_score r)
    (sr_start_char r) (sr_end_char r) (sr_excerpt r) (sr_search_type r)
    (Some v_score) (Some kw_score) (sr_combined_score r) (sr_vector_weight r)
    (sr_keyword_weight r) (sr_appears_in_both r).

(** The three dicts of [_merge_results]. *)
Record merge_state : Type := mkMergeState {
  result_map : list (string * SearchResult);
  vector_scores : list (string * Q);
  keyword_scores : list (string * Q)
}.

(** Body of the loop over the vector results. *)
Definition add_vector (st : merge_state) (result : SearchResult) : merge_state :=
  mkMergeState (od_set (result_map st) (key result) result)
    (od_set (vector_scores st) (key result) (sr_score result))
    (keyword_scores st).

(** Body of the loop over the keyword results. *)
Definition add_keyword (st : merge_state) (result : SearchResult) : merge_state :=
  let k := key result in
  match od_get (result_map st) k with
  | Some existing =>
      let existing1 :=
        match sr_excerpt result with
        | Some e => if PyStr.truthy e && PyStr.contains e "..."
                    then set_excerpt existing (Some e) else existing
        | None => existing
        end in
      let existing2 :=
        match sr_keyword_score existing1 with
        | None => set_sub_scores existing1 (sr_score result)
                    (default 0%Q (od_get (vector_scores st) k))
        | Some _ => existing1
        end in
      mkMergeState (od_set (result_map st) k existing2) (vector_scores st)
        (od_set (keyword_scores st) k (sr_score result))
  | None =>
      mkMergeState (od_set (result_map st) k result)
        (od_set (vector_scores st) k 0%Q)
        (od_set (keyword_scores st) k (sr_score result))
  end.

(** The combined score of one key, before clamping. *)
Definition combined_score (vector_score keyword_score vector_weight keyword_weight : Q)
    : Q :=
  let combined := (vector_score * vector_weight + keyword_score * keyword_weight)%Q in
  if Qgtb vector_score 0 && Qgtb keyword_score 0
  then (combined * (11 # 10))%Q else combined.

(** Body of the loop that computes the final score of one entry. *)
Definition finalize (st : merge_state) (vector_weight keyword_weight : Q)
    (kv : string * SearchResult) : SearchResult :=
  let '(k, result) := kv in
  let vector_score := default 0%Q (od_get (vector_scores st) k) in
  let keyword_score := default 0%Q (od_get (keyword_scores st) k) in
  let combined := combined_score vector_score keyword_score
                    vector_weight keyword_weight in
  mkSearchResult (sr_file_id result) (sr_file_path result) (sr_text result)
    (py_min 1 combined) (sr_start_char result) (sr_end_char result)
    (sr_excerpt result) "hybrid" (Some vector_score) (Some keyword_score)
    (Some combined) (Some vector_weight) (Some keyword_weight)
    (Some (Qgtb vector_score 0 && Qgtb keyword_score 0)).

(** [list.sort(key=lambda x: x.score, reverse=True)]: stable, descending. *)
Fixpoint insert_by_score (r : SearchResult) (l : list SearchResult)
    : list SearchResult :=
  match l with
  | [] => [r]
  | x :: rest => if Qle_bool (sr_score x) (sr_score r) then r :: l
                 else x :: insert_by_score r rest
  end.

Definition sort_by_score (l : list SearchResult) : list SearchResult :=
  fold_right insert_by_score [] l.

(** [_merge_results] *)
Definition _merge_results (vector_results keyword_results : list SearchResult)
    (vector_weight keyword_weight : Q) : list SearchResult :=
  let st := fold_left add_keyword keyword_results
              (fold_left add_vector vector_results (mkMergeState [] [] [])) in
  sort_by_score (map (finalize st vector_weight keyword_weight) (result_map st)).

(** [w or d] on an optional float: [None] and [0.0] are both falsy. *)
Definition or_default (w : option Q) (d : Q) : Q :=
  match w with
  | Some x => if Qeq_bool x 0 then d else x
  | None => d
  end.

(** [l[:n]] *)
Definition list_prefix {A : Type} (l : list A) (n : Z) : list A :=
  take (Z.to_nat (PyStr.clamp_index (Z.of_nat (length l)) n)) l.

Section Engines.
(** [self.vector_search.search(query, .)] and
    [self.keyword_search.search(query, .)] for the query at hand. *)
Variable vector_search : SearchOptions -> result (list SearchResult).
Variable keyword_search : SearchOptions -> result (list SearchResult).

(** The [try] block of [_hybrid_search]. *)
Definition hybrid_try (options : SearchOptions) : result (list SearchResult) :=
  match SearchOptions_new (mode options) (max_results options * 3)
          (py_max (1 # 10) (min_score options - (2 # 10))%Q)
          (sources options) (vector_weight options) (keyword_weight options) with
  | Raise e => Raise e
  | Ok expanded_options =>
      match vector_search expanded_options, keyword_search expanded_options with
      | Ok vector_results, Ok keyword_results =>
          let merged_results :=
            _merge_results vector_results keyword_results
              (or_default (vector_weight options) (7 # 10))
              (or_default (keyword_weight options) (3 # 10)) in
          let filtered_results :=
            List.filter (fun r => Qgeb (sr_score r) (min_score options)) merged_results in
          Ok (list_prefix filtered_results (max_results options))
      | Raise e, _ => Raise e
      | _, Raise e => Raise e
      end
  end.

(** [_hybrid_search]: on an [Exception] fall back to the vector search
    and, if that raises anything, to the keyword search. *)
Definition _hybrid_search (options : SearchOptions) : result (list SearchResult) :=
  match hybrid_try options with
  | Ok results => Ok results
  | Raise e =>
      if is_Exception e then
        match vector_search options with
        | Ok results => Ok results
        | Raise _ => keyword_search options
        end
      else Raise e
  end.

(** [HybridSearch.search] for given options. *)
Definition search (options : SearchOptions) : result (list SearchResult) :=
  match mode options with
  | ModeVector => vector_search options
  | ModeKeyword => keyword_search options
  | ModeHybrid => _hybrid_search options
  end.
End Engines.

(** *** The merge in the words of the specification

    The definitions below follow the description of the merge, not the
    code: they are what the results of the code are compared with. *)

(** The score a mode gave to the span with key [k]: that of the result it
    returned for the span (the last one if it returned several), and 0 if
    it did not return the span. *)
Definition spec_mode_score (results : list SearchResult) (k : string) : Q :=
  match List.find (fun r => String.eqb (key r) k) (rev results) with
  | Some r => sr_score r
  | None => 0%Q
  end.

(** Whether a mode returned the span with key [k]. *)
Definition spec_in_mode (results : list SearchResult) (k : string) : bool :=
  existsb (fun r => String.eqb (key r) k) results.

(** Weighted sum, 10% bonus for a span found by both modes, clamp to 1. *)
Definition spec_combined (vector_results keyword_results : list SearchResult)
    (vector_weight keyword_weight : Q) (k : string) : Q :=
  let combined :=
    (spec_mode_score vector_results k * vector_weight
     + spec_mode_score keyword_results k * keyword_weight)%Q in
  py_min 1
    (if spec_in_mode vector_results k && spec_in_mode keyword_results k
     then (combined * (11 # 10))%Q else combined).

(** Descending order of the scores. *)
Definition score_ge (a b : SearchResult) : Prop := (sr_score b <= sr_score a)%Q.

End HybridSearch.

(** ** Concrete inputs used by the evaluations below *)

Module Scenarios.
Import Models.

Definition nl : string := String Chunker.newline EmptyString.

(** *** Chunker *)

(** Two paragraphs separated by four newlines. *)
Definition gap_text : string := ("a" ++ nl ++ nl ++ nl ++ nl ++ "b")%string.

Definition default_chunker : Chunker.TextChunker :=
  Chunker.mkTextChunker 1000 200 true.

Definition window_text : string := "ab cdefghijklmnop".

Definition window_chunker : Chunker.TextChunker :=
  Chunker.mkTextChunker 10 0 false.

(** *** SQLite backend *)

Definition notes_file : FileInfo :=
  mkFileInfo "f1" "notes.txt" "5d41402abc4b2a76b9719d911017c592" 5 1700000000 [].

Definition notes_chunk : ChunkInfo := mkChunkInfo "c1" "f1" "hello" 0 5 [].

Definition unit_vector : ndarray := repeat (1 # 1)%Q SQLiteBackend.vec_dimension.

(** A database with the vector extension holding one file and its chunk. *)
Definition db_with_file : SQLiteBackend.t :=
  snd (SQLiteBackend.add_chunk notes_chunk (Some unit_vector)
         (snd (SQLiteBackend.add_file notes_file (SQLiteBackend.empty true)))).

(** *** Embedding cache *)

Definition v1 : ndarray := [(1 # 1)%Q].
Definition v2 : ndarray := [(2 # 1)%Q].

(** *** Embedding manager *)

(** A provider that answers every text with the one-dimensional vector
    holding the length of the text. *)
Definition length_provider : Embeddings.EmbeddingProvider :=
  Embeddings.mkProvider "local" "mini"
    (fun texts => Ok (map (fun t => [(Z.of_nat (String.length t) # 1)%Q]) texts))
    true.

Definition caching_manager : Embeddings.EmbeddingManager :=
  Embeddings.mkManager "local" "local" true true
    [("local"%string, length_provider)] {["local"%string := true]}
    {["local"%string := 0]} 2.

(** A cache that knows the vector of ["bb"] only. *)
Definition cache_with_bb : SQLiteBackend.t :=
  snd (SQLiteBackend.cache_embedding (Embeddings.compute_text_hash "bb")
         "local" "mini" [(2 # 1)%Q] (SQLiteBackend.empty false)).

(** A provider whose call is cancelled while it is awaited. *)
Definition cancelled_provider : Embeddings.EmbeddingProvider :=
  Embeddings.mkProvider "local" "mini" (fun _ => Raise CancelledError) true.

Definition docs_env : Env.t :=
  Env.mk [("docs"%string, Env.mkEntry Env.Directory 4096 1700000000);
          ("docs/a.txt"%string,
           Env.mkEntry (Env.RegularFile "hello") 5 1700000000)]
         1700000100 false.

Definition text_processor : FileProcessor.t :=
  FileProcessor.mk 1000 200 (10 * 1024 * 1024) FileProcessor.default_extensions
    default_chunker default_chunker.

(** An idle manager on an empty SQLite database. *)
Definition idle_manager (p : Embeddings.EmbeddingProvider)
    : Manager.t SQLiteBackend.t :=
  Manager.mk (SQLiteBackend.empty false)
    (Embeddings.mkManager "local" "local" true true [("local"%string, p)]
       {["local"%string := true]} {["local"%string := 0]} 2)
    text_processor ["docs"%string] None false 0.

(** The same manager while a sync is running. *)
Definition busy_manager (p : Embeddings.EmbeddingProvider)
    : Manager.t SQLiteBackend.t :=
  Manager.set_sync_in_progress true (idle_manager p).

(** The same manager on the in-memory backend. *)
Definition idle_memory_manager (p : Embeddings.EmbeddingProvider)
    : Manager.t MemoryBackend.t :=
  Manager.mk MemoryBackend.empty
    (Embeddings.mkManager "local" "local" true true [("local"%string, p)]
       {["local"%string := true]} {["local"%string := 0]} 2)
    text_processor ["docs"%string] None false 0.

(** *** Hybrid search *)

Definition span_result (file_id : string) (start_char : Z) (score : Q)
    (search_type : string) : SearchResult :=
  mkSearchResult file_id "notes.txt" "hello" score start_char (start_char + 5)
    None search_type None None None None None None.

Definition vector_hit : SearchResult := span_result "f1" 0 (5 # 10) "vector".
Definition keyword_hit : SearchResult := span_result "f1" 0 (9 # 10) "keyword".

(** Engines that return the same candidates whatever the options. *)
Definition vector_engine (_ : SearchOptions) : result (list SearchResult) :=
  Ok [vector_hit].
Definition keyword_engine (_ : SearchOptions) : result (list SearchResult) :=
  Ok [keyword_hit].
Definition silent_engine (_ : SearchOptions) : result (list SearchResult) :=
  Ok [].

(** Keyword-only weighting, and a request for 34 results. *)
Definition keyword_only_options : SearchOptions :=
  mkSearchOptions ModeHybrid 10 (3 # 10) None (Some 0%Q) (Some 1%Q).
Definition many_results_options : SearchOptions :=
  mkSearchOptions ModeHybrid 34 (3 # 10) None (Some (7 # 10)%Q) (Some (3 # 10)%Q).
Definition usual_options : SearchOptions :=
  mkSearchOptions ModeHybrid 10 (3 # 10) None (Some (7 # 10)%Q) (Some (3 # 10)%Q).

(** A remote provider whose every call fails. *)
Definition failing_provider : Embeddings.EmbeddingProvider :=
  Embeddings.mkProvider "openai" "text-embedding-3-small"
    (fun _ => Raise (RuntimeError "connection refused")) true.

(** The manager right after [initialize()] with [openai] as primary and the
    local provider as fallback. *)
Definition fallback_manager : Embeddings.EmbeddingManager :=
  Embeddings.mkManager "openai" "local" true true
    [("openai"%string, failing_provider); ("local"%string, length_provider)]
    {["openai"%string := true; "local"%string := true]}
    {["openai"%string := 0; "local"%string := 0]} 2.

End Scenarios.

(** ** storage/sqlite_backend.py: the databases the backend can build *)

Module SQLiteSchema.
Import Models SQLiteBackend.

(** One call of a method of the backend that writes. *)
Inductive call : Type :=
| AddFile (file_info : FileInfo)
| UpdateFile (file_info : FileInfo)
| DeleteFile (file_id : string)
| AddChunk (chunk_info : ChunkInfo) (emb : option ndarray)
| DeleteChunksByFile (file_id : string)
| CacheEmbedding (text_hash provider model : string) (emb : ndarray).

(** The database after one call, whether the call returned or raised. *)
Definition run (db : t) (c : call) : t :=
  match c with
  | AddFile file_info => snd (add_file file_info db)
  | UpdateFile file_info => snd (update_file file_info db)
  | DeleteFile file_id => snd (delete_file file_id db)
  | AddChunk chunk_info emb => snd (add_chunk chunk_info emb db)
  | DeleteChunksByFile file_id => snd (delete_chunks_by_file file_id db)
  | CacheEmbedding text_hash provider model emb =>
      snd (cache_embedding text_hash provider model emb db)
  end.

(** The database a sequence of calls builds from the new schema. *)
Definition after (has_vector_support : bool) (calls : list call) : t :=
  fold_left run calls (empty has_vector_support).

(** [files.id] is the primary key and [files.path] is unique. *)
Definition files_unique (db : t) : Prop :=
  List.NoDup (map fi_id (files db)) /\ List.NoDup (map fi_path (files db)).

(** [chunks.id] is unique; [chunks.rowid] is unique and was handed out by
    the AUTOINCREMENT counter. *)
Definition chunks_unique (db : t) : Prop :=
  List.NoDup (map (fun r => ci_id (chunk r)) (chunks db))
  /\ List.NoDup (map rowid (chunks db))
  /\ 0 <= chunks_seq db
  /\ (forall r, In r (chunks db) -> 0 < rowid r <= chunks_seq db).

(** [embedding_cache.hash] is the primary key. *)
Definition cache_unique (db : t) : Prop :=
  List.NoDup (map c_hash (embedding_cache db)).

(** [chunks.file_id] references a row of [files]. *)
Definition foreign_keys (db : t) : Prop :=
  forall r, In r (chunks db) -> get_file (ci_file_id (chunk r)) db <> None.

(** The full-text index holds the text of every chunk row under the row's
    rowid. *)
Definition fts_mirrors (db : t) : Prop :=
  forall r, In r (chunks db) -> In (rowid r, ci_text (chunk r)) (chunks_fts db).

End SQLiteSchema.

(** ** embeddings/manager.py: resetting the failure counts *)

Module EmbeddingsReset.
Import Embeddings.

(** The body of the loop of [reset_failures] for one registered provider. *)
Definition reset_registered (em : EmbeddingManager)
    (item : string * EmbeddingProvider) : EmbeddingManager :=
  set_failures em
    (<[fst item := is_available (snd item)]> (provider_status em))
    (<[fst item := 0]> (failure_counts em)).

(** [reset_failures]; [if provider_name:] sends [None] and the empty string
    to the branch that resets every registered provider. *)
Definition reset_failures (em : EmbeddingManager) (provider_name : option string)
    : EmbeddingManager :=
  match provider_name with
  | Some (String c r) =>
      let n := String c r in
      let counts := <[n := 0]> (failure_counts em) in
      match od_get (providers em) n with
      | Some p => set_failures em (<[n := is_available p]> (provider_status em)) counts
      | None => set_failures em (provider_status em) counts
      end
  | _ => fold_left reset_registered (providers em) em
  end.

End EmbeddingsReset.

(** ** Further concrete inputs *)

Module Examples.
Import Models.

(** A manager whose only provider fails on every call. *)
Definition broken_manager : Embeddings.EmbeddingManager :=
  Embeddings.mkManager "openai" "openai" true true
    [("openai"%string, Scenarios.failing_provider)]
    {["openai"%string := true]} {["openai"%string := 0]} 2.

End Examples.

(** ** storage/memory_backend.py: the states the backend can reach *)

Module MemorySchema.
Import Models MemoryBackend.

(** One call of a method of the backend that writes. *)
Inductive call : Type :=
| AddFile (file_info : FileInfo)
| UpdateFile (file_info : FileInfo)
| DeleteFile (file_id : string)
| AddChunk (chunk_info : ChunkInfo) (emb : option ndarray)
| DeleteChunksByFile (file_id : string)
| CacheEmbedding (text_hash provider model : string) (emb : ndarray).

(** The backend and the shared arrays after one call, whether the call
    returned or raised. *)
Definition run (b : t) (c : call) : t :=
  match c with
  | AddFile file_info => snd (add_file file_info b)
  | UpdateFile file_info => snd (update_file file_info b)
  | DeleteFile file_id => snd (delete_file file_id b)
  | AddChunk chunk_info emb => snd (add_chunk chunk_info emb b)
  | DeleteChunksByFile file_id => snd (delete_chunks_by_file file_id b)
  | CacheEmbedding text_hash provider model emb =>
      snd (cache_embedding text_hash provider model emb b)
  end.

(** What a sequence of calls builds from a new backend next to empty shared
    arrays. *)
Definition after (calls : list call) : t := fold_left run calls empty.

(** A Python dict holds one entry per key. *)
Definition keys_unique (b : t) : Prop :=
  List.NoDup (map fst (files b))
  /\ List.NoDup (map fst (chunks b))
  /\ List.NoDup (map fst (chunk_embeddings b))
  /\ List.NoDup (map fst (chunk_to_global_index b)).

(** The position recorded for a chunk lies inside the shared
    [embeddings_store] and holds the chunk's own vector; no two chunks are
    recorded at one position; [metadatas] runs parallel to
    [embeddings_store]. *)
Definition index_consistent (b : t) : Prop :=
  length (metadatas b) = length (embeddings_store b)
  /\ (forall chunk_id global_index,
        od_get (chunk_to_global_index b) chunk_id = Some global_index ->
        0 <= global_index < Z.of_nat (length (embeddings_store b))
        /\ exists e,
             od_get (chunk_embeddings b) chunk_id = Some e
             /\ nth_error (embeddings_store b) (Z.to_nat global_index) = Some e)
  /\ (forall c1 c2 global_index,
        od_get (chunk_to_global_index b) c1 = Some global_index ->
        od_get (chunk_to_global_index b) c2 = Some global_index ->
        c1 = c2).

End MemorySchema.
(** ** models.py: construction of a SearchResult *)

Module SearchResults.
Import Models.

(** [SearchResult(file_id=..., ..., score=..., start_char=..., end_char=...)]:
    [score] within [0, 1], both offsets at least 0, and the validator of
    [end_char], which compares with [values.get('start_char', 0)], that is
    with 0 when [start_char] failed its own check. The record keeps the
    entry [search_type] of [metadata]; the entries that only echo the chunk
    and the file are left out. *)
Definition SearchResult_new (file_id file_path text : string) (score : Q)
    (start_char end_char : Z) (excerpt : option string) (search_type : string)
    : result SearchResult :=
  let e_score := if float_in_range 0 1 score then [] else ["score"%string] in
  let start_ok := 0 <=? start_char in
  let e_start := if start_ok then [] else ["start_char"%string] in
  let e_end :=
    if 0 <=? end_char
    then if end_char <? (if start_ok then start_char else 0)
         then ["end_char"%string] else []
    else ["end_char"%string] in
  match (e_score ++ e_start ++ e_end)%list with
  | [] => Ok (mkSearchResult file_id file_path text score start_char end_char
                excerpt search_type None None None None None None)
  | errs => Raise (ValidationError errs)
  end.

End SearchResults.

(** ** search/keyword_search.py *)

Module KeywordSearch.
Import Models PyStr StorageBase.

(** The class [\w] of [re] on a [str] pattern, for the code points below
    256: digits, letters, the underscore and the Latin-1 characters that
    [str.isalnum] accepts. *)
Definition is_word_char (c : ascii) : bool :=
  let n := ord c in
  ((48 <=? n) && (n <=? 57)) || ((65 <=? n) && (n <=? 90)) || (n =? 95)
  || ((97 <=? n) && (n <=? 122)) || (n =? 170)
  || ((178 <=? n) && (n <=? 179)) || (n =? 181)
  || ((185 <=? n) && (n <=? 186)) || ((188 <=? n) && (n <=? 190))
  || ((192 <=? n) && (n <=? 214)) || ((216 <=? n) && (n <=? 246))
  || ((248 <=? n) && (n <=? 255)).

(** [re.findall(r'\b\w+\b', s)]: the maximal runs of word characters, from
    left to right; [cur] holds the current run reversed. *)
Fixpoint word_runs (l cur : list ascii) : list string :=
  match l with
  | [] => match cur with [] => [] | _ => [of_chars (rev cur)] end
  | c :: r =>
      if is_word_char c then word_runs r (c :: cur)
      else match cur with
           | [] => word_runs r []
           | _ => of_chars (rev cur) :: word_runs r []
           end
  end.

(** [_extract_terms] *)
Definition _extract_terms (text : string) : list string :=
  List.filter (fun term => 2 <=? len term)
    (word_runs (chars (FileProcessor.lower text)) []).

(** [Counter(text_terms).get(term, 0)] *)
Definition term_frequency (text_terms : list string) (term : string) : Z :=
  Z.of_nat (length (List.filter (String.eqb term) text_terms)).

(** [_calculate_relevance_score]; integers divide as floats. *)
Definition _calculate_relevance_score (query text : string) (base_score : Q) : Q :=
  let query_lower := FileProcessor.lower query in
  let text_lower := FileProcessor.lower text in
  let query_terms := _extract_terms query_lower in
  match query_terms with
  | [] => base_score
  | _ :: _ =>
      let exact_phrase : Q := if contains text_lower query_lower then 2%Q else 0%Q in
      let text_terms := _extract_terms text_lower in
      let total_terms := Z.of_nat (length text_terms) in
      let tf_score :=
        fold_left
          (fun acc term =>
             let tf := term_frequency text_terms term in
             if 0 <? tf then (acc + inject_Z tf / inject_Z total_terms)%Q else acc)
          query_terms 0%Q in
      let matching_terms :=
        Z.of_nat (length (List.filter (contains text_lower) query_terms)) in
      let n_terms := Z.of_nat (length query_terms) in
      let term_coverage := (inject_Z matching_terms / inject_Z n_terms)%Q in
      let position_bonus :=
        fold_left
          (fun acc term =>
             let pos := find text_lower term 0 in
             if pos =? -1 then acc
             else (acc + py_max 0 (1 - inject_Z pos / inject_Z (len text_lower)))%Q)
          query_terms 0%Q in
      let position := (position_bonus / inject_Z n_terms)%Q in
      let length_penalty := py_max (1 # 10) (1 - inject_Z (len text) / 5000)%Q in
      let enhanced_score :=
        (base_score * (4 # 10) + exact_phrase * (15 # 100) + tf_score * (2 # 10)
         + term_coverage * (15 # 100) + position * (5 # 100)
         + length_penalty * (5 # 100))%Q in
      py_min 1 enhanced_score
  end.

(** The first loop of [_create_excerpt]: the position of the term with the
    best ratio of length to position. *)
Definition best_position (text_lower : string) (terms : list string) : Z :=
  fst (fold_left
         (fun (best : Z * Q) term =>
            let pos := find text_lower term 0 in
            if pos =? -1 then best
            else
              let score := (inject_Z (len term) / inject_Z (pos + 1))%Q in
              if Qgtb score (snd best) then (pos, score) else best)
         terms (0, 0%Q)).

(** [while start > 0 and text[start] != ' ': start -= 1] *)
Fixpoint back_to_space (text : string) (start : nat) : nat :=
  match start with
  | O => O
  | S p =>
      match index text (Z.of_nat start) with
      | Some c => if Ascii.eqb c Chunker.space then start else back_to_space text p
      | None => start
      end
  end.

(** [while end < len(text) and text[end] != ' ': end += 1], on the
    characters from [end] on. *)
Fixpoint forward_to_space (rest : list ascii) (end_ : Z) : Z :=
  match rest with
  | [] => end_
  | c :: r => if Ascii.eqb c Chunker.space then end_ else forward_to_space r (end_ + 1)
  end.

(** [_create_excerpt] *)
Definition _create_excerpt (query text : string) (max_length : Z) : string :=
  let query_lower := FileProcessor.lower query in
  let text_lower := FileProcessor.lower text in
  let best_pos := best_position text_lower (_extract_terms query_lower) in
  let start0 := Z.max 0 (best_pos - max_length / 3) in
  let end0 := Z.min (len text) (start0 + max_length) in
  let start :=
    if 0 <? start0 then Z.of_nat (back_to_space text (Z.to_nat start0)) + 1
    else start0 in
  let end_ :=
    if end0 <? len text
    then forward_to_space (drop (Z.to_nat end0) (chars text)) end0
    else end0 in
  let excerpt := strip (slice text (Some start) (Some end_)) in
  let excerpt := if 0 <? start then ("..." ++ excerpt)%string else excerpt in
  if end_ <? len text then (excerpt ++ "...")%string else excerpt.

Section WithStorage.
Context {S : Type} `{StorageBackend S}.
(** [self.storage.search_keyword(query, limit=..., min_score=...)] *)
Variable search_keyword : string -> Z -> Q -> S -> result (list (ChunkInfo * Q)).

(** The loop of [search] over the rows the storage returned. *)
Fixpoint collect (query : string) (options : SearchOptions) (s : S)
    (chunk_results : list (ChunkInfo * Q)) : result (list SearchResult) :=
  match chunk_results with
  | [] => Ok []
  | (chunk_info, base_score) :: rest =>
      match get_file (ci_file_id chunk_info) s with
      | None => collect query options s rest
      | Some file_info =>
          let enhanced_score :=
            _calculate_relevance_score query (ci_text chunk_info) base_score in
          if Qgeb enhanced_score (min_score options) then
            match SearchResults.SearchResult_new (ci_file_id chunk_info)
                    (fi_path file_info) (ci_text chunk_info) enhanced_score
                    (ci_start_char chunk_info) (ci_end_char chunk_info)
                    (Some (_create_excerpt query (ci_text chunk_info) 200))
                    "keyword" with
            | Raise e => Raise e
            | Ok search_result =>
                match collect query options s rest with
                | Raise e => Raise e
                | Ok search_results => Ok (search_result :: search_results)
                end
            end
          else collect query options s rest
      end
  end.

(** [KeywordSearch.search]; what the [try] block raises is logged and
    raised again. *)
Definition search (query : string) (options : option SearchOptions) (s : S)
    : result (list SearchResult) :=
  match (match options with
         | Some o => Ok o
         | None => SearchOptions_default
         end) with
  | Raise e => Raise e
  | Ok options =>
      match search_keyword query (max_results options * 2) 0%Q s with
      | Raise e => Raise e
      | Ok chunk_results =>
          match collect query options s chunk_results with
          | Raise e => Raise e
          | Ok search_results =>
              Ok (HybridSearch.list_prefix
                    (HybridSearch.sort_by_score search_results)
                    (max_results options))
          end
      end
  end.

End WithStorage.

End KeywordSearch.

Module KeywordExamples.

(** A storage search that answers every query with the one chunk of
    [db_with_file], scored one half. *)
Definition one_row (_ : string) (_ : Z) (_ : Q) (_ : SQLiteBackend.t)
    : result (list (Models.ChunkInfo * Q)) :=
  Ok [(Scenarios.notes_chunk, (1 # 2)%Q)].

End KeywordExamples.

(** * Properties *)

(** ** Facts about lists and ordered dicts *)

Lemma find_app {A : Type} (f : A -> bool) (l1 l2 : list A) :
  List.find f (l1 ++ l2)
  = match List.find f l1 with
    | Some x => Some x
    | None => List.find f l2
    end.
Proof.
  induction l1 as [|a l1 IH]; [reflexivity|].
  cbn. destruct (f a); [reflexivity|exact IH].
Qed.


Lemma find_filter_none {A : Type} (f g : A -> bool) (l : list A) :
  (forall x, f x = true -> g x = false) ->
  List.find f (List.filter g l) = None.
Proof.
  intros Hfg. induction l as [|a l IH]; [reflexivity|].
  cbn. destruct (g a) eqn:Eg; [|exact IH].
  cbn. destruct (f a) eqn:Ef; [|exact IH].
  apply Hfg in Ef. congruence.
Qed.

(** ** models.py: SearchOptions *)

Section SearchOptionsFacts.
Import Models.


Lemma float_in_range_iff (lo hi v : Q) :
  float_in_range lo hi v = true <-> (lo <= v <= hi)%Q.
Proof.
  unfold float_in_range. rewrite andb_true_iff, !Qle_bool_iff. tauto.
Qed.

End SearchOptionsFacts.




(** ** processing/chunker.py: coverage of the input *)

(** C6: on the text ["a\n\n\n\nb"] the structure-preserving chunker (default
    size 1000, overlap 200) returns the single range [0, 4) for a text of
    six characters, so the character ["b"] at position 5 lies in no chunk;
    and on ["ab cdefghijklmnop"] the sliding window (size 10, overlap 0)
    returns the ranges [0, 2) and [10, 17), which leave positions 2 to 9
    uncovered. *)
Theorem chunker_ranges_leave_gaps :
  Chunker.TextChunker_new 1000 200 true = Ok Scenarios.default_chunker
  /\ Chunker._chunk_with_structure Scenarios.default_chunker Scenarios.gap_text []
     = [Chunker.mkTextChunk ("a" ++ Scenarios.nl ++ Scenarios.nl ++ "b") 0 4 []]
  /\ Chunker._chunk_text_internal Scenarios.default_chunker Scenarios.gap_text []
     = Chunker._chunk_with_structure Scenarios.default_chunker Scenarios.gap_text []
  /\ PyStr.len Scenarios.gap_text = 6
  /\ PyStr.index Scenarios.gap_text 5 = Some "b"%char
  /\ Chunker.covered
       (Chunker._chunk_text_internal Scenarios.default_chunker Scenarios.gap_text [])
       5 = false
  /\ Chunker.TextChunker_new 10 0 false = Ok Scenarios.window_chunker
  /\ map (fun c => (Chunker.start_char c, Chunker.end_char c))
         (Chunker._chunk_sliding_window Scenarios.window_chunker
            Scenarios.window_text [])
     = [(0, 2); (10, 17)]
  /\ PyStr.index Scenarios.window_text 3 = Some "c"%char
  /\ Chunker.covered
       (Chunker._chunk_text_internal Scenarios.window_chunker
          Scenarios.window_text [])
       3 = false.
Proof. repeat split; vm_compute; reflexivity. Qed.

(** When the legacy chunker is importable, [chunk_text] slices the text
    itself and the two texts above are covered. *)
Lemma legacy_chunker_covers_examples :
  Chunker.covers_all
    (Chunker.chunk_text true Scenarios.default_chunker Scenarios.gap_text [])
    Scenarios.gap_text = true
  /\ Chunker.covers_all
       (Chunker.chunk_text true Scenarios.window_chunker Scenarios.window_text [])
       Scenarios.window_text = true.
Proof. split; vm_compute; reflexivity. Qed.

(** ** storage/sqlite_backend.py: deletion and the sibling indexes *)

Section SQLiteDeletion.
Import Models.

(** [delete_file] never touches the full-text index. *)
Lemma delete_file_keeps_fts (file_id : string) (db : SQLiteBackend.t) :
  SQLiteBackend.chunks_fts (snd (SQLiteBackend.delete_file file_id db))
  = SQLiteBackend.chunks_fts db.
Proof. reflexivity. Qed.

(** [delete_file] never touches the vector index. *)
Lemma delete_file_keeps_vec (file_id : string) (db : SQLiteBackend.t) :
  SQLiteBackend.chunks_vec (snd (SQLiteBackend.delete_file file_id db))
  = SQLiteBackend.chunks_vec db.
Proof. reflexivity. Qed.

(** The file row is gone after [delete_file]. *)
Lemma delete_file_removes_file (file_id : string) (db : SQLiteBackend.t) :
  SQLiteBackend.get_file file_id (snd (SQLiteBackend.delete_file file_id db)) = None.
Proof.
  unfold SQLiteBackend.get_file, SQLiteBackend.delete_file. cbn.
  induction (SQLiteBackend.files db) as [|f l IH]; [reflexivity|].
  cbn. destruct (String.eqb (fi_id f) file_id) eqn:E; cbn; [exact IH|].
  rewrite E. exact IH.
Qed.

(** When the file existed, the cascade removes every chunk row it owns. *)
Lemma delete_file_cascades (file_id : string) (db : SQLiteBackend.t) :
  fst (SQLiteBackend.delete_file file_id db) = Ok true ->
  List.filter (fun r => String.eqb (ci_file_id (SQLiteBackend.chunk r)) file_id)
         (SQLiteBackend.chunks (snd (SQLiteBackend.delete_file file_id db)))
  = [].
Proof.
  unfold SQLiteBackend.delete_file. cbn [fst snd SQLiteBackend.chunks]. intros Hex.
  set (removed := map fi_id (List.filter (fun f => String.eqb (fi_id f) file_id)
                                         (SQLiteBackend.files db))).
  assert (Hin : existsb (String.eqb file_id) removed = true).
  { injection Hex as Hex. subst removed. clear -Hex.
    induction (SQLiteBackend.files db) as [|f l IH]; [discriminate|].
    cbn in *. destruct (String.eqb (fi_id f) file_id) eqn:E.
    - cbn. rewrite String.eqb_sym, E. reflexivity.
    - cbn in Hex. auto. }
  unfold SQLiteBackend.cascade_chunks.
  induction (SQLiteBackend.chunks db) as [|r l IH]; [reflexivity|].
  cbn [List.filter].
  destruct (String.eqb (ci_file_id (SQLiteBackend.chunk r)) file_id) eqn:E.
  - apply String.eqb_eq in E. rewrite E, Hin. cbn [negb]. exact IH.
  - destruct (negb _); cbn [List.filter]; [rewrite E|]; exact IH.
Qed.

(** The sibling [delete_chunks_by_file] does clear the index entries of the
    chunk rows it removes. *)
Lemma delete_chunks_by_file_clears_fts (file_id : string) (db : SQLiteBackend.t)
    (k : Z) (txt : string) :
  In (k, txt)
     (SQLiteBackend.chunks_fts (snd (SQLiteBackend.delete_chunks_by_file file_id db))) ->
  ~ In k (map SQLiteBackend.rowid
            (List.filter (fun r => String.eqb (ci_file_id (SQLiteBackend.chunk r)) file_id)
                    (SQLiteBackend.chunks db))).
Proof.
  unfold SQLiteBackend.delete_chunks_by_file. cbn. intros Hin Hk.
  apply filter_In in Hin. destruct Hin as [_ Hneg]. cbn in Hneg.
  apply negb_true_iff in Hneg.
  assert (Hex : existsb (Z.eqb k)
                  (map SQLiteBackend.rowid
                     (List.filter (fun r => String.eqb (ci_file_id (SQLiteBackend.chunk r)) file_id)
                             (SQLiteBackend.chunks db))) = true).
  { apply existsb_exists. exists k. split; [exact Hk|apply Z.eqb_refl]. }
  congruence.
Qed.
End SQLiteDeletion.

(** C1: a database with the vector extension holds the file [f1] and its
    one chunk (rowid 1), mirrored in [chunks_fts] and [chunks_vec]. After
    [delete_file "f1"] the file row and the chunk row are gone, and the
    full-text row and the vector row of rowid 1 are still there. *)
Theorem delete_file_leaves_index_rows :
  map SQLiteBackend.rowid (SQLiteBackend.chunks Scenarios.db_with_file) = [1]
  /\ map (fun r => Models.ci_file_id (SQLiteBackend.chunk r))
         (SQLiteBackend.chunks Scenarios.db_with_file) = ["f1"%string]
  /\ fst (SQLiteBackend.delete_file "f1" Scenarios.db_with_file) = Ok true
  /\ SQLiteBackend.files (snd (SQLiteBackend.delete_file "f1" Scenarios.db_with_file)) = []
  /\ SQLiteBackend.chunks (snd (SQLiteBackend.delete_file "f1" Scenarios.db_with_file)) = []
  /\ SQLiteBackend.chunks_fts (snd (SQLiteBackend.delete_file "f1" Scenarios.db_with_file))
     = [(1, "hello"%string)]
  /\ SQLiteBackend.chunks_vec (snd (SQLiteBackend.delete_file "f1" Scenarios.db_with_file))
     = [(1, Scenarios.unit_vector)].
Proof. repeat split; vm_compute; reflexivity. Qed.

(** ** The embedding cache key *)

(** C4: in the SQLite backend, after caching a vector for hash ["h"] under
    (openai, m1) and another for the same hash under (voyage, m2), the first
    entry is gone: the lookup under (openai, m1) returns nothing. The
    in-memory backend keeps both. *)
Theorem sqlite_cache_replaces_on_hash_alone :
  SQLiteBackend.get_cached_embedding "h" "openai" "m1"
    (snd (SQLiteBackend.cache_embedding "h" "openai" "m1" Scenarios.v1
            (SQLiteBackend.empty false)))
  = Some Scenarios.v1
  /\ SQLiteBackend.get_cached_embedding "h" "openai" "m1"
       (snd (SQLiteBackend.cache_embedding "h" "voyage" "m2" Scenarios.v2
               (snd (SQLiteBackend.cache_embedding "h" "openai" "m1" Scenarios.v1
                       (SQLiteBackend.empty false)))))
     = None
  /\ MemoryBackend.get_cached_embedding "h" "openai" "m1"
       (snd (MemoryBackend.cache_embedding "h" "voyage" "m2" Scenarios.v2
               (snd (MemoryBackend.cache_embedding "h" "openai" "m1" Scenarios.v1
                       MemoryBackend.empty))))
     = Some Scenarios.v1.
Proof. repeat split; vm_compute; reflexivity. Qed.

(** The replacement happens for every hash, provider and model. *)
Lemma sqlite_cache_keeps_one_row_per_hash
    (h p m p2 m2 : string) (v v2 : ndarray) (db : SQLiteBackend.t) :
  (p, m) <> (p2, m2) ->
  SQLiteBackend.get_cached_embedding h p m
    (snd (SQLiteBackend.cache_embedding h p2 m2 v2
            (snd (SQLiteBackend.cache_embedding h p m v db))))
  = None.
Proof.
  intros Hne. unfold SQLiteBackend.get_cached_embedding, SQLiteBackend.cache_embedding.
  cbn.
  assert (Hfind : forall l : list SQLiteBackend.CacheRow,
    List.find (fun r => String.eqb (SQLiteBackend.c_hash r) h
                        && String.eqb (SQLiteBackend.c_provider r) p
                        && String.eqb (SQLiteBackend.c_model r) m)
      (List.filter (fun r => negb (String.eqb (SQLiteBackend.c_hash r) h)) l) = None).
  { intros l. apply find_filter_none. intros r Hr.
    apply andb_true_iff in Hr. destruct Hr as [Hr _].
    apply andb_true_iff in Hr. destruct Hr as [Hr _]. rewrite Hr. reflexivity. }
  rewrite find_app, Hfind. cbn. rewrite String.eqb_refl. cbn.
  destruct (String.eqb p2 p) eqn:Ep; cbn; [|reflexivity].
  destruct (String.eqb m2 m) eqn:Em; cbn; [|reflexivity].
  apply String.eqb_eq in Ep, Em. subst. contradiction.
Qed.

(** ** embeddings/manager.py: reassembly after a partial cache hit *)

(** C3: the cache holds the vector [[2]] for ["bb"] and nothing for ["a"];
    the provider answers [[1]] for ["a"]. [embed ["a"; "bb"]] returns the
    fresh vector at position 0 and [None] at position 1, where the cached
    vector belongs. With the hit first, [embed ["bb"; "a"]] is in order. *)
Theorem embed_loses_hit_after_miss :
  Embeddings._get_cached_embeddings ["a"; "bb"]%string
    (Scenarios.caching_manager, Scenarios.cache_with_bb)
  = Some ([None; Some [(2 # 1)%Q]], [0%nat])
  /\ fst (Embeddings.embed ["a"; "bb"]%string
            (Scenarios.caching_manager, Scenarios.cache_with_bb))
     = Ok [Some [(1 # 1)%Q]; None]
  /\ fst (Embeddings.embed ["bb"; "a"]%string
            (Scenarios.caching_manager, Scenarios.cache_with_bb))
     = Ok [Some [(2 # 1)%Q]; Some [(1 # 1)%Q]].
Proof. repeat split; vm_compute; reflexivity. Qed.

(** ** The storage laws hold for both backends *)

Lemma find_filter_keep {A : Type} (g h : A -> bool) (l : list A) :
  (forall x, In x l -> g x = true -> h x = true) ->
  List.find g (List.filter h l) = List.find g l.
Proof.
  induction l as [|a l IH]; intros Hgh; [reflexivity|].
  cbn. destruct (g a) eqn:Eg.
  - rewrite (Hgh a (or_introl eq_refl) Eg). cbn. rewrite Eg. reflexivity.
  - destruct (h a); cbn; [rewrite Eg|]; apply IH; intros x Hx; apply Hgh; right; exact Hx.
Qed.

Lemma existsb_find {A : Type} (f : A -> bool) (l : list A) :
  existsb f l = match List.find f l with Some _ => true | None => false end.
Proof.
  induction l as [|a l IH]; [reflexivity|].
  cbn. destruct (f a); [reflexivity|exact IH].
Qed.

Lemma filter_all {A : Type} (f : A -> bool) (l : list A) :
  (forall x, In x l -> f x = true) -> List.filter f l = l.
Proof.
  induction l as [|a l IH]; intros Hf; [reflexivity|].
  cbn. rewrite (Hf a (or_introl eq_refl)). f_equal. apply IH.
  intros x Hx. apply Hf. right. exact Hx.
Qed.

Lemma filter_none {A : Type} (f : A -> bool) (l : list A) :
  (forall x, In x l -> f x = false) -> List.filter f l = [].
Proof.
  induction l as [|a l IH]; intros Hf; [reflexivity|].
  cbn. rewrite (Hf a (or_introl eq_refl)). apply IH.
  intros x Hx. apply Hf. right. exact Hx.
Qed.

Section OrderedDictFacts.
Context {V : Type}.

Lemma od_get_set_eq (d : list (string * V)) (k : string) (v : V) :
  od_get (od_set d k v) k = Some v.
Proof.
  induction d as [|[k' v'] d IH]; cbn.
  - rewrite String.eqb_refl. reflexivity.
  - destruct (String.eqb k k') eqn:E; cbn.
    + rewrite String.eqb_refl. reflexivity.
    + rewrite E. exact IH.
Qed.

Lemma od_get_set_ne (d : list (string * V)) (k k' : string) (v : V) :
  k' <> k -> od_get (od_set d k v) k' = od_get d k'.
Proof.
  intros Hne. induction d as [|[k0 v0] d IH]; cbn.
  - apply String.eqb_neq in Hne. rewrite Hne. reflexivity.
  - destruct (String.eqb k k0) eqn:E; cbn.
    + apply String.eqb_eq in E. subst k0.
      apply String.eqb_neq in Hne. rewrite Hne. reflexivity.
    + destruct (String.eqb k' k0); [reflexivity|exact IH].
Qed.

Lemma od_set_new (d : list (string * V)) (k : string) (v : V) :
  od_get d k = None -> od_set d k v = d ++ [(k, v)].
Proof.
  induction d as [|[k0 v0] d IH]; cbn; [reflexivity|].
  destruct (String.eqb k k0); [discriminate|].
  intros Hn. rewrite (IH Hn). reflexivity.
Qed.
End OrderedDictFacts.

Section SQLiteLaws.
Import Models StorageBase.

Lemma sqlite_no_clash (f : FileInfo) (db : SQLiteBackend.t) :
  SQLiteBackend.get_file_by_path (fi_path f) db = None ->
  forall x, In x (SQLiteBackend.files db) ->
  (String.eqb (fi_id x) (fi_id f) || String.eqb (fi_path x) (fi_path f))
  = String.eqb (fi_id x) (fi_id f).
Proof.
  intros Hp x Hx. unfold SQLiteBackend.get_file_by_path in Hp.
  rewrite (find_none _ _ Hp x Hx). apply orb_false_r.
Qed.

End SQLiteLaws.

#[global] Instance sqlite_laws : StorageBase.StorageLaws SQLiteBackend.t.
Proof.
  constructor; cbn.
  - reflexivity.
  - reflexivity.
  - reflexivity.
  - reflexivity.
  - reflexivity.
  - intros f db. unfold SQLiteBackend.get_file, SQLiteBackend.add_file. cbn.
    rewrite find_app, find_filter_none.
    + cbn. rewrite String.eqb_refl. reflexivity.
    + intros x Hx. rewrite Hx. reflexivity.
  - intros f db id Hp Hne. unfold SQLiteBackend.get_file, SQLiteBackend.add_file. cbn.
    rewrite find_app, find_filter_keep.
    + destruct (List.find _ (SQLiteBackend.files db)); [reflexivity|].
      cbn. apply String.eqb_neq in Hne. rewrite String.eqb_sym, Hne. reflexivity.
    + intros x Hx Hid. rewrite (sqlite_no_clash f db Hp x Hx).
      apply String.eqb_eq in Hid. rewrite Hid.
      apply String.eqb_neq in Hne. rewrite Hne. reflexivity.
  - intros f db path Hp Hid Hne.
    unfold SQLiteBackend.get_file_by_path, SQLiteBackend.add_file. cbn.
    rewrite find_app, find_filter_keep.
    + destruct (List.find _ (SQLiteBackend.files db)); [reflexivity|].
      cbn. apply String.eqb_neq in Hne. rewrite String.eqb_sym, Hne. reflexivity.
    + intros x Hx _. rewrite (sqlite_no_clash f db Hp x Hx).
      unfold SQLiteBackend.get_file in Hid.
      rewrite (find_none _ _ Hid x Hx). reflexivity.
  - intros f db id Hp Hid. unfold SQLiteBackend.get_chunk, SQLiteBackend.add_file. cbn.
    rewrite (filter_none _ (SQLiteBackend.files db)).
    + cbn. unfold SQLiteBackend.cascade_chunks. cbn.
      rewrite filter_all; [reflexivity|]. intros; reflexivity.
    + intros x Hx. rewrite (sqlite_no_clash f db Hp x Hx).
      unfold SQLiteBackend.get_file in Hid. apply (find_none _ _ Hid x Hx).
  - intros c e db id. unfold SQLiteBackend.get_file, SQLiteBackend.add_chunk.
    repeat destruct (existsb _ _); reflexivity.
  - intros c e db path. unfold SQLiteBackend.get_file_by_path, SQLiteBackend.add_chunk.
    repeat destruct (existsb _ _); reflexivity.
  - intros c e db id. unfold SQLiteBackend.get_chunk, SQLiteBackend.add_chunk.
    destruct (existsb _ (SQLiteBackend.chunks db)) eqn:Eu; [discriminate|].
    destruct (existsb _ (SQLiteBackend.files db)) eqn:Ef; cbn; [|discriminate].
    intros Hok. injection Hok as <-. split; [reflexivity|].
    rewrite existsb_find in Eu. rewrite find_app.
    destruct (List.find _ (SQLiteBackend.chunks db)); [discriminate|].
    cbn. rewrite String.eqb_refl. reflexivity.
  - intros c e db id Hne. unfold SQLiteBackend.get_chunk, SQLiteBackend.add_chunk.
    destruct (existsb _ (SQLiteBackend.chunks db)); [reflexivity|].
    destruct (existsb _ (SQLiteBackend.files db)); cbn; [|reflexivity].
    rewrite find_app. destruct (List.find _ (SQLiteBackend.chunks db)); [reflexivity|].
    cbn. apply String.eqb_neq in Hne. rewrite String.eqb_sym, Hne. reflexivity.
  - intros c e db Hc Hf. unfold SQLiteBackend.get_chunk, SQLiteBackend.get_file,
      SQLiteBackend.add_chunk in *.
    rewrite !existsb_find.
    destruct (List.find _ (SQLiteBackend.chunks db)); [discriminate|].
    destruct (List.find _ (SQLiteBackend.files db)); [reflexivity|contradiction].
Qed.

Section MemoryLaws.
Import Models StorageBase.

Lemma memory_find_path_app (d : list (string * FileInfo)) (k path : string)
    (f : FileInfo) :
  path <> fi_path f ->
  List.find (fun kv => String.eqb (fi_path (snd kv)) path) (d ++ [(k, f)])
  = List.find (fun kv => String.eqb (fi_path (snd kv)) path) d.
Proof.
  intros Hne. rewrite find_app. destruct (List.find _ d); [reflexivity|].
  cbn. apply String.eqb_neq in Hne. rewrite String.eqb_sym, Hne. reflexivity.
Qed.

Lemma memory_add_chunk_files (c : ChunkInfo) (e : option ndarray)
    (b : MemoryBackend.t) :
  MemoryBackend.files (snd (MemoryBackend.add_chunk c e b)) = MemoryBackend.files b.
Proof. unfold MemoryBackend.add_chunk. destruct e; reflexivity. Qed.

Lemma memory_add_chunk_chunks (c : ChunkInfo) (e : option ndarray)
    (b : MemoryBackend.t) :
  MemoryBackend.chunks (snd (MemoryBackend.add_chunk c e b))
  = od_set (MemoryBackend.chunks b) (ci_id c) c.
Proof. unfold MemoryBackend.add_chunk. destruct e; reflexivity. Qed.

Lemma memory_add_chunk_ok (c : ChunkInfo) (e : option ndarray)
    (b : MemoryBackend.t) :
  fst (MemoryBackend.add_chunk c e b) = Ok (ci_id c).
Proof. unfold MemoryBackend.add_chunk. destruct e; reflexivity. Qed.

End MemoryLaws.

#[global] Instance memory_laws : StorageBase.StorageLaws MemoryBackend.t.
Proof.
  constructor; cbn.
  - reflexivity.
  - reflexivity.
  - reflexivity.
  - reflexivity.
  - reflexivity.
  - intros f b. unfold MemoryBackend.get_file, MemoryBackend.add_file. cbn.
    apply od_get_set_eq.
  - intros f b id _ Hne. unfold MemoryBackend.get_file, MemoryBackend.add_file. cbn.
    apply od_get_set_ne. exact Hne.
  - intros f b path _ Hid Hne.
    unfold MemoryBackend.get_file_by_path, MemoryBackend.get_file,
      MemoryBackend.add_file in *. cbn.
    rewrite (od_set_new _ _ _ Hid), memory_find_path_app; [reflexivity|exact Hne].
  - reflexivity.
  - intros c e b id. unfold MemoryBackend.get_file.
    rewrite memory_add_chunk_files. reflexivity.
  - intros c e b path. unfold MemoryBackend.get_file_by_path.
    rewrite memory_add_chunk_files. reflexivity.
  - intros c e b id. rewrite memory_add_chunk_ok. intros Hok. injection Hok as <-.
    split; [reflexivity|]. unfold MemoryBackend.get_chunk.
    rewrite memory_add_chunk_chunks. apply od_get_set_eq.
  - intros c e b id Hne. unfold MemoryBackend.get_chunk.
    rewrite memory_add_chunk_chunks. apply od_get_set_ne. exact Hne.
  - intros c e b _ _. apply memory_add_chunk_ok.
Qed.

(** ** embeddings/manager.py: the fallback chain *)

Section FallbackChain.
Import Embeddings StorageBase.
Context {S : Type} `{StorageLaws S}.





(** [_cache_embeddings] returns normally and leaves the manager alone. *)
Lemma for_each_cache_ok (p : EmbeddingProvider) (items : list (string * ndarray))
    (st : state) :
  exists s',
    for_each items
      (fun te => on_storage
                   (cache_embedding (compute_text_hash (fst te)) (name p)
                      (model p) (snd te))) st
    = (Ok tt, (fst st, s')).
Proof.
  revert st. induction items as [|[t v] items IH]; intros [em s].
  - exists s. reflexivity.
  - cbn [for_each]. unfold bind, on_storage at 1. cbn [fst snd].
    pose proof (cache_embedding_ok (compute_text_hash t) (name p) (model p) v s) as Hok.
    destruct (cache_embedding (compute_text_hash t) (name p) (model p) v s)
      as [r s1]. cbn in Hok. subst r.
    destruct (IH (em, s1)) as [s' Hs']. exists s'. exact Hs'.
Qed.

Lemma cache_embeddings_ok (texts : list string) (vectors : list ndarray)
    (st : state) :
  exists s', _cache_embeddings texts vectors st = (Ok tt, (fst st, s')).
Proof.
  destruct st as [em s]. unfold _cache_embeddings, bind, get_state. cbn [fst snd].
  destruct (negb (has_storage_backend em) || negb (length texts =? length vectors)%nat).
  - exists s. reflexivity.
  - destruct (od_get (providers em) (primary_provider_name em)) as [p|].
    + unfold try_except.
      destruct (for_each_cache_ok p (zip texts vectors) (em, s)) as [s' Hs'].
      rewrite Hs'. exists s'. reflexivity.
    + exists s. reflexivity.
Qed.

Section Chain.
Variables (em : EmbeddingManager) (primary fallback : EmbeddingProvider).
Hypothesis distinct : primary_provider_name em <> fallback_provider_name em.
Hypothesis primary_registered :
  od_get (providers em) (primary_provider_name em) = Some primary.
Hypothesis fallback_registered :
  od_get (providers em) (fallback_provider_name em) = Some fallback.
Hypothesis primary_raises :
  forall ts, exists e, embed_texts primary ts = Raise e /\ is_Exception e = true.
Hypothesis primary_status :
  provider_status em !! primary_provider_name em = Some true.
Hypothesis fallback_status :
  provider_status em !! fallback_provider_name em = Some true.
Hypothesis primary_count :
  default 0 (failure_counts em !! primary_provider_name em) = 0.
Hypothesis fallback_count :
  default 0 (failure_counts em !! fallback_provider_name em) = 0.
Hypothesis threshold : max_failures em = 2.








End Chain.



End FallbackChain.


(** ** Observations preserved by the combinators *)

Section Preserves.
Context {St X : Type} (obs : St -> X).

Lemma preserves_ret {A : Type} (a : A) : preserves obs (ret a).
Proof. intros s. reflexivity. Qed.

Lemma preserves_raise {A : Type} (e : exn) : preserves obs (A := A) (raise e).
Proof. intros s. reflexivity. Qed.

Lemma preserves_get_state : preserves obs get_state.
Proof. intros s. reflexivity. Qed.

Lemma preserves_bind {A B : Type} (m : M St A) (k : A -> M St B) :
  preserves obs m -> (forall a, preserves obs (k a)) -> preserves obs (bind m k).
Proof.
  intros Hm Hk s. unfold bind. specialize (Hm s).
  destruct (m s) as [[a|e] s1]; cbn in *.
  - rewrite Hk. exact Hm.
  - exact Hm.
Qed.

Lemma preserves_try_except {A : Type} (m : M St A) (h : exn -> M St A) :
  preserves obs m -> (forall e, preserves obs (h e)) ->
  preserves obs (try_except m h).
Proof.
  intros Hm Hh s. unfold try_except. specialize (Hm s).
  destruct (m s) as [[a|e] s1]; cbn in *; [exact Hm|].
  destruct (is_Exception e); cbn; [rewrite Hh|]; exact Hm.
Qed.

Lemma preserves_for_each {A : Type} (xs : list A) (body : A -> M St unit) :
  (forall x, preserves obs (body x)) -> preserves obs (for_each xs body).
Proof.
  intros Hb. induction xs as [|x xs IH]; cbn [for_each].
  - apply preserves_ret.
  - apply preserves_bind; [apply Hb|intros _; exact IH].
Qed.
End Preserves.

Ltac preserves_step :=
  lazymatch goal with
  | |- preserves _ (ret _) => apply preserves_ret
  | |- preserves _ (raise _) => apply preserves_raise
  | |- preserves _ get_state => apply preserves_get_state
  | |- preserves _ (bind _ _) => apply preserves_bind; [|intros ?]
  | |- preserves _ (for_each _ _) => apply preserves_for_each; intros ?
  | |- preserves _ (try_except _ _) => apply preserves_try_except; [|intros ?]
  | |- preserves _ (match ?x with _ => _ end) => destruct x
  end.

(** ** manager.py: the in-flight flag of sync_files *)

Section SyncGuard.
Import Manager StorageBase.
Context {S : Type} `{StorageBackend S}.

Lemma flag_on_storage {A : Type} (m : M S A) :
  preserves sync_in_progress (on_storage m).
Proof. intros mm. unfold on_storage. destruct (m (storage mm)). reflexivity. Qed.

Lemma flag_on_embeddings {A : Type} (m : M (Embeddings.state (S := S)) A) :
  preserves sync_in_progress (on_embeddings m).
Proof.
  intros mm. unfold on_embeddings.
  destruct (m (embeddings mm, storage mm)) as [r [em' s']]. reflexivity.
Qed.

Lemma flag_on_uuid {A : Type} (m : M nat A) :
  preserves (sync_in_progress (S := S)) (on_uuid m).
Proof. intros mm. unfold on_uuid. destruct (m (uuid_counter mm)). reflexivity. Qed.

Lemma flag_set_last_sync (z : Z) :
  preserves (sync_in_progress (S := S)) (modify (set_last_sync z)).
Proof. intros mm. reflexivity. Qed.

Local Ltac flag_step :=
  first [ preserves_step
        | apply flag_on_storage | apply flag_on_embeddings
        | apply flag_on_uuid | apply flag_set_last_sync ].

Lemma flag_store_chunks (chunks : list Models.ChunkInfo) :
  preserves (sync_in_progress (S := S)) (store_chunks chunks).
Proof. unfold store_chunks. repeat flag_step. Qed.

Lemma flag_ingest_file_process (env : Env.t) (file_path : string)
    (metadata : option pydict) (existing : option Models.FileInfo) :
  preserves (sync_in_progress (S := S))
    (ingest_file_process env file_path metadata existing).
Proof.
  unfold ingest_file_process. repeat flag_step.
  all: apply flag_store_chunks.
Qed.

Lemma flag_ingest_file (env : Env.t) (file_path : string)
    (metadata : option pydict) :
  preserves (sync_in_progress (S := S)) (ingest_file env file_path metadata).
Proof.
  unfold ingest_file. repeat flag_step.
  all: apply flag_ingest_file_process.
Qed.

Lemma flag_sync_one (env : Env.t) (stats : Models.SyncStats)
    (file_path : string) :
  preserves (sync_in_progress (S := S)) (sync_one env stats file_path).
Proof.
  unfold sync_one. repeat flag_step.
  all: apply flag_ingest_file.
Qed.

Lemma flag_sync_files_from (env : Env.t) (files : list string)
    (stats : Models.SyncStats) :
  preserves (sync_in_progress (S := S)) (_sync_files_from env files stats).
Proof.
  revert stats. induction files as [|f files IH]; intros stats; cbn [_sync_files_from].
  - apply preserves_ret.
  - apply preserves_bind; [apply flag_sync_one|intros stats'; apply IH].
Qed.

Lemma flag_sync_files_body (env : Env.t) (paths : option (list string)) :
  preserves (sync_in_progress (S := S)) (sync_files_body env paths).
Proof.
  unfold sync_files_body, _sync_files. repeat flag_step.
  apply flag_sync_files_from.
Qed.

(** C9: while the in-flight flag is set, [sync_files] returns at once the
    statistics with every counter at zero and leaves the whole state of the
    manager (storage included) as it was. With the flag clear, the body of
    the sync runs from a state with the flag set and ends with the flag
    still set, and the call finishes with the body's outcome, be it a
    result or an exception, and with the flag clear. *)
Theorem sync_files_in_flight_guard (env : Env.t) (paths : option (list string))
    (mm : Manager.t S) :
  (sync_in_progress mm = true ->
   sync_files env paths mm = (Ok (Models.mkSyncStats 0 0 0 0 0 0 []), mm))
  /\ (sync_in_progress mm = false ->
      sync_in_progress (set_sync_in_progress true mm) = true
      /\ sync_in_progress
           (snd (sync_files_body env paths (set_sync_in_progress true mm))) = true
      /\ sync_files env paths mm
         = (fst (sync_files_body env paths (set_sync_in_progress true mm)),
            set_sync_in_progress false
              (snd (sync_files_body env paths (set_sync_in_progress true mm))))
      /\ sync_in_progress (snd (sync_files env paths mm)) = false).
Proof.
  split; intros Hflag.
  - unfold sync_files, bind, get_state. rewrite Hflag. reflexivity.
  - assert (Hrun : sync_files env paths mm
                   = (fst (sync_files_body env paths (set_sync_in_progress true mm)),
                      set_sync_in_progress false
                        (snd (sync_files_body env paths (set_sync_in_progress true mm))))).
    { unfold sync_files, bind, get_state. rewrite Hflag.
      unfold modify, try_finally.
      destruct (sync_files_body env paths (set_sync_in_progress true mm)).
      reflexivity. }
    split; [reflexivity|]. split; [|split].
    + rewrite flag_sync_files_body. reflexivity.
    + exact Hrun.
    + rewrite Hrun. reflexivity.
Qed.

End SyncGuard.

(** A sync that is cancelled in the middle of an embedding call: the
    exception leaves [sync_files] and the flag is clear afterwards. *)
Lemma sync_files_cancelled_clears_flag :
  fst (Manager.sync_files Scenarios.docs_env None
         (Scenarios.idle_manager Scenarios.cancelled_provider))
  = Raise CancelledError
  /\ Manager.sync_in_progress
       (snd (Manager.sync_files Scenarios.docs_env None
               (Scenarios.idle_manager Scenarios.cancelled_provider)))
     = false.
Proof. split; vm_compute; reflexivity. Qed.

Lemma sync_files_in_flight_guard_witness :
  Manager.sync_files Scenarios.docs_env None
    (Scenarios.busy_manager Scenarios.length_provider)
  = (Ok (Models.mkSyncStats 0 0 0 0 0 0 []),
     Scenarios.busy_manager Scenarios.length_provider)
  /\ Manager.sync_in_progress
       (snd (Manager.sync_files Scenarios.docs_env None
               (Scenarios.idle_manager Scenarios.length_provider)))
     = false.
Proof.
  split.
  - apply (proj1 (sync_files_in_flight_guard Scenarios.docs_env None
                    (Scenarios.busy_manager Scenarios.length_provider))).
    reflexivity.
  - apply (proj2 (sync_files_in_flight_guard Scenarios.docs_env None
                    (Scenarios.idle_manager Scenarios.length_provider))).
    reflexivity.
Defined.

(** ** search/hybrid.py: weights and candidate expansion *)

(** C5: with the valid options vector_weight = 0.0 and keyword_weight = 1.0
    (they sum to 1.0) and a span found by the vector search only, with
    vector score 0.5, the combined score v * 0.0 + 0 * 1.0 is 0 and the
    span falls below min_score = 0.3. The code replaces the weight 0.0 by
    the default 0.7, scores the span 0.35 and returns it. And for
    max_results = 34 the expanded options (102 results) are rejected by
    [SearchOptions], so the keyword results are never merged and the plain
    vector results are returned. *)
Theorem hybrid_search_ignores_zero_weight :
  Models.SearchOptions_new Models.ModeHybrid 10 (3 # 10) None (Some 0%Q) (Some 1%Q)
  = Ok Scenarios.keyword_only_options
  /\ HybridSearch.or_default (Models.vector_weight Scenarios.keyword_only_options)
       (7 # 10) = (7 # 10)%Q
  /\ option_map (map Models.sr_score)
       (match HybridSearch._hybrid_search Scenarios.vector_engine
                Scenarios.silent_engine Scenarios.keyword_only_options with
        | Ok l => Some l
        | Raise _ => None
        end)
     = Some [(35 # 100)%Q]
  /\ Models.SearchOptions_new Models.ModeHybrid 34 (3 # 10) None
       (Some (7 # 10)%Q) (Some (3 # 10)%Q)
     = Ok Scenarios.many_results_options
  /\ HybridSearch.hybrid_try Scenarios.vector_engine Scenarios.keyword_engine
       Scenarios.many_results_options
     = Raise (ValidationError ["max_results"%string])
  /\ HybridSearch._hybrid_search Scenarios.vector_engine Scenarios.keyword_engine
       Scenarios.many_results_options
     = Ok [Scenarios.vector_hit]
  /\ option_map (map Models.sr_score)
       (match HybridSearch._hybrid_search Scenarios.vector_engine
                Scenarios.keyword_engine Scenarios.usual_options with
        | Ok l => Some l
        | Raise _ => None
        end)
     = Some [(68200 # 100000)%Q].
Proof. repeat split; vm_compute; reflexivity. Qed.

(** ** manager.py and file_processor.py: re-ingesting an unchanged file *)

(** For a regular file, the change check compares the stored hash with a
    digest of path, size and modification time. *)
Lemma is_file_changed_same_mtime (env : Env.t) (file_path content : string)
    (size mtime : Z) (stored_hash : string) :
  Env.stat env file_path = Some (Env.mkEntry (Env.RegularFile content) size mtime) ->
  FileProcessor.is_file_changed env file_path stored_hash mtime
  = negb (String.eqb
            (MD5.md5_hex (file_path ++ ":" ++ PyStr.str_of_int size ++ ":"
                                    ++ PyStr.str_of_float mtime))
            stored_hash).
Proof.
  intros Hstat. unfold FileProcessor.is_file_changed, FileProcessor.get_file_hash,
    Env.exists_, od_mem.
  unfold Env.stat in Hstat. unfold Env.stat. rewrite Hstat. cbn [negb Env.st_mtime Env.st_size].
  rewrite Z.sub_diag. reflexivity.
Qed.

(** C2: the file [docs/a.txt] holds ["hello"] and does not change. The first
    [ingest_file] stores it under the id [uuid-0] with one chunk, the MD5 of
    the content as hash and the file's mtime. For the second call the
    change check answers "changed" (the digest of "path:size:mtime" is not
    the MD5 of the content); the chunks are deleted and the file is
    processed again. On the SQLite backend the new chunk carries a fresh
    file id, its insert violates the foreign key, and the call raises with
    the chunks of [uuid-0] gone. *)
Theorem reingest_unchanged_file_reprocesses :
  fst (Manager.ingest_file Scenarios.docs_env "docs/a.txt" None
         (Scenarios.idle_manager Scenarios.length_provider))
  = Ok "uuid-0"%string
  /\ map (fun f => (Models.fi_id f, Models.fi_hash f, Models.fi_mtime f))
         (SQLiteBackend.files
            (Manager.storage
               (snd (Manager.ingest_file Scenarios.docs_env "docs/a.txt" None
                       (Scenarios.idle_manager Scenarios.length_provider)))))
     = [("uuid-0"%string, MD5.md5_hex "hello", 1700000000)]
  /\ map (fun c => (Models.ci_id c, Models.ci_file_id c, Models.ci_text c))
         (SQLiteBackend.get_chunks_by_file "uuid-0"
            (Manager.storage
               (snd (Manager.ingest_file Scenarios.docs_env "docs/a.txt" None
                       (Scenarios.idle_manager Scenarios.length_provider)))))
     = [("uuid-1"%string, "uuid-0"%string, "hello"%string)]
  /\ FileProcessor.is_file_changed Scenarios.docs_env "docs/a.txt"
       (MD5.md5_hex "hello") 1700000000 = true
  /\ fst (Manager.ingest_file Scenarios.docs_env "docs/a.txt" None
            (snd (Manager.ingest_file Scenarios.docs_env "docs/a.txt" None
                    (Scenarios.idle_manager Scenarios.length_provider))))
     = Raise (IntegrityError "FOREIGN KEY constraint failed")
  /\ SQLiteBackend.get_chunks_by_file "uuid-0"
       (Manager.storage
          (snd (Manager.ingest_file Scenarios.docs_env "docs/a.txt" None
                  (snd (Manager.ingest_file Scenarios.docs_env "docs/a.txt" None
                          (Scenarios.idle_manager Scenarios.length_provider))))))
     = [].
Proof. repeat split; vm_compute; reflexivity. Qed.

(** The same two calls on the in-memory backend: the second call returns
    the id, and the chunk of [uuid-0] has been replaced by a new chunk that
    names the file id [uuid-2], which no file carries. *)
Lemma reingest_unchanged_file_memory_backend :
  fst (Manager.ingest_file Scenarios.docs_env "docs/a.txt" None
         (snd (Manager.ingest_file Scenarios.docs_env "docs/a.txt" None
                 (Scenarios.idle_memory_manager Scenarios.length_provider))))
  = Ok "uuid-0"%string
  /\ map (fun kv => (fst kv, Models.ci_file_id (snd kv)))
         (MemoryBackend.chunks
            (Manager.storage
               (snd (Manager.ingest_file Scenarios.docs_env "docs/a.txt" None
                       (snd (Manager.ingest_file Scenarios.docs_env "docs/a.txt" None
                               (Scenarios.idle_memory_manager
                                  Scenarios.length_provider)))))))
     = [("uuid-3"%string, "uuid-2"%string)]
  /\ map fst
         (MemoryBackend.files
            (Manager.storage
               (snd (Manager.ingest_file Scenarios.docs_env "docs/a.txt" None
                       (snd (Manager.ingest_file Scenarios.docs_env "docs/a.txt" None
                               (Scenarios.idle_memory_manager
                                  Scenarios.length_provider)))))))
     = ["uuid-0"%string].
Proof. repeat split; vm_compute; reflexivity. Qed.

(** ** embeddings/manager.py: what embedding leaves alone in the storage *)

Section EmbedFrame.
Import Embeddings StorageBase.
Context {S : Type} `{StorageBackend S} {X : Type} (obs : S -> X).
Hypothesis cache_frame :
  forall h p m v s, obs (snd (cache_embedding h p m v s)) = obs s.

Local Abbreviation sobs := (fun st : state (S := S) => obs (snd st)).

Lemma sobs_on_manager (f : EmbeddingManager -> EmbeddingManager) :
  preserves sobs (on_manager f).
Proof. intros st. reflexivity. Qed.

Lemma sobs_cache (h p m : string) (v : ndarray) :
  preserves sobs (on_storage (cache_embedding h p m v)).
Proof.
  intros [em s]. unfold on_storage. cbn [fst snd].
  specialize (cache_frame h p m v s).
  destruct (cache_embedding h p m v s). exact cache_frame.
Qed.

Local Ltac sobs_step :=
  first [ preserves_step | apply sobs_on_manager | apply sobs_cache ].

Lemma sobs_try_provider (n : string) (p : EmbeddingProvider) (ts : list string) :
  preserves sobs (try_provider n p ts).
Proof. unfold try_provider. repeat sobs_step. Qed.

Lemma sobs_try_named (n : string) (ts : list string) :
  preserves sobs (try_named n ts).
Proof. unfold try_named. repeat sobs_step. apply sobs_try_provider. Qed.

Lemma sobs_try_emergency (items : list (string * EmbeddingProvider))
    (ts : list string) :
  preserves sobs (try_emergency items ts).
Proof.
  induction items as [|[n p] items IH]; cbn [try_emergency].
  - apply preserves_raise.
  - repeat sobs_step; try apply sobs_try_provider; exact IH.
Qed.

Lemma sobs_generate (ts : list string) : preserves sobs (_generate_embeddings ts).
Proof.
  unfold _generate_embeddings. repeat sobs_step.
  all: first [apply sobs_try_named | apply sobs_try_emergency].
Qed.

Lemma sobs_cache_embeddings (ts : list string) (vs : list ndarray) :
  preserves sobs (_cache_embeddings ts vs).
Proof. unfold _cache_embeddings. repeat sobs_step. Qed.

Lemma sobs_generate_all (ts : list string) : preserves sobs (generate_all ts).
Proof.
  unfold generate_all. repeat sobs_step.
  all: first [apply sobs_generate | apply sobs_cache_embeddings].
Qed.

Lemma sobs_embed (ts : list string) : preserves sobs (embed ts).
Proof.
  unfold embed. repeat sobs_step.
  all: first [apply sobs_generate | apply sobs_cache_embeddings
             | apply sobs_generate_all].
Qed.

Lemma sobs_embed_single (t : string) : preserves sobs (embed_single t).
Proof. unfold embed_single. repeat sobs_step. apply sobs_embed. Qed.

End EmbedFrame.

(** ** manager.py and file_processor.py: ingesting text *)

Lemma uuid_of_inj (a b : nat) :
  FileProcessor.uuid_of a = FileProcessor.uuid_of b -> a = b.
Proof.
  unfold FileProcessor.uuid_of. cbn. intros Heq. injection Heq as Heq.
  exact (pretty_nat_inj a b Heq).
Qed.


Section ChunkInfos.
Import Models.

Lemma chunk_infos_ids (file_id : string) (tcs : list Chunker.TextChunk)
    (i : Z) (n : nat) :
  map ci_id (FileProcessor.chunk_infos file_id tcs i n)
  = map FileProcessor.uuid_of (seq n (length tcs)).
Proof.
  revert i n. induction tcs as [|tc tcs IH]; intros i n; [reflexivity|].
  cbn [FileProcessor.chunk_infos length seq map ci_id]. f_equal. apply IH.
Qed.

Lemma chunk_infos_file_id (file_id : string) (tcs : list Chunker.TextChunk)
    (i : Z) (n : nat) (c : ChunkInfo) :
  In c (FileProcessor.chunk_infos file_id tcs i n) -> ci_file_id c = file_id.
Proof.
  revert i n. induction tcs as [|tc tcs IH]; intros i n; [intros []|].
  cbn [FileProcessor.chunk_infos]. intros [<-|Hin]; [reflexivity|].
  exact (IH _ _ Hin).
Qed.

Lemma chunk_infos_length (file_id : string) (tcs : list Chunker.TextChunk)
    (i : Z) (n : nat) :
  length (FileProcessor.chunk_infos file_id tcs i n) = length tcs.
Proof.
  revert i n. induction tcs as [|tc tcs IH]; intros i n; [reflexivity|].
  cbn [FileProcessor.chunk_infos length]. f_equal. apply IH.
Qed.

Lemma uuid_seq_NoDup (n len : nat) :
  NoDup (map FileProcessor.uuid_of (seq n len)).
Proof.
  apply NoDup_fmap_2; [intros a b; apply uuid_of_inj|]. apply NoDup_seq.
Qed.


(** What [process_text] hands to [ingest_text] when neither a source id nor
    a title is given: a file named after the next identifier of the supply
    and chunks named after the identifiers that follow. *)
Lemma process_text_plan (fp : FileProcessor.t) (env : Env.t) (text : string)
    (metadata : option pydict) (n : nat) :
  exists f chunks,
    FileProcessor.process_text fp env text None None metadata n
    = (Ok (f, chunks), (Datatypes.S n + length chunks)%nat)
    /\ fi_id f = FileProcessor.uuid_of n
    /\ fi_path f = ("text_" ++ FileProcessor.uuid_of n)%string
    /\ fi_hash f = MD5.md5_hex text
    /\ map ci_id chunks
       = map FileProcessor.uuid_of (seq (Datatypes.S n) (length chunks))
    /\ (forall c, In c chunks -> ci_file_id c = FileProcessor.uuid_of n).
Proof.
  unfold FileProcessor.process_text. eexists. eexists.
  split; [reflexivity|]. cbn [fi_id fi_path fi_hash].
  repeat split.
  - unfold FileProcessor._create_chunks.
    rewrite chunk_infos_ids, chunk_infos_length. reflexivity.
  - intros c Hin. unfold FileProcessor._create_chunks in Hin.
    apply chunk_infos_file_id in Hin. exact Hin.
Qed.
End ChunkInfos.

Section IngestText.
Import Models Manager StorageBase.
Context {S : Type} `{StorageLaws S}.

Lemma storage_obs_on_storage {A X : Type} (o : S -> X) (m : M S A) :
  preserves o m -> preserves (fun mm => o (storage mm)) (on_storage m).
Proof.
  intros Hm mm. unfold on_storage. specialize (Hm (storage mm)).
  destruct (m (storage mm)). exact Hm.
Qed.

Lemma storage_obs_on_embeddings {A X : Type} (o : S -> X)
    (m : M (Embeddings.state (S := S)) A) :
  preserves (fun st => o (snd st)) m ->
  preserves (fun mm => o (storage mm)) (on_embeddings m).
Proof.
  intros Hm mm. unfold on_embeddings. specialize (Hm (embeddings mm, storage mm)).
  destruct (m (embeddings mm, storage mm)) as [r [em' s']]. exact Hm.
Qed.

Lemma counter_on_storage {A : Type} (m : M S A) :
  preserves uuid_counter (on_storage m).
Proof. intros mm. unfold on_storage. destruct (m (storage mm)). reflexivity. Qed.

Lemma counter_on_embeddings {A : Type} (m : M (Embeddings.state (S := S)) A) :
  preserves uuid_counter (on_embeddings m).
Proof.
  intros mm. unfold on_embeddings.
  destruct (m (embeddings mm, storage mm)) as [r [em' s']]. reflexivity.
Qed.

Lemma processor_on_storage {A : Type} (m : M S A) :
  preserves file_processor (on_storage m).
Proof. intros mm. unfold on_storage. destruct (m (storage mm)). reflexivity. Qed.

Lemma processor_on_embeddings {A : Type} (m : M (Embeddings.state (S := S)) A) :
  preserves file_processor (on_embeddings m).
Proof.
  intros mm. unfold on_embeddings.
  destruct (m (embeddings mm, storage mm)) as [r [em' s']]. reflexivity.
Qed.

Lemma counter_store_chunks (chunks : list ChunkInfo) :
  preserves (uuid_counter (S := S)) (store_chunks chunks).
Proof.
  unfold store_chunks.
  repeat first [preserves_step | apply counter_on_storage
               | apply counter_on_embeddings].
Qed.

Lemma processor_store_chunks (chunks : list ChunkInfo) :
  preserves (file_processor (S := S)) (store_chunks chunks).
Proof.
  unfold store_chunks.
  repeat first [preserves_step | apply processor_on_storage
               | apply processor_on_embeddings].
Qed.

(** Storing chunks leaves alone every observation of the storage that the
    cache and the inserts of these chunks leave alone. *)
Lemma store_chunks_frame {X : Type} (o : S -> X) (chunks : list ChunkInfo) :
  (forall h p m v s, o (snd (cache_embedding h p m v s)) = o s) ->
  (forall c, In c chunks -> forall e s, o (snd (add_chunk c e s)) = o s) ->
  preserves (fun mm => o (storage mm)) (store_chunks chunks).
Proof.
  intros Hcache. unfold store_chunks.
  induction chunks as [|c chunks IH]; intros Hadd; cbn [for_each].
  - apply preserves_ret.
  - apply preserves_bind.
    + apply preserves_bind.
      * apply storage_obs_on_embeddings. apply sobs_embed_single. exact Hcache.
      * intros e. apply preserves_bind; [|intros ?; apply preserves_ret].
        apply storage_obs_on_storage. intros s. apply Hadd. left. reflexivity.
    + intros _. apply IH. intros c' Hc'. apply Hadd. right. exact Hc'.
Qed.

Lemma store_chunks_get_file (chunks : list ChunkInfo) (id : string) (mm : Manager.t S) :
  get_file id (storage (snd (store_chunks chunks mm))) = get_file id (storage mm).
Proof.
  apply (store_chunks_frame (get_file id)).
  - intros. apply cache_embedding_get_file.
  - intros. apply add_chunk_get_file.
Qed.

Lemma store_chunks_get_file_by_path (chunks : list ChunkInfo) (path : string)
    (mm : Manager.t S) :
  get_file_by_path path (storage (snd (store_chunks chunks mm)))
  = get_file_by_path path (storage mm).
Proof.
  apply (store_chunks_frame (get_file_by_path path)).
  - intros. apply cache_embedding_get_file_by_path.
  - intros. apply add_chunk_get_file_by_path.
Qed.

Lemma store_chunks_get_chunk_other (chunks : list ChunkInfo) (id : string)
    (mm : Manager.t S) :
  ~ In id (map ci_id chunks) ->
  get_chunk id (storage (snd (store_chunks chunks mm))) = get_chunk id (storage mm).
Proof.
  intros Hnot. apply (store_chunks_frame (get_chunk id)).
  - intros. apply cache_embedding_get_chunk.
  - intros c Hc e s. apply add_chunk_get_chunk_other.
    intros ->. apply Hnot. apply in_map. exact Hc.
Qed.

(** When the loop ends normally, every chunk is stored under its id. *)
Lemma store_chunks_stored (chunks : list ChunkInfo) (mm : Manager.t S) :
  fst (store_chunks chunks mm) = Ok tt ->
  NoDup (map ci_id chunks) ->
  forall c, In c chunks ->
    get_chunk (ci_id c) (storage (snd (store_chunks chunks mm))) = Some c.
Proof.
  revert mm. induction chunks as [|c0 chunks IH]; intros mm Hok Hnd c Hin;
    [destruct Hin|].
  cbn [map] in Hnd. apply NoDup_cons in Hnd. destruct Hnd as [Hfresh Hnd].
  rewrite list_elem_of_In in Hfresh.
  unfold store_chunks in *. cbn [for_each] in *.
  unfold bind at 1 in Hok. unfold bind at 1.
  destruct ((embedding <- on_embeddings (Embeddings.embed_single (ci_text c0));;
             on_storage (add_chunk c0 embedding);;; ret ())%py mm)
    as [[[]|e] mm1] eqn:Hstep; [|discriminate Hok].
  fold (store_chunks chunks) in *.
  assert (Hc0 : get_chunk (ci_id c0) (storage mm1) = Some c0).
  { unfold bind, on_embeddings in Hstep.
    destruct (Embeddings.embed_single (ci_text c0) (embeddings mm, storage mm))
      as [[emb|e] [em' s']]; [|discriminate Hstep].
    unfold on_storage in Hstep. cbn [storage] in Hstep.
    pose proof (add_chunk_get_chunk c0 emb s') as Hlaw.
    destruct (add_chunk c0 emb s') as [[cid|e] s''] eqn:Hadd; [|discriminate Hstep].
    cbn in Hstep. injection Hstep as <-. cbn [storage].
    destruct (Hlaw cid eq_refl) as [_ Hget]. exact Hget. }
  destruct Hin as [<-|Hin].
  - rewrite store_chunks_get_chunk_other; [exact Hc0|exact Hfresh].
  - apply IH; assumption.
Qed.

(** One call of [ingest_text] from a state where the coming identifiers are
    unused. *)
Lemma ingest_text_once (env : Env.t) (text : string) (metadata : option pydict)
    (mm : Manager.t S) :
  uuid_fresh mm ->
  exists f chunks,
    fst (FileProcessor.process_text (file_processor mm) env text None None
           metadata (uuid_counter mm)) = Ok (f, chunks)
    /\ fi_id f = FileProcessor.uuid_of (uuid_counter mm)
    /\ fi_path f = ("text_" ++ FileProcessor.uuid_of (uuid_counter mm))%string
    /\ fi_hash f = MD5.md5_hex text
    /\ map ci_id chunks
       = map FileProcessor.uuid_of
           (seq (Datatypes.S (uuid_counter mm)) (length chunks))
    /\ (forall c, In c chunks -> ci_file_id c = fi_id f)
    /\ uuid_counter (snd (ingest_text env text metadata mm))
       = (Datatypes.S (uuid_counter mm) + length chunks)%nat
    /\ file_processor (snd (ingest_text env text metadata mm)) = file_processor mm
    /\ get_file (fi_id f) (storage (snd (ingest_text env text metadata mm)))
       = Some f
    /\ (forall id, id <> fi_id f ->
          get_file id (storage (snd (ingest_text env text metadata mm)))
          = get_file id (storage mm))
    /\ (forall path, path <> fi_path f ->
          get_file_by_path path (storage (snd (ingest_text env text metadata mm)))
          = get_file_by_path path (storage mm))
    /\ (forall id, ~ In id (map ci_id chunks) ->
          get_chunk id (storage (snd (ingest_text env text metadata mm)))
          = get_chunk id (storage mm))
    /\ (forall id, fst (ingest_text env text metadata mm) = Ok id ->
          id = fi_id f
          /\ forall c, In c chunks ->
               get_chunk (ci_id c)
                 (storage (snd (ingest_text env text metadata mm))) = Some c).
Proof.
  intros Hfresh.
  destruct (process_text_plan (file_processor mm) env text metadata (uuid_counter mm))
    as [f [chunks [Hpt [Hid [Hpath [Hhash [Hids Hfid]]]]]]].
  exists f, chunks.
  destruct (Hfresh (uuid_counter mm) (le_n _)) as [Hnofile [Hnopath _]].
  rewrite <- Hid in Hnofile. rewrite <- Hpath in Hnopath.
  assert (Hrun : ingest_text env text metadata mm
    = (let mm_a :=
         Manager.mk (snd (add_file f (storage mm))) (embeddings mm)
           (file_processor mm) (watch_directories mm) (last_sync mm)
           (sync_in_progress mm) (Datatypes.S (uuid_counter mm) + length chunks) in
       match fst (store_chunks chunks mm_a) with
       | Ok _ => (Ok (fi_id f), snd (store_chunks chunks mm_a))
       | Raise e => (Raise e, snd (store_chunks chunks mm_a))
       end)).
  { unfold ingest_text, bind, get_state. unfold on_uuid at 1. rewrite Hpt.
    cbn [fst snd storage embeddings file_processor watch_directories last_sync
         sync_in_progress uuid_counter].
    unfold on_storage at 1. cbn [storage].
    pose proof (add_file_ok f (storage mm)) as Hok.
    destruct (add_file f (storage mm)) as [r s1]. cbn [fst snd] in *. subst r.
    cbn [embeddings file_processor watch_directories last_sync sync_in_progress
         uuid_counter].
    destruct (store_chunks chunks _) as [[[]|e] mm']; reflexivity. }
  set (mm_a := Manager.mk (snd (add_file f (storage mm))) (embeddings mm)
                 (file_processor mm) (watch_directories mm) (last_sync mm)
                 (sync_in_progress mm)
                 (Datatypes.S (uuid_counter mm) + length chunks)) in *.
  assert (Hsnd : snd (ingest_text env text metadata mm) = snd (store_chunks chunks mm_a)).
  { rewrite Hrun. cbv zeta. destruct (fst (store_chunks chunks mm_a)); reflexivity. }
  rewrite Hsnd.
  split; [rewrite Hpt; reflexivity|].
  split; [exact Hid|]. split; [exact Hpath|]. split; [exact Hhash|].
  split; [exact Hids|].
  split; [intros c Hc; rewrite Hid; apply Hfid; exact Hc|].
  split; [rewrite counter_store_chunks; reflexivity|].
  split; [rewrite processor_store_chunks; reflexivity|].
  split; [rewrite store_chunks_get_file; apply add_file_get_file|].
  split.
  { intros id Hne. rewrite store_chunks_get_file. cbn [storage mm_a].
    apply add_file_get_file_other; assumption. }
  split.
  { intros path Hne. rewrite store_chunks_get_file_by_path. cbn [storage mm_a].
    apply add_file_get_file_by_path_other; assumption. }
  split.
  { intros id Hnot. rewrite store_chunks_get_chunk_other by exact Hnot.
    cbn [storage mm_a]. apply add_file_get_chunk; assumption. }
  intros id Hok. rewrite Hrun in Hok. cbv zeta in Hok.
  destruct (fst (store_chunks chunks mm_a)) as [[]|e] eqn:Hst; [|discriminate Hok].
  cbn in Hok. injection Hok as <-. split; [reflexivity|].
  intros c Hc. apply store_chunks_stored; [exact Hst| |exact Hc].
  rewrite Hids. apply uuid_seq_NoDup.
Qed.



End IngestText.

(** On an empty database every identifier is unused. *)
Lemma idle_manager_fresh (p : Embeddings.EmbeddingProvider) :
  Manager.uuid_fresh (Scenarios.idle_manager p).
Proof. intros k _. repeat split; reflexivity. Qed.

(** Two ingests of ["hello"] with a working provider both return, with the
    ids [uuid-0] and [uuid-2]; each file owns one chunk row. *)
Lemma ingest_text_twice_returns :
  fst (Manager.ingest_text Scenarios.docs_env "hello" None
         (Scenarios.idle_manager Scenarios.length_provider))
  = Ok "uuid-0"%string
  /\ fst (Manager.ingest_text Scenarios.docs_env "hello" None
            (snd (Manager.ingest_text Scenarios.docs_env "hello" None
                    (Scenarios.idle_manager Scenarios.length_provider))))
     = Ok "uuid-2"%string
  /\ map (fun r => (Models.ci_id (SQLiteBackend.chunk r),
                    Models.ci_file_id (SQLiteBackend.chunk r)))
         (SQLiteBackend.chunks
            (Manager.storage
               (snd (Manager.ingest_text Scenarios.docs_env "hello" None
                       (snd (Manager.ingest_text Scenarios.docs_env "hello" None
                               (Scenarios.idle_manager Scenarios.length_provider)))))))
     = [("uuid-1"%string, "uuid-0"%string); ("uuid-3"%string, "uuid-2"%string)].
Proof. repeat split; vm_compute; reflexivity. Qed.



(** ** search/hybrid.py: the merge on candidates with positive scores *)

Section OrderedDictMore.
Context {V : Type}.

Lemma od_get_set (d : list (string * V)) (k k' : string) (v : V) :
  od_get (od_set d k v) k' = if String.eqb k k' then Some v else od_get d k'.
Proof.
  destruct (String.eqb k k') eqn:E.
  - apply String.eqb_eq in E. subst k'. apply od_get_set_eq.
  - apply od_get_set_ne. apply String.eqb_neq in E. congruence.
Qed.

Lemma od_set_In (d : list (string * V)) (k0 k : string) (v0 v : V) :
  In (k, v) (od_set d k0 v0) -> (k = k0 /\ v = v0) \/ In (k, v) d.
Proof.
  induction d as [|[k1 v1] d IH]; cbn.
  - intros [Heq|[]]. injection Heq as <- <-. left. split; reflexivity.
  - destruct (String.eqb k0 k1) eqn:E.
    + intros [Heq|Hin].
      * injection Heq as <- <-. left. split; reflexivity.
      * right. right. exact Hin.
    + intros [Heq|Hin].
      * right. left. exact Heq.
      * destruct (IH Hin) as [Hl|Hr]; [left; exact Hl|right; right; exact Hr].
Qed.

Lemma od_get_In (d : list (string * V)) (k : string) (v : V) :
  od_get d k = Some v -> In (k, v) d.
Proof.
  induction d as [|[k1 v1] d IH]; cbn; [discriminate|].
  destruct (String.eqb k k1) eqn:E.
  - intros Heq. injection Heq as <-. apply String.eqb_eq in E. subst k1.
    left. reflexivity.
  - intros Hget. right. apply IH. exact Hget.
Qed.

(** Every key of the dict is found by [od_get]. *)
Lemma od_In_mem (d : list (string * V)) (k : string) (v : V) :
  In (k, v) d -> od_mem d k = true.
Proof.
  unfold od_mem. induction d as [|[k1 v1] d IH]; cbn; [intros []|].
  destruct (String.eqb k k1) eqn:E; [reflexivity|].
  intros [Heq|Hin]; [|exact (IH Hin)].
  injection Heq as -> ->. rewrite String.eqb_refl in E. discriminate.
Qed.
End OrderedDictMore.

Section InsertionSort.
Import Models HybridSearch.

Lemma insert_by_score_In (r x : SearchResult) (l : list SearchResult) :
  In x (insert_by_score r l) <-> x = r \/ In x l.
Proof.
  induction l as [|y l IH]; cbn.
  - intuition congruence.
  - destruct (Qle_bool (sr_score y) (sr_score r)); cbn.
    + intuition congruence.
    + rewrite IH. intuition congruence.
Qed.

Lemma sort_by_score_In (x : SearchResult) (l : list SearchResult) :
  In x (sort_by_score l) <-> In x l.
Proof.
  induction l as [|y l IH]; cbn; [tauto|].
  rewrite insert_by_score_In, IH. intuition congruence.
Qed.

Lemma insert_by_score_sorted (r : SearchResult) (l : list SearchResult) :
  StronglySorted score_ge l ->
  StronglySorted score_ge (insert_by_score r l).
Proof.
  intros Hs. induction Hs as [|y l Hs IH Hall]; cbn.
  - constructor; [constructor|constructor].
  - destruct (Qle_bool (sr_score y) (sr_score r)) eqn:E.
    + apply Qle_bool_iff in E. constructor.
      * constructor; assumption.
      * constructor; [exact E|].
        rewrite Forall_forall in Hall |- *. intros z Hz.
        unfold score_ge in *. specialize (Hall z Hz).
        eapply Qle_trans; eassumption.
    + constructor; [exact IH|].
      rewrite Forall_forall in Hall |- *. intros z Hz.
      apply list_elem_of_In, insert_by_score_In in Hz. destruct Hz as [->|Hz].
      * unfold score_ge. destruct (Qlt_le_dec (sr_score y) (sr_score r)) as [Hlt|Hle].
        -- apply Qlt_le_weak in Hlt. apply Qle_bool_iff in Hlt. congruence.
        -- exact Hle.
      * apply Hall. apply list_elem_of_In. exact Hz.
Qed.

(** The sort returns its input in descending order of score. *)
Lemma sort_by_score_sorted (l : list SearchResult) :
  StronglySorted score_ge (sort_by_score l).
Proof.
  induction l as [|y l IH]; cbn; [constructor|].
  apply insert_by_score_sorted. exact IH.
Qed.
End InsertionSort.

Section MergeFacts.
Import Models HybridSearch.

Local Abbreviation find_last l k :=
  (List.find (fun x : SearchResult => String.eqb (key x) k) (rev l)).

(** Every key with a vector score is a key of the result map. *)
Local Abbreviation scores_inside st :=
  (forall k, od_mem (result_map st) k = false -> od_get (vector_scores st) k = None).

(** Every entry of the result map sits under its own key. *)
Local Abbreviation keyed st :=
  (forall k r, In (k, r) (result_map st) -> key r = k).

Lemma find_last_cons (r : SearchResult) (l : list SearchResult) (k : string) :
  find_last (r :: l) k
  = match find_last l k with
    | Some x => Some x
    | None => if String.eqb (key r) k then Some r else None
    end.
Proof.
  cbn [rev]. rewrite find_app. destruct (List.find _ (rev l)); [reflexivity|].
  cbn. destruct (String.eqb (key r) k); reflexivity.
Qed.

Lemma spec_in_mode_find_last (l : list SearchResult) (k : string) :
  spec_in_mode l k = match find_last l k with Some _ => true | None => false end.
Proof.
  unfold spec_in_mode. induction l as [|r l IH]; [reflexivity|].
  rewrite find_last_cons. cbn [existsb]. rewrite IH.
  destruct (find_last l k); [apply orb_true_r|].
  destruct (String.eqb (key r) k); reflexivity.
Qed.

Lemma find_last_In (l : list SearchResult) (k : string) (r : SearchResult) :
  find_last l k = Some r -> In r l /\ key r = k.
Proof.
  intros Hf. apply find_some in Hf. destruct Hf as [Hin Hk].
  split; [apply in_rev; exact Hin|apply String.eqb_eq; exact Hk].
Qed.

Lemma od_mem_set {V : Type} (d : list (string * V)) (k k' : string) (v : V) :
  od_mem (od_set d k v) k' = String.eqb k k' || od_mem d k'.
Proof.
  unfold od_mem. rewrite od_get_set. destruct (String.eqb k k'); reflexivity.
Qed.

(** *** The loop over the vector results *)

Lemma fold_vector_scores (V : list SearchResult) (st0 : merge_state) (k : string) :
  od_get (vector_scores (fold_left add_vector V st0)) k
  = match find_last V k with
    | Some r => Some (sr_score r)
    | None => od_get (vector_scores st0) k
    end.
Proof.
  revert st0. induction V as [|r V IH]; intros st0; [reflexivity|].
  cbn [fold_left]. rewrite IH, find_last_cons.
  destruct (find_last V k); [reflexivity|].
  unfold add_vector. cbn [vector_scores]. rewrite od_get_set.
  destruct (String.eqb (key r) k); reflexivity.
Qed.

Lemma fold_vector_keyword_scores (V : list SearchResult) (st0 : merge_state) :
  keyword_scores (fold_left add_vector V st0) = keyword_scores st0.
Proof.
  revert st0. induction V as [|r V IH]; intros st0; [reflexivity|].
  cbn [fold_left]. rewrite IH. reflexivity.
Qed.

Lemma fold_vector_mem (V : list SearchResult) (st0 : merge_state) (k : string) :
  od_mem (result_map (fold_left add_vector V st0)) k
  = spec_in_mode V k || od_mem (result_map st0) k.
Proof.
  revert st0. induction V as [|r V IH]; intros st0; [reflexivity|].
  cbn [fold_left]. rewrite IH. unfold add_vector. cbn [result_map].
  rewrite od_mem_set. unfold spec_in_mode. cbn [existsb].
  destruct (String.eqb (key r) k), (existsb _ V), (od_mem (result_map st0) k);
    reflexivity.
Qed.

Lemma fold_vector_keyed (V : list SearchResult) (st0 : merge_state) :
  keyed st0 -> keyed (fold_left add_vector V st0).
Proof.
  revert st0. induction V as [|r V IH]; intros st0 Hk; [exact Hk|].
  cbn [fold_left]. apply IH. intros k x Hin. unfold add_vector in Hin.
  cbn [result_map] in Hin. apply od_set_In in Hin.
  destruct Hin as [[-> ->]|Hin]; [reflexivity|exact (Hk k x Hin)].
Qed.

Lemma fold_vector_scores_inside (V : list SearchResult) (st0 : merge_state) :
  scores_inside st0 -> scores_inside (fold_left add_vector V st0).
Proof.
  revert st0. induction V as [|r V IH]; intros st0 Hs; [exact Hs|].
  cbn [fold_left]. apply IH. intros k. unfold add_vector.
  cbn [result_map vector_scores]. rewrite od_mem_set, od_get_set.
  destruct (String.eqb (key r) k); [discriminate|]. apply Hs.
Qed.

(** *** The loop over the keyword results *)

Lemma add_keyword_keyword_scores (st : merge_state) (r : SearchResult) :
  keyword_scores (add_keyword st r)
  = od_set (keyword_scores st) (key r) (sr_score r).
Proof. unfold add_keyword. destruct (od_get (result_map st) (key r)); reflexivity. Qed.

Lemma add_keyword_mem (st : merge_state) (r : SearchResult) (k : string) :
  od_mem (result_map (add_keyword st r)) k
  = String.eqb (key r) k || od_mem (result_map st) k.
Proof.
  unfold add_keyword. destruct (od_get (result_map st) (key r));
    cbn [result_map]; apply od_mem_set.
Qed.

Lemma add_keyword_vector_default (st : merge_state) (r : SearchResult) (k : string) :
  scores_inside st ->
  default 0%Q (od_get (vector_scores (add_keyword st r)) k)
  = default 0%Q (od_get (vector_scores st) k).
Proof.
  intros Hs. unfold add_keyword.
  destruct (od_get (result_map st) (key r)) eqn:E; cbn [vector_scores]; [reflexivity|].
  rewrite od_get_set. destruct (String.eqb (key r) k) eqn:Ek; [|reflexivity].
  apply String.eqb_eq in Ek. subst k.
  rewrite (Hs (key r)); [reflexivity|]. unfold od_mem. rewrite E. reflexivity.
Qed.

Lemma add_keyword_scores_inside (st : merge_state) (r : SearchResult) :
  scores_inside st -> scores_inside (add_keyword st r).
Proof.
  intros Hs k Hmem. rewrite add_keyword_mem in Hmem.
  apply orb_false_iff in Hmem. destruct Hmem as [Hne Hmem].
  unfold add_keyword.
  destruct (od_get (result_map st) (key r)); cbn [vector_scores]; [exact (Hs k Hmem)|].
  rewrite od_get_set, Hne. exact (Hs k Hmem).
Qed.

Lemma add_keyword_keyed (st : merge_state) (r : SearchResult) :
  keyed st -> keyed (add_keyword st r).
Proof.
  intros Hk k x Hin. unfold add_keyword in Hin.
  destruct (od_get (result_map st) (key r)) as [existing|] eqn:E;
    cbn [result_map] in Hin; apply od_set_In in Hin;
    destruct Hin as [[-> ->]|Hin]; try exact (Hk k x Hin); [|reflexivity].
  apply od_get_In in E. apply Hk in E. rewrite <- E.
  destruct (sr_excerpt r) as [e|];
    [destruct (PyStr.truthy e && PyStr.contains e "...")|];
    cbn [sr_keyword_score set_excerpt];
    destruct (sr_keyword_score existing); reflexivity.
Qed.

Lemma fold_keyword_scores (K : list SearchResult) (st0 : merge_state) (k : string) :
  od_get (keyword_scores (fold_left add_keyword K st0)) k
  = match find_last K k with
    | Some r => Some (sr_score r)
    | None => od_get (keyword_scores st0) k
    end.
Proof.
  revert st0. induction K as [|r K IH]; intros st0; [reflexivity|].
  cbn [fold_left]. rewrite IH, find_last_cons.
  destruct (find_last K k); [reflexivity|].
  rewrite add_keyword_keyword_scores, od_get_set.
  destruct (String.eqb (key r) k); reflexivity.
Qed.

Lemma fold_keyword_mem (K : list SearchResult) (st0 : merge_state) (k : string) :
  od_mem (result_map (fold_left add_keyword K st0)) k
  = spec_in_mode K k || od_mem (result_map st0) k.
Proof.
  revert st0. induction K as [|r K IH]; intros st0; [reflexivity|].
  cbn [fold_left]. rewrite IH, add_keyword_mem. unfold spec_in_mode. cbn [existsb].
  destruct (String.eqb (key r) k), (existsb _ K), (od_mem (result_map st0) k);
    reflexivity.
Qed.

Lemma fold_keyword_keyed (K : list SearchResult) (st0 : merge_state) :
  keyed st0 -> keyed (fold_left add_keyword K st0).
Proof.
  revert st0. induction K as [|r K IH]; intros st0 Hk; [exact Hk|].
  cbn [fold_left]. apply IH. apply add_keyword_keyed. exact Hk.
Qed.

Lemma fold_keyword_vector_default (K : list SearchResult) (st0 : merge_state)
    (k : string) :
  scores_inside st0 ->
  default 0%Q (od_get (vector_scores (fold_left add_keyword K st0)) k)
  = default 0%Q (od_get (vector_scores st0) k).
Proof.
  revert st0. induction K as [|r K IH]; intros st0 Hs; [reflexivity|].
  cbn [fold_left]. rewrite IH by (apply add_keyword_scores_inside; exact Hs).
  apply add_keyword_vector_default. exact Hs.
Qed.

End MergeFacts.

Section MergeBySpec.
Import Models HybridSearch.

Lemma finalize_key (st : merge_state) (vw kw : Q) (kv : string * SearchResult) :
  key (finalize st vw kw kv) = key (snd kv).
Proof. destruct kv as [k r]. reflexivity. Qed.

(** For candidates with positive scores, a positive sub-score tells that the
    mode returned the span. *)
Lemma positive_score_is_membership (l : list SearchResult) (k : string) :
  (forall x, In x l -> Qgtb (sr_score x) 0 = true) ->
  Qgtb (spec_mode_score l k) 0 = spec_in_mode l k.
Proof.
  intros Hpos. rewrite spec_in_mode_find_last. unfold spec_mode_score.
  destruct (List.find _ (rev l)) as [r|] eqn:E; [|reflexivity].
  apply find_last_In in E. apply Hpos. exact (proj1 E).
Qed.

Lemma merged_vector_score (V K : list SearchResult) (k : string) :
  default 0%Q
    (od_get (vector_scores
               (fold_left add_keyword K
                  (fold_left add_vector V (mkMergeState [] [] [])))) k)
  = spec_mode_score V k.
Proof.
  rewrite fold_keyword_vector_default.
  - rewrite fold_vector_scores. unfold spec_mode_score.
    destruct (List.find _ (rev V)); reflexivity.
  - apply fold_vector_scores_inside. intros k' _. reflexivity.
Qed.

Lemma merged_keyword_score (V K : list SearchResult) (k : string) :
  default 0%Q
    (od_get (keyword_scores
               (fold_left add_keyword K
                  (fold_left add_vector V (mkMergeState [] [] [])))) k)
  = spec_mode_score K k.
Proof.
  rewrite fold_keyword_scores, fold_vector_keyword_scores. unfold spec_mode_score.
  destruct (List.find _ (rev K)); reflexivity.
Qed.

(** On candidates with positive scores [_merge_results] returns, in
    descending order of score, one result for every span returned by either
    mode and nothing else, each with the combined score of the
    specification. *)
Lemma merge_results_by_the_formula (V K : list SearchResult) (vw kw : Q) :
  (forall x, In x (V ++ K) -> Qgtb (sr_score x) 0 = true) ->
  StronglySorted score_ge (_merge_results V K vw kw)
  /\ (forall r, In r (_merge_results V K vw kw) ->
        sr_score r = spec_combined V K vw kw (key r)
        /\ spec_in_mode V (key r) || spec_in_mode K (key r) = true)
  /\ (forall k, spec_in_mode V k || spec_in_mode K k = true ->
        exists r, In r (_merge_results V K vw kw) /\ key r = k).
Proof.
  intros Hpos. unfold _merge_results.
  set (st := fold_left add_keyword K
               (fold_left add_vector V (mkMergeState [] [] []))).
  assert (Hkeyed : forall k r, In (k, r) (result_map st) -> key r = k).
  { apply fold_keyword_keyed, fold_vector_keyed. intros k r []. }
  assert (Hmem : forall k, od_mem (result_map st) k
                           = spec_in_mode K k || spec_in_mode V k).
  { intros k. unfold st. rewrite fold_keyword_mem, fold_vector_mem.
    cbn. rewrite orb_false_r. reflexivity. }
  split; [apply sort_by_score_sorted|]. split.
  - intros r Hr. apply sort_by_score_In, in_map_iff in Hr.
    destruct Hr as [[k x] [<- Hin]].
    rewrite finalize_key. cbn [snd]. rewrite (Hkeyed k x Hin).
    split.
    + unfold finalize. cbn [sr_score]. fold st.
      unfold st at 1 2. rewrite merged_vector_score, merged_keyword_score.
      unfold combined_score, spec_combined.
      rewrite (positive_score_is_membership V k), (positive_score_is_membership K k).
      * reflexivity.
      * intros y Hy. apply Hpos. apply in_or_app. right. exact Hy.
      * intros y Hy. apply Hpos. apply in_or_app. left. exact Hy.
    + rewrite orb_comm, <- Hmem. exact (od_In_mem _ _ _ Hin).
  - intros k Hk. rewrite orb_comm, <- Hmem in Hk. unfold od_mem in Hk.
    destruct (od_get (result_map st) k) as [x|] eqn:E; [|discriminate].
    apply od_get_In in E. exists (finalize st vw kw (k, x)). split.
    + apply sort_by_score_In, in_map. exact E.
    + rewrite finalize_key. exact (Hkeyed k x E).
Qed.

(** When neither slip is triggered (both weights set and different from
    zero, expanded options accepted, both searches answering), the hybrid
    search filters the merged list by the caller's [min_score] and cuts it
    at the caller's [max_results]. *)
Lemma hybrid_search_on_regular_options
    (vector_search keyword_search : SearchOptions -> result (list SearchResult))
    (options expanded : SearchOptions) (V K : list SearchResult) (vw kw : Q) :
  SearchOptions_new (mode options) (max_results options * 3)
    (py_max (1 # 10) (min_score options - (2 # 10))%Q) (sources options)
    (vector_weight options) (keyword_weight options) = Ok expanded ->
  vector_search expanded = Ok V ->
  keyword_search expanded = Ok K ->
  vector_weight options = Some vw -> Qeq_bool vw 0 = false ->
  keyword_weight options = Some kw -> Qeq_bool kw 0 = false ->
  _hybrid_search vector_search keyword_search options
  = Ok (list_prefix
          (List.filter (fun r => Qgeb (sr_score r) (min_score options))
             (_merge_results V K vw kw))
          (max_results options)).
Proof.
  intros Hexp HV HK Hvw Hvw0 Hkw Hkw0.
  unfold _hybrid_search, hybrid_try. rewrite Hexp, HV, HK, Hvw, Hkw.
  unfold or_default. rewrite Hvw0, Hkw0. reflexivity.
Qed.

End MergeBySpec.

(** ** storage/sqlite_backend.py: what every database satisfies *)

Section SQLiteReachable.
Import Models SQLiteBackend SQLiteSchema.

Lemma fold_run_invariant (P : t -> Prop) :
  (forall db c, P db -> P (run db c)) ->
  forall calls db, P db -> P (fold_left run calls db).
Proof.
  intros Hstep calls. induction calls as [|c calls IH]; intros db Hdb; cbn; auto.
Qed.

Lemma get_file_some_iff (id : string) (db : t) :
  get_file id db <> None <-> exists f, In f (files db) /\ fi_id f = id.
Proof.
  unfold get_file. split.
  - destruct (List.find _ _) as [f|] eqn:E; [|congruence]. intros _.
    apply find_some in E. destruct E as [Hin He]. exists f. split; [exact Hin|].
    apply String.eqb_eq. exact He.
  - intros [f [Hin He]] Hn. apply (find_none _ _ Hn) in Hin. cbn in Hin.
    apply String.eqb_neq in Hin. contradiction.
Qed.

Lemma cascade_In (removed : list string) (cs : list ChunkRow) (r : ChunkRow) :
  In r (cascade_chunks removed cs)
  <-> In r cs /\ ~ In (ci_file_id (chunk r)) removed.
Proof.
  unfold cascade_chunks. rewrite filter_In.
  split; intros [Hin Hx]; (split; [exact Hin|]).
  - intros Hr. apply negb_true_iff in Hx.
    assert (Hex : existsb (String.eqb (ci_file_id (chunk r))) removed = true).
    { apply existsb_exists. exists (ci_file_id (chunk r)).
      split; [exact Hr|apply String.eqb_refl]. }
    congruence.
  - apply negb_true_iff. destruct (existsb _ _) eqn:E; [|reflexivity].
    apply existsb_exists in E. destruct E as [x [Hx1 Hx2]].
    apply String.eqb_eq in Hx2. subst x. contradiction.
Qed.

Lemma NoDup_map_filter {A B : Type} (g : A -> B) (p : A -> bool) (l : list A) :
  List.NoDup (map g l) -> List.NoDup (map g (List.filter p l)).
Proof.
  induction l as [|a l IH]; cbn; intros Hnd; [constructor|].
  apply List.NoDup_cons_iff in Hnd. destruct Hnd as [Hnot Hnd].
  destruct (p a); cbn; [|exact (IH Hnd)].
  apply List.NoDup_cons_iff. split; [|exact (IH Hnd)].
  intros Hin. apply Hnot. apply in_map_iff in Hin. destruct Hin as [x [Hx Hin]].
  apply filter_In in Hin. apply in_map_iff. exists x. tauto.
Qed.

Lemma NoDup_map_snoc {A B : Type} (g : A -> B) (l : list A) (a : A) :
  List.NoDup (map g l) -> (forall x, In x l -> g x <> g a) ->
  List.NoDup (map g (l ++ [a])).
Proof.
  intros Hnd Hne. rewrite map_app. cbn.
  induction l as [|b l IH]; cbn.
  - constructor; [intros []|constructor].
  - cbn in Hnd. apply List.NoDup_cons_iff in Hnd. destruct Hnd as [Hnot Hnd].
    apply List.NoDup_cons_iff. split.
    + intros Hin. apply in_app_or in Hin. destruct Hin as [Hin|[Hin|[]]].
      * contradiction.
      * apply (Hne b (or_introl eq_refl)). symmetry. exact Hin.
    + apply IH; [exact Hnd|]. intros x Hx. apply Hne. right. exact Hx.
Qed.

(** *** Foreign keys *)

Lemma foreign_keys_run (db : t) (c : call) :
  foreign_keys db -> foreign_keys (run db c).
Proof.
  intros Hfk. destruct c as [f|f|id|ci e|id|h p m v]; cbn [run].
  - intros r Hr. unfold add_file in *. cbn [snd chunks] in Hr.
    apply cascade_In in Hr. destruct Hr as [Hin Hnot].
    apply get_file_some_iff.
    destruct (proj1 (get_file_some_iff _ _) (Hfk r Hin)) as [x [Hx Hid]].
    exists x. split; [|exact Hid]. cbn [snd files].
    apply in_or_app. left. apply filter_In. split; [exact Hx|].
    apply negb_true_iff.
    destruct (String.eqb (fi_id x) (fi_id f) || String.eqb (fi_path x) (fi_path f)) eqn:E;
      [|reflexivity].
    exfalso. apply Hnot. rewrite <- Hid. apply in_map. apply filter_In.
    split; [exact Hx|exact E].
  - unfold update_file.
    destruct (existsb _ (files db)); [|exact Hfk].
    destruct (existsb _ (files db)); [exact Hfk|].
    intros r Hr. cbn [snd set_files chunks] in Hr.
    apply get_file_some_iff.
    destruct (proj1 (get_file_some_iff _ _) (Hfk r Hr)) as [x [Hx Hid]].
    cbn [snd set_files files].
    exists (if String.eqb (fi_id x) (fi_id f) then f else x). split.
    + apply in_map_iff. exists x. split; [reflexivity|exact Hx].
    + destruct (String.eqb (fi_id x) (fi_id f)) eqn:E; [|exact Hid].
      apply String.eqb_eq in E. congruence.
  - intros r Hr. unfold delete_file in *. cbn [snd chunks] in Hr.
    apply cascade_In in Hr. destruct Hr as [Hin Hnot].
    apply get_file_some_iff.
    destruct (proj1 (get_file_some_iff _ _) (Hfk r Hin)) as [x [Hx Hid]].
    exists x. split; [|exact Hid]. cbn [snd files].
    apply filter_In. split; [exact Hx|].
    apply negb_true_iff. destruct (String.eqb (fi_id x) id) eqn:E; [|reflexivity].
    exfalso. apply Hnot. rewrite <- Hid. apply in_map. apply filter_In.
    split; [exact Hx|exact E].
  - unfold add_chunk.
    destruct (existsb _ (chunks db)); [exact Hfk|].
    destruct (existsb _ (files db)) eqn:Ef; cbn [negb]; [|exact Hfk].
    intros r Hr. cbn [snd chunks] in Hr. apply in_app_or in Hr.
    destruct Hr as [Hr|[<-|[]]].
    + apply (Hfk r Hr).
    + cbn [chunk]. apply get_file_some_iff. cbn [snd files].
      apply existsb_exists in Ef. destruct Ef as [x [Hx E]].
      apply String.eqb_eq in E. exists x. split; [exact Hx|exact E].
  - intros r Hr. unfold delete_chunks_by_file in Hr. cbn [snd chunks] in Hr.
    apply filter_In in Hr. apply (Hfk r (proj1 Hr)).
  - exact Hfk.
Qed.

(** X1: whatever sequence of [add_file], [update_file], [delete_file],
    [add_chunk], [delete_chunks_by_file] and [cache_embedding] calls is made
    on a new database, whether the calls return or raise, every row of
    [chunks] names a file that has a row in [files]: the foreign-key check
    of [add_chunk] and the cascades of [add_file] and [delete_file] leave no
    orphan chunk. *)
Theorem sqlite_chunks_always_have_their_file
    (has_vector_support : bool) (calls : list call) :
  foreign_keys (after has_vector_support calls).
Proof.
  unfold after. apply fold_run_invariant; [exact foreign_keys_run|].
  intros r [].
Qed.


(** *** Keys *)

Lemma update_paths_NoDup (f : FileInfo) (l : list FileInfo) :
  List.NoDup (map fi_id l) -> List.NoDup (map fi_path l) ->
  (forall x, In x l -> String.eqb (fi_id x) (fi_id f) = false ->
             fi_path x <> fi_path f) ->
  List.NoDup
    (map fi_path (map (fun x => if String.eqb (fi_id x) (fi_id f) then f else x) l)).
Proof.
  induction l as [|a l IH]; cbn; intros Hid Hpath Hother; [constructor|].
  apply List.NoDup_cons_iff in Hid. destruct Hid as [Hida Hid].
  apply List.NoDup_cons_iff in Hpath. destruct Hpath as [Hpa Hpath].
  assert (IH' := IH Hid Hpath (fun x Hx => Hother x (or_intror Hx))).
  apply List.NoDup_cons_iff. split; [|exact IH'].
  intros Hin. apply in_map_iff in Hin. destruct Hin as [y [Hy Hin]].
  apply in_map_iff in Hin. destruct Hin as [x [Hx Hin]]. subst y.
  destruct (String.eqb (fi_id a) (fi_id f)) eqn:Ea;
    destruct (String.eqb (fi_id x) (fi_id f)) eqn:Ex.
  - apply String.eqb_eq in Ea, Ex. apply Hida. apply in_map_iff.
    exists x. split; [congruence|exact Hin].
  - apply (Hother x (or_intror Hin) Ex). exact Hy.
  - apply (Hother a (or_introl eq_refl) Ea). symmetry. exact Hy.
  - apply Hpa. apply in_map_iff. exists x. split; [exact Hy|exact Hin].
Qed.

Lemma files_unique_run (db : t) (c : call) :
  files_unique db -> files_unique (run db c).
Proof.
  intros [Hid Hpath]. destruct c as [f|f|id|ci e|id|h p m v]; cbn [run].
  - unfold add_file, files_unique. cbn [snd files]. split.
    + apply NoDup_map_snoc; [apply NoDup_map_filter; exact Hid|].
      intros x Hx. apply filter_In in Hx. destruct Hx as [_ Hx].
      apply negb_true_iff, orb_false_iff in Hx. destruct Hx as [Hx _].
      apply String.eqb_neq. exact Hx.
    + apply NoDup_map_snoc; [apply NoDup_map_filter; exact Hpath|].
      intros x Hx. apply filter_In in Hx. destruct Hx as [_ Hx].
      apply negb_true_iff, orb_false_iff in Hx. destruct Hx as [_ Hx].
      apply String.eqb_neq. exact Hx.
  - unfold update_file.
    destruct (existsb _ (files db)); [|split; assumption].
    destruct (existsb _ (files db)) eqn:Eclash; [split; assumption|].
    unfold files_unique. cbn [snd set_files files]. split.
    + rewrite map_map.
      replace (map _ (files db)) with (map fi_id (files db)); [exact Hid|].
      apply map_ext_in. intros x _.
      destruct (String.eqb (fi_id x) (fi_id f)) eqn:E; [|reflexivity].
      apply String.eqb_eq in E. exact E.
    + apply update_paths_NoDup; [exact Hid|exact Hpath|].
      intros x Hx Ex Hp.
      assert (Hex : existsb (fun x => negb (String.eqb (fi_id x) (fi_id f))
                                      && String.eqb (fi_path x) (fi_path f))
                      (files db) = true).
      { apply existsb_exists. exists x. split; [exact Hx|].
        rewrite Ex, Hp, String.eqb_refl. reflexivity. }
      congruence.
  - unfold delete_file, files_unique. cbn [snd files].
    split; apply NoDup_map_filter; assumption.
  - unfold add_chunk.
    destruct (existsb _ (chunks db)); [split; assumption|].
    destruct (negb _); split; assumption.
  - split; assumption.
  - split; assumption.
Qed.

Lemma chunks_unique_run (db : t) (c : call) :
  chunks_unique db -> chunks_unique (run db c).
Proof.
  intros [Hid [Hrow [Hseq Hbound]]].
  destruct c as [f|f|id|ci e|id|h p m v]; cbn [run].
  - unfold add_file, chunks_unique, cascade_chunks. cbn [snd chunks chunks_seq].
    repeat split; try (apply NoDup_map_filter; assumption); try exact Hseq;
      apply filter_In in H; apply Hbound; tauto.
  - unfold update_file.
    destruct (existsb _ (files db)); [|repeat split; try assumption; apply Hbound; assumption].
    destruct (existsb _ (files db));
      repeat split; try assumption; apply Hbound; assumption.
  - unfold delete_file, chunks_unique, cascade_chunks. cbn [snd chunks chunks_seq].
    repeat split; try (apply NoDup_map_filter; assumption); try exact Hseq;
      apply filter_In in H; apply Hbound; tauto.
  - unfold add_chunk.
    destruct (existsb _ (chunks db)) eqn:Edup;
      [repeat split; try assumption; apply Hbound; assumption|].
    destruct (negb _);
      [repeat split; try assumption; apply Hbound; assumption|].
    unfold chunks_unique. cbn [snd chunks chunks_seq].
    split; [|split; [|split]].
    + apply NoDup_map_snoc; [exact Hid|]. intros x Hx. cbn [chunk].
      intros Heq.
      assert (Hex : existsb (fun r => String.eqb (ci_id (chunk r)) (ci_id ci))
                      (chunks db) = true).
      { apply existsb_exists. exists x. split; [exact Hx|].
        apply String.eqb_eq. exact Heq. }
      congruence.
    + apply NoDup_map_snoc; [exact Hrow|]. intros x Hx. cbn [rowid].
      specialize (Hbound x Hx). lia.
    + lia.
    + intros r Hr. apply in_app_or in Hr. destruct Hr as [Hr|[<-|[]]].
      * specialize (Hbound r Hr). lia.
      * cbn [rowid]. lia.
  - unfold delete_chunks_by_file, chunks_unique. cbn [snd chunks chunks_seq].
    repeat split; try (apply NoDup_map_filter; assumption); try exact Hseq;
      apply filter_In in H; apply Hbound; tauto.
  - repeat split; try assumption; apply Hbound; assumption.
Qed.

Lemma cache_unique_run (db : t) (c : call) :
  cache_unique db -> cache_unique (run db c).
Proof.
  intros Hc. destruct c as [f|f|id|ci e|id|h p m v]; cbn [run].
  - exact Hc.
  - unfold update_file. destruct (existsb _ (files db)); [|exact Hc].
    destruct (existsb _ (files db)); exact Hc.
  - exact Hc.
  - unfold add_chunk. destruct (existsb _ (chunks db)); [exact Hc|].
    destruct (negb _); exact Hc.
  - exact Hc.
  - unfold cache_embedding, cache_unique. cbn [snd embedding_cache].
    apply NoDup_map_snoc; [apply NoDup_map_filter; exact Hc|].
    intros x Hx. apply filter_In in Hx. destruct Hx as [_ Hx]. cbn [c_hash].
    apply negb_true_iff in Hx. apply String.eqb_neq. exact Hx.
Qed.

(** X2: on every database built by backend calls from a new one, the keys
    the schema declares hold: no two file rows share an id or a path, no two
    chunk rows share an id or a rowid, every rowid lies between 1 and the
    AUTOINCREMENT counter (so a rowid freed by a deletion is never handed
    out again), and no two cache rows share a hash. *)
Theorem sqlite_keys_stay_unique
    (has_vector_support : bool) (calls : list call) :
  files_unique (after has_vector_support calls)
  /\ chunks_unique (after has_vector_support calls)
  /\ cache_unique (after has_vector_support calls).
Proof.
  unfold after. split; [|split].
  - apply fold_run_invariant; [exact files_unique_run|].
    split; constructor.
  - apply fold_run_invariant; [exact chunks_unique_run|].
    unfold chunks_unique. cbn.
    repeat split; try constructor; try lia; intros r [].
  - apply fold_run_invariant; [exact cache_unique_run|]. constructor.
Qed.

(** *** The full-text index *)

Lemma fts_mirrors_run (db : t) (c : call) :
  chunks_unique db -> fts_mirrors db -> fts_mirrors (run db c).
Proof.
  intros [_ [Hrow _]] Hm. destruct c as [f|f|id|ci e|id|h p m v]; cbn [run].
  - intros r Hr. unfold add_file in *. cbn [snd chunks chunks_fts] in *.
    apply cascade_In in Hr. apply Hm. tauto.
  - unfold update_file. destruct (existsb _ (files db)); [|exact Hm].
    destruct (existsb _ (files db)); exact Hm.
  - intros r Hr. unfold delete_file in *. cbn [snd chunks chunks_fts] in *.
    apply cascade_In in Hr. apply Hm. tauto.
  - unfold add_chunk. destruct (existsb _ (chunks db)); [exact Hm|].
    destruct (negb _); [exact Hm|].
    intros r Hr. cbn [snd chunks chunks_fts] in *.
    apply in_or_app. apply in_app_or in Hr. destruct Hr as [Hr|[<-|[]]].
    + left. apply Hm. exact Hr.
    + right. left. reflexivity.
  - intros r Hr. unfold delete_chunks_by_file in *.
    cbn [snd chunks chunks_fts] in *.
    apply filter_In in Hr. destruct Hr as [Hr Hown].
    apply filter_In. split; [apply Hm; exact Hr|]. cbn [fst].
    apply negb_true_iff. apply negb_true_iff in Hown.
    destruct (existsb _ _) eqn:E; [|reflexivity]. exfalso.
    apply existsb_exists in E. destruct E as [k [Hk Ek]].
    apply Z.eqb_eq in Ek. subst k.
    apply in_map_iff in Hk. destruct Hk as [r' [Hrr' Hr']].
    apply filter_In in Hr'. destruct Hr' as [Hr' Hown'].
    assert (r' = r).
    { clear -Hrow Hr Hr' Hrr'. induction (chunks db) as [|a l IH]; [destruct Hr|].
      cbn in Hrow. apply List.NoDup_cons_iff in Hrow. destruct Hrow as [Ha Hl].
      destruct Hr as [->|Hr], Hr' as [->|Hr'].
      - reflexivity.
      - exfalso. apply Ha. rewrite <- Hrr'. apply in_map. exact Hr'.
      - exfalso. apply Ha. rewrite Hrr'. apply in_map. exact Hr.
      - apply IH; assumption. }
    subst r'. congruence.
  - exact Hm.
Qed.

(** X3: on every database built by backend calls from a new one, each row
    of [chunks] has its text in the full-text index under its rowid: no
    stored chunk is out of reach of the keyword search. *)
Theorem sqlite_chunks_are_always_indexed
    (has_vector_support : bool) (calls : list call) :
  fts_mirrors (after has_vector_support calls).
Proof.
  unfold after.
  assert (H : chunks_unique (fold_left run calls (empty has_vector_support))
              /\ fts_mirrors (fold_left run calls (empty has_vector_support))).
  { apply (fold_run_invariant (fun db => chunks_unique db /\ fts_mirrors db)).
    - intros db c [Hu Hm]. split; [apply chunks_unique_run; exact Hu|].
      apply fts_mirrors_run; assumption.
    - split; [|intros r []]. unfold chunks_unique. cbn.
      repeat split; try constructor; try lia; intros r []. }
  exact (proj2 H).
Qed.

End SQLiteReachable.


Section SQLiteCalls.
Import Models SQLiteBackend SQLiteSchema.

Lemma sort_by_start_length (l : list ChunkInfo) :
  length (StorageBase.sort_by_start l) = length l.
Proof.
  assert (Hins : forall c l, length (StorageBase.insert_by_start c l) = S (length l)).
  { intros c l0. induction l0 as [|d r IH]; cbn; [reflexivity|].
    destruct (ci_start_char c <=? ci_start_char d); cbn; [reflexivity|].
    rewrite IH. reflexivity. }
  unfold StorageBase.sort_by_start.
  induction l as [|a l IH]; cbn [fold_right]; [reflexivity|].
  rewrite Hins, IH. reflexivity.
Qed.

Lemma insert_by_start_perm (c : ChunkInfo) (l : list ChunkInfo) :
  Permutation (StorageBase.insert_by_start c l) (c :: l).
Proof.
  induction l as [|d r IH]; cbn; [reflexivity|].
  destruct (ci_start_char c <=? ci_start_char d); [reflexivity|].
  rewrite IH. apply perm_swap.
Qed.

Lemma sort_by_start_perm (l : list ChunkInfo) :
  Permutation (StorageBase.sort_by_start l) l.
Proof.
  unfold StorageBase.sort_by_start.
  induction l as [|a l IH]; cbn [fold_right]; [reflexivity|].
  rewrite insert_by_start_perm. apply perm_skip. exact IH.
Qed.

Lemma insert_by_start_sorted (c : ChunkInfo) (l : list ChunkInfo) :
  StronglySorted (fun a b => ci_start_char a <= ci_start_char b) l ->
  StronglySorted (fun a b => ci_start_char a <= ci_start_char b)
    (StorageBase.insert_by_start c l).
Proof.
  induction l as [|d r IH]; cbn; intros Hs.
  - constructor; [constructor|constructor].
  - destruct (ci_start_char c <=? ci_start_char d) eqn:E.
    + apply Z.leb_le in E. constructor; [exact Hs|].
      apply StronglySorted_inv in Hs. destruct Hs as [_ Hall].
      constructor; [exact E|].
      eapply List.Forall_impl; [|exact Hall]. cbn. intros x Hx. lia.
    + apply Z.leb_gt in E. apply StronglySorted_inv in Hs. destruct Hs as [Hs Hall].
      constructor; [exact (IH Hs)|].
      apply List.Forall_forall. intros x Hx.
      apply (Permutation_in _ (insert_by_start_perm c r)) in Hx.
      destruct Hx as [<-|Hx]; [lia|].
      rewrite List.Forall_forall in Hall. apply Hall. exact Hx.
Qed.

Lemma sort_by_start_sorted (l : list ChunkInfo) :
  StronglySorted (fun a b => ci_start_char a <= ci_start_char b)
    (StorageBase.sort_by_start l).
Proof.
  unfold StorageBase.sort_by_start.
  induction l as [|a l IH]; cbn [fold_right]; [constructor|].
  apply insert_by_start_sorted. exact IH.
Qed.

(** X4: [get_chunks_by_file] returns the chunks of the rows whose
    [file_id] is the one asked for, each once, in ascending order of
    [start_char]. *)
Theorem sqlite_get_chunks_by_file_sorted_and_complete
    (file_id : string) (db : t) :
  StronglySorted (fun a b => ci_start_char a <= ci_start_char b)
    (get_chunks_by_file file_id db)
  /\ Permutation (get_chunks_by_file file_id db)
       (map chunk
          (List.filter (fun r => String.eqb (ci_file_id (chunk r)) file_id)
             (chunks db)))
  /\ Forall (fun c => ci_file_id c = file_id) (get_chunks_by_file file_id db).
Proof.
  unfold get_chunks_by_file. split; [apply sort_by_start_sorted|].
  split; [apply sort_by_start_perm|].
  apply List.Forall_forall. intros c Hc.
  apply (Permutation_in _ (sort_by_start_perm _)) in Hc.
  apply in_map_iff in Hc. destruct Hc as [r [<- Hr]]. apply filter_In in Hr.
  apply String.eqb_eq. exact (proj2 Hr).
Qed.


Lemma sort_by_start_nil_iff (l : list ChunkInfo) :
  StorageBase.sort_by_start l = [] <-> l = [].
Proof.
  split; [|intros ->; reflexivity].
  intros Hs. apply (f_equal (@length _)) in Hs.
  rewrite sort_by_start_length in Hs. destruct l; [reflexivity|discriminate].
Qed.

Lemma filter_filter_same {A : Type} (p q : A -> bool) (l : list A) :
  (forall x, In x l -> p x = true -> q x = true) ->
  List.filter p (List.filter q l) = List.filter p l.
Proof.
  induction l as [|a l IH]; intros Hpq; [reflexivity|].
  cbn. assert (IH' := IH (fun x Hx => Hpq x (or_intror Hx))).
  destruct (q a) eqn:Eq; cbn.
  - rewrite IH'. reflexivity.
  - destruct (p a) eqn:Ep; [|exact IH'].
    rewrite (Hpq a (or_introl eq_refl) Ep) in Eq. discriminate.
Qed.

Lemma existsb_eqb_single (a b : string) :
  existsb (String.eqb a) [b] = String.eqb a b.
Proof. cbn. apply orb_false_r. Qed.

Lemma existsb_removed (hit : FileInfo -> bool) (l : list FileInfo) (id : string) :
  existsb (String.eqb id) (map fi_id (List.filter hit l)) = true
  <-> exists x, In x l /\ hit x = true /\ fi_id x = id.
Proof.
  rewrite existsb_exists. split.
  - intros [y [Hy E]]. apply String.eqb_eq in E. subst y.
    apply in_map_iff in Hy. destruct Hy as [x [Hx Hin]].
    apply filter_In in Hin. exists x. tauto.
  - intros [x [Hx [Hh Hid]]]. exists id. split; [|apply String.eqb_refl].
    apply in_map_iff. exists x. split; [exact Hid|]. apply filter_In. tauto.
Qed.

(** X5: [delete_file] reports whether the file had a row; afterwards the
    file is unknown and, if it had a row, so are its chunks; every other
    file and the chunks of every other file are as before; on an unknown
    id the database is left as it was. *)
Theorem sqlite_delete_file_removes_the_file_and_its_chunks
    (file_id : string) (db : t) :
  let db' := snd (delete_file file_id db) in
  fst (delete_file file_id db)
  = Ok (match get_file file_id db with Some _ => true | None => false end)
  /\ get_file file_id db' = None
  /\ (get_file file_id db <> None -> get_chunks_by_file file_id db' = [])
  /\ (get_file file_id db = None -> db' = db)
  /\ (forall id, id <> file_id ->
        get_file id db' = get_file id db
        /\ get_chunks_by_file id db' = get_chunks_by_file id db).
Proof.
  cbv zeta. split; [|split; [|split; [|split]]].
  - unfold delete_file, get_file. cbn [fst]. rewrite existsb_find. reflexivity.
  - apply delete_file_removes_file.
  - intros Hsome. unfold get_chunks_by_file.
    rewrite delete_file_cascades; [reflexivity|].
    unfold delete_file, get_file in *. cbn [fst]. rewrite existsb_find.
    destruct (List.find _ _); [reflexivity|congruence].
  - intros Hnone. unfold delete_file, get_file in *. cbn [snd].
    assert (Hno : forall x, In x (files db) -> String.eqb (fi_id x) file_id = false).
    { intros x Hx. exact (find_none _ _ Hnone x Hx). }
    rewrite (filter_all (fun f => negb (String.eqb (fi_id f) file_id)));
      [|intros x Hx; rewrite (Hno x Hx); reflexivity].
    rewrite (filter_none (fun f => String.eqb (fi_id f) file_id)); [|exact Hno].
    unfold cascade_chunks. cbn [map existsb negb].
    rewrite filter_all; [|reflexivity]. destruct db; reflexivity.
  - intros id Hne. split.
    + unfold delete_file, get_file. cbn [snd files].
      apply find_filter_keep. intros x _ Hx. apply String.eqb_eq in Hx.
      apply negb_true_iff. apply String.eqb_neq. congruence.
    + unfold delete_file, get_chunks_by_file. cbn [snd chunks]. f_equal. f_equal.
      unfold cascade_chunks. apply filter_filter_same.
      intros r _ Hr. apply String.eqb_eq in Hr. apply negb_true_iff.
      destruct (existsb _ _) eqn:E; [|reflexivity]. exfalso.
      apply existsb_removed in E. destruct E as [x [_ [Hh Hid]]].
      apply String.eqb_eq in Hh. congruence.
Qed.

(** X6: on a database built by backend calls, adding a file whose id and
    path are both new and deleting it again gives back the very database:
    [delete_file] undoes [add_file]. *)
Theorem sqlite_delete_file_undoes_add_file
    (vec : bool) (calls : list call) (f : FileInfo) :
  get_file (fi_id f) (after vec calls) = None ->
  get_file_by_path (fi_path f) (after vec calls) = None ->
  snd (delete_file (fi_id f) (snd (add_file f (after vec calls))))
  = after vec calls.
Proof.
  assert (Hfk : foreign_keys (after vec calls)).
  { unfold after. apply fold_run_invariant; [exact foreign_keys_run|]. intros r []. }
  generalize dependent (after vec calls). intros db Hfk Hid Hpath.
  assert (Hno : forall x, In x (files db) ->
            String.eqb (fi_id x) (fi_id f) || String.eqb (fi_path x) (fi_path f) = false).
  { intros x Hx. unfold get_file, get_file_by_path in *.
    rewrite (find_none _ _ Hid x Hx), (find_none _ _ Hpath x Hx). reflexivity. }
  unfold add_file, delete_file. cbn [snd files chunks has_vector_support chunks_seq
                                      chunks_fts chunks_vec embedding_cache].
  rewrite (filter_all (fun x => negb (String.eqb (fi_id x) (fi_id f)
                                      || String.eqb (fi_path x) (fi_path f))));
    [|intros x Hx; rewrite (Hno x Hx); reflexivity].
  rewrite (filter_none (fun x => String.eqb (fi_id x) (fi_id f)
                                 || String.eqb (fi_path x) (fi_path f)) (files db) Hno).
  rewrite !List.filter_app. cbn [List.filter]. rewrite String.eqb_refl. cbn [negb].
  rewrite (filter_all (fun x => negb (String.eqb (fi_id x) (fi_id f))));
    [|intros x Hx; specialize (Hno x Hx); apply orb_false_iff in Hno;
      rewrite (proj1 Hno); reflexivity].
  rewrite (filter_none (fun x => String.eqb (fi_id x) (fi_id f)));
    [|intros x Hx; specialize (Hno x Hx); apply orb_false_iff in Hno; exact (proj1 Hno)].
  rewrite app_nil_r. cbn [map app].
  unfold cascade_chunks at 2. cbn [existsb negb]. rewrite (filter_all (fun _ => true));
    [|reflexivity].
  unfold cascade_chunks. rewrite filter_all; [destruct db; reflexivity|].
  intros r Hr. rewrite existsb_eqb_single. apply negb_true_iff.
  apply String.eqb_neq. intros Heq. apply (Hfk r Hr). rewrite Heq. exact Hid.
Qed.

Lemma sqlite_delete_file_undoes_add_file_witness :
  get_file "f2" (after true [AddFile Scenarios.notes_file;
                             AddChunk Scenarios.notes_chunk (Some Scenarios.unit_vector)])
  = None
  /\ get_file_by_path "other.txt"
       (after true [AddFile Scenarios.notes_file;
                    AddChunk Scenarios.notes_chunk (Some Scenarios.unit_vector)])
     = None
  /\ snd (delete_file "f2"
            (snd (add_file (mkFileInfo "f2" "other.txt" "00" 0 1700000000 [])
                    (after true [AddFile Scenarios.notes_file;
                                 AddChunk Scenarios.notes_chunk
                                   (Some Scenarios.unit_vector)]))))
     = after true [AddFile Scenarios.notes_file;
                   AddChunk Scenarios.notes_chunk (Some Scenarios.unit_vector)].
Proof.
  split; [reflexivity|]. split; [reflexivity|].
  apply (sqlite_delete_file_undoes_add_file true
           [AddFile Scenarios.notes_file;
            AddChunk Scenarios.notes_chunk (Some Scenarios.unit_vector)]
           (mkFileInfo "f2" "other.txt" "00" 0 1700000000 [])); reflexivity.
Defined.


(** X7: [delete_chunks_by_file] returns the number of chunks the file had
    and leaves it with none; the rowids of the removed rows are gone from
    the full-text index and, when the vector extension is loaded, from the
    vector index; the table of files and the chunks of the other files are
    as before. *)
Theorem sqlite_delete_chunks_by_file_clears_rows_and_indexes
    (file_id : string) (db : t) :
  let db' := snd (delete_chunks_by_file file_id db) in
  fst (delete_chunks_by_file file_id db)
  = Ok (Z.of_nat (length (get_chunks_by_file file_id db)))
  /\ get_chunks_by_file file_id db' = []
  /\ files db' = files db
  /\ (forall r, In r (chunks db) -> ci_file_id (chunk r) = file_id ->
        (forall txt, ~ In (rowid r, txt) (chunks_fts db'))
        /\ (has_vector_support db = true ->
            forall v, ~ In (rowid r, v) (chunks_vec db')))
  /\ (forall id, id <> file_id ->
        get_chunks_by_file id db' = get_chunks_by_file id db).
Proof.
  cbv zeta. unfold delete_chunks_by_file, get_chunks_by_file.
  cbn [fst snd chunks files chunks_fts chunks_vec has_vector_support].
  split; [|split; [|split; [|split]]].
  - rewrite sort_by_start_length, !length_map. reflexivity.
  - rewrite filter_none; [reflexivity|]. intros r Hr. apply filter_In in Hr.
    apply negb_true_iff. exact (proj2 Hr).
  - reflexivity.
  - intros r Hr Hown.
    assert (Hgone : existsb (Z.eqb (rowid r))
              (map rowid (List.filter
                            (fun r => String.eqb (ci_file_id (chunk r)) file_id)
                            (chunks db))) = true).
    { apply existsb_exists. exists (rowid r). split; [|apply Z.eqb_refl].
      apply in_map. apply filter_In. split; [exact Hr|].
      apply String.eqb_eq. exact Hown. }
    split.
    + intros txt Hin. apply filter_In in Hin. cbn [fst] in Hin.
      rewrite Hgone in Hin. destruct Hin as [_ Hin]. discriminate.
    + intros Hvec v Hin. rewrite Hvec in Hin. apply filter_In in Hin.
      cbn [fst] in Hin. rewrite Hgone in Hin. destruct Hin as [_ Hin]. discriminate.
  - intros id Hne. f_equal. f_equal. apply filter_filter_same.
    intros r _ Hr. apply String.eqb_eq in Hr. apply negb_true_iff.
    apply String.eqb_neq. congruence.
Qed.

(** X8: [add_chunk] returns the chunk's id exactly when the id is new and
    the file it names has a row; otherwise it raises an integrity error
    and the database is as before. When it returns, the chunk can be read
    back by id and through its file, and the AUTOINCREMENT counter has
    moved by one. *)
Theorem sqlite_add_chunk_checks_id_and_file
    (c : ChunkInfo) (e : option ndarray) (db : t) :
  let db' := snd (add_chunk c e db) in
  (fst (add_chunk c e db) = Ok (ci_id c)
   <-> get_chunk (ci_id c) db = None /\ get_file (ci_file_id c) db <> None)
  /\ (fst (add_chunk c e db) <> Ok (ci_id c) ->
      db' = db /\ exists msg, fst (add_chunk c e db) = Raise (IntegrityError msg))
  /\ (fst (add_chunk c e db) = Ok (ci_id c) ->
      get_chunk (ci_id c) db' = Some c
      /\ In c (get_chunks_by_file (ci_file_id c) db')
      /\ chunks_seq db' = chunks_seq db + 1).
Proof.
  cbv zeta. unfold add_chunk, get_chunk, get_file.
  rewrite !existsb_find.
  destruct (List.find (fun r => String.eqb (ci_id (chunk r)) (ci_id c)) (chunks db))
    as [r|] eqn:Edup; cbn [fst snd option_map].
  { split; [split; [discriminate|intros [H _]; discriminate]|].
    split; [intros _; split; [reflexivity|eexists; reflexivity]|discriminate]. }
  destruct (List.find (fun f => String.eqb (fi_id f) (ci_file_id c)) (files db))
    as [f|] eqn:Efile; cbn [negb fst snd].
  2:{ split; [split; [discriminate|intros [_ H]; congruence]|].
      split; [intros _; split; [reflexivity|eexists; reflexivity]|discriminate]. }
  split; [split; [intros _; split; congruence|reflexivity]|].
  split; [congruence|]. intros _. cbn [chunks chunks_seq].
  split; [|split; [|reflexivity]].
  - rewrite find_app, Edup. cbn. rewrite String.eqb_refl. reflexivity.
  - apply (Permutation_in _ (Permutation_sym (sort_by_start_perm _))).
    apply in_map_iff. exists (mkChunkRow (chunks_seq db + 1) c e).
    split; [reflexivity|]. apply filter_In. split.
    + apply in_or_app. right. left. reflexivity.
    + cbn. apply String.eqb_refl.
Qed.

(** X9: [update_file] on an id without a row returns [False] and changes
    nothing; when it returns [True] the row of that id holds the new data,
    the other files and all chunks are as before; it raises only when
    another file holds the new path, and then changes nothing. *)
Theorem sqlite_update_file_replaces_one_row (f : FileInfo) (db : t) :
  let db' := snd (update_file f db) in
  (get_file (fi_id f) db = None -> update_file f db = (Ok false, db))
  /\ (fst (update_file f db) = Ok true ->
      get_file (fi_id f) db' = Some f
      /\ (forall id, id <> fi_id f -> get_file id db' = get_file id db)
      /\ chunks db' = chunks db)
  /\ (forall e, fst (update_file f db) = Raise e ->
      db' = db
      /\ exists other, In other (files db) /\ fi_path other = fi_path f
                       /\ fi_id other <> fi_id f).
Proof.
  cbv zeta. unfold update_file, get_file. rewrite existsb_find.
  destruct (List.find (fun x => String.eqb (fi_id x) (fi_id f)) (files db))
    as [old|] eqn:Eold.
  2:{ split; [reflexivity|]. split; [discriminate|]. intros e; discriminate. }
  split; [discriminate|].
  destruct (existsb _ (files db)) eqn:Eclash; cbn [fst snd].
  - split; [discriminate|]. intros e _. split; [reflexivity|].
    apply existsb_exists in Eclash. destruct Eclash as [x [Hx Ex]].
    apply andb_true_iff in Ex. destruct Ex as [Ex1 Ex2].
    exists x. split; [exact Hx|]. split; [apply String.eqb_eq; exact Ex2|].
    apply String.eqb_neq. apply negb_true_iff. exact Ex1.
  - split; [|intros e; discriminate]. intros _. cbn [set_files files chunks].
    split; [|split; [|reflexivity]].
    + clear Eclash. revert old Eold.
      induction (files db) as [|a l IH]; intros old Eold; [discriminate|].
      cbn in *. destruct (String.eqb (fi_id a) (fi_id f)) eqn:Ea.
      * rewrite String.eqb_refl. reflexivity.
      * rewrite Ea. exact (IH old Eold).
    + intros id Hne. clear Eclash Eold.
      induction (files db) as [|a l IH]; [reflexivity|].
      cbn. destruct (String.eqb (fi_id a) (fi_id f)) eqn:Ea.
      * apply String.eqb_eq in Ea.
        assert (E1 : String.eqb (fi_id f) id = false)
          by (apply String.eqb_neq; congruence).
        assert (E2 : String.eqb (fi_id a) id = false)
          by (apply String.eqb_neq; congruence).
        rewrite E1, E2. exact IH.
      * destruct (String.eqb (fi_id a) id); [reflexivity|exact IH].
Qed.

Lemma NoDup_map_In_inj {A B : Type} (g : A -> B) (l : list A) (x y : A) :
  List.NoDup (map g l) -> In x l -> In y l -> g x = g y -> x = y.
Proof.
  induction l as [|a l IH]; [intros _ []|].
  cbn. intros Hnd Hx Hy Hg.
  apply List.NoDup_cons_iff in Hnd. destruct Hnd as [Ha Hl].
  destruct Hx as [->|Hx], Hy as [->|Hy].
  - reflexivity.
  - exfalso. apply Ha. rewrite Hg. apply in_map. exact Hy.
  - exfalso. apply Ha. rewrite <- Hg. apply in_map. exact Hx.
  - apply IH; assumption.
Qed.

(** X10: [add_file] is an INSERT OR REPLACE. On a database built by
    backend calls it always returns the id, and afterwards the file is
    found by its id and by its path. A row that held the id or the path
    before is replaced, and the chunks of a replaced row go with it: right
    after [add_file] on an id that was already stored the file has no
    chunks, and a file that held the path under another id is gone with
    its chunks. *)
Theorem sqlite_add_file_replaces_and_cascades
    (vec : bool) (calls : list call) (f : FileInfo) :
  let db := after vec calls in
  let db' := snd (add_file f db) in
  fst (add_file f db) = Ok (fi_id f)
  /\ get_file (fi_id f) db' = Some f
  /\ get_file_by_path (fi_path f) db' = Some f
  /\ (get_file (fi_id f) db <> None -> get_chunks_by_file (fi_id f) db' = [])
  /\ (forall old, get_file_by_path (fi_path f) db = Some old ->
        fi_id old <> fi_id f ->
        get_file (fi_id old) db' = None
        /\ get_chunks_by_file (fi_id old) db' = []).
Proof.
  cbv zeta.
  assert (Hu : files_unique (after vec calls)).
  { unfold after. apply fold_run_invariant; [exact files_unique_run|].
    split; constructor. }
  generalize dependent (after vec calls). intros db [Hids _].
  unfold add_file, get_file, get_file_by_path, get_chunks_by_file.
  cbn [fst snd files chunks].
  set (clash := fun x => String.eqb (fi_id x) (fi_id f)
                         || String.eqb (fi_path x) (fi_path f)).
  assert (Hcascade : forall id,
            existsb (String.eqb id) (map fi_id (List.filter clash (files db))) = true ->
            List.filter (fun r => String.eqb (ci_file_id (chunk r)) id)
              (cascade_chunks (map fi_id (List.filter clash (files db))) (chunks db))
            = []).
  { intros id Hex. apply filter_none. intros r Hr. apply cascade_In in Hr.
    destruct Hr as [_ Hnot]. apply String.eqb_neq. intros Heq. apply Hnot.
    rewrite Heq. apply existsb_exists in Hex. destruct Hex as [y [Hy E]].
    apply String.eqb_eq in E. subst y. exact Hy. }
  split; [reflexivity|]. split; [|split; [|split]].
  - rewrite find_app, find_filter_none.
    + cbn. rewrite String.eqb_refl. reflexivity.
    + intros x Hx. unfold clash. rewrite Hx. reflexivity.
  - rewrite find_app, find_filter_none.
    + cbn. rewrite String.eqb_refl. reflexivity.
    + intros x Hx. unfold clash. rewrite Hx, orb_true_r. reflexivity.
  - intros Hsome. rewrite Hcascade; [reflexivity|].
    apply existsb_removed.
    destruct (List.find _ (files db)) as [x|] eqn:E; [|congruence].
    apply find_some in E. destruct E as [Hx E]. exists x.
    split; [exact Hx|]. split; [unfold clash; rewrite E; reflexivity|].
    apply String.eqb_eq. exact E.
  - intros old Hold Hne. apply find_some in Hold. destruct Hold as [Hin Ep].
    assert (Hclash : clash old = true) by (unfold clash; rewrite Ep; apply orb_true_r).
    split.
    + rewrite find_app.
      destruct (List.find _ (List.filter _ (files db))) as [x|] eqn:E.
      * exfalso. apply find_some in E. destruct E as [Hx E].
        apply filter_In in Hx. destruct Hx as [Hx Hkeep].
        apply String.eqb_eq in E.
        rewrite (NoDup_map_In_inj fi_id (files db) x old Hids Hx Hin E) in Hkeep.
        change (negb (clash old) = true) in Hkeep.
        rewrite Hclash in Hkeep. discriminate.
      * cbn. apply String.eqb_neq in Hne. rewrite String.eqb_sym, Hne. reflexivity.
    + rewrite Hcascade; [reflexivity|]. apply existsb_removed. exists old.
      split; [exact Hin|]. split; [exact Hclash|reflexivity].
Qed.

End SQLiteCalls.

(** ** embeddings/manager.py: the cache path, the chain and the breaker *)

Section EmbedMore.
Import Embeddings EmbeddingsReset StorageBase.
Context {S : Type} `{StorageLaws S}.

(** With every text in the cache, every index is a hit. *)
Lemma lookup_all_hit (p : EmbeddingProvider) (s : S) (cached : string -> ndarray)
    (texts : list string) (i : nat) :
  (forall t, In t texts ->
     get_cached_embedding (compute_text_hash t) (name p) (model p) s
     = Some (cached t)) ->
  lookup_all p s texts i = (map (fun t => Some (cached t)) texts, []).
Proof.
  revert i. induction texts as [|t texts IH]; intros i Hhit; [reflexivity|].
  cbn [lookup_all]. rewrite IH by (intros t' Ht'; apply Hhit; right; exact Ht').
  rewrite (Hhit t (or_introl eq_refl)). reflexivity.
Qed.

(** X11: when caching is on and the cache holds a vector for every text
    under the name and model of the primary provider, [embed] returns those
    vectors in the order of the texts and changes neither the manager nor
    the storage; no provider is asked, whatever the providers would have
    answered. *)
Theorem embed_answers_from_the_cache_alone
    (em : EmbeddingManager) (s : S) (primary : EmbeddingProvider)
    (cached : string -> ndarray) (texts : list string) :
  cache_enabled em = true ->
  has_storage_backend em = true ->
  od_get (providers em) (primary_provider_name em) = Some primary ->
  (forall t, In t texts ->
     get_cached_embedding (compute_text_hash t) (name primary) (model primary) s
     = Some (cached t)) ->
  embed texts (em, s) = (Ok (map (fun t => Some (cached t)) texts), (em, s)).
Proof.
  intros Hce Hsb Hprim Hhit. destruct texts as [|t texts]; [reflexivity|].
  unfold embed, bind, get_state. cbn [fst snd]. rewrite Hce, Hsb. cbn [andb].
  unfold _get_cached_embeddings. cbn [fst snd]. rewrite Hsb, Hprim. cbn [negb].
  rewrite (lookup_all_hit primary s cached (t :: texts) 0 Hhit). reflexivity.
Qed.


(** *** The chain when nothing answers *)

Lemma try_provider_raising (n : string) (p : EmbeddingProvider)
    (texts : list string) (e : exn) (st : state (S := S)) :
  embed_texts p texts = Raise e -> is_Exception e = true ->
  try_provider n p texts st = (Ok None, (_record_failure (fst st) n, snd st)).
Proof.
  intros He Hexc. unfold try_provider. rewrite He, Hexc. reflexivity.
Qed.

Local Abbreviation all_raise items texts :=
  (forall n p, In (n, p) items ->
     exists e, embed_texts p texts = Raise e /\ is_Exception e = true).

Lemma record_failure_providers (em : EmbeddingManager) (n : string) :
  providers (_record_failure em n) = providers em
  /\ primary_provider_name (_record_failure em n) = primary_provider_name em
  /\ fallback_provider_name (_record_failure em n) = fallback_provider_name em.
Proof.
  unfold _record_failure. destruct (max_failures em <=? _); repeat split.
Qed.

Lemma try_named_raising (n : string) (texts : list string) (st : state (S := S)) :
  all_raise (providers (fst st)) texts ->
  exists em', try_named n texts st = (Ok None, (em', snd st))
              /\ providers em' = providers (fst st)
              /\ primary_provider_name em' = primary_provider_name (fst st)
              /\ fallback_provider_name em' = fallback_provider_name (fst st).
Proof.
  intros Hall. destruct st as [em s]. unfold try_named, bind, get_state.
  cbn [fst snd] in *.
  destruct (od_get (providers em) n) as [p|] eqn:Ep.
  - destruct (Hall n p (od_get_In _ _ _ Ep)) as [e [He Hexc]].
    rewrite (try_provider_raising n p texts e (em, s) He Hexc). cbn [fst snd].
    exists (_record_failure em n). split; [reflexivity|].
    apply record_failure_providers.
  - exists em. repeat split.
Qed.

Lemma try_emergency_raising (items : list (string * EmbeddingProvider))
    (texts : list string) (st : state (S := S)) :
  all_raise items texts ->
  exists em',
    try_emergency items texts st
    = (Raise (RuntimeError "All embedding providers failed"), (em', snd st)).
Proof.
  revert st. induction items as [|[n p] items IH]; intros [em s] Hall.
  - exists em. reflexivity.
  - assert (Hrest : all_raise items texts).
    { intros n' p' Hin. apply (Hall n' p'). right. exact Hin. }
    cbn [try_emergency]. unfold bind at 1, get_state. cbn [fst snd].
    destruct (negb _ && _).
    + destruct (Hall n p (or_introl eq_refl)) as [e [He Hexc]].
      unfold bind. rewrite (try_provider_raising n p texts e (em, s) He Hexc).
      cbn [fst snd]. destruct (IH (_record_failure em n, s) Hrest) as [em' Hem'].
      exists em'. exact Hem'.
    + destruct (IH (em, s) Hrest) as [em' Hem']. exists em'. exact Hem'.
Qed.

(** X12: when the call of every registered provider raises an [Exception]
    for the texts at hand, [_generate_embeddings] raises the one
    [RuntimeError] "All embedding providers failed", whatever the providers
    raised and whichever of them were still available, and the storage is
    untouched. *)
Theorem generate_embeddings_reports_total_failure
    (em : EmbeddingManager) (s : S) (texts : list string) :
  (forall n p, In (n, p) (providers em) ->
     exists e, embed_texts p texts = Raise e /\ is_Exception e = true) ->
  fst (_generate_embeddings texts (em, s))
  = Raise (RuntimeError "All embedding providers failed")
  /\ snd (snd (_generate_embeddings texts (em, s))) = s.
Proof.
  intros Hall.
  assert (Hgen : exists em',
    _generate_embeddings texts (em, s)
    = (Raise (RuntimeError "All embedding providers failed"), (em', s)));
    [|destruct Hgen as [em' ->]; split; reflexivity].
  unfold _generate_embeddings. unfold bind at 1, get_state. cbn [fst snd].
  assert (H1 : exists em1,
    (if _is_provider_available em (primary_provider_name em)
     then try_named (primary_provider_name em) texts
     else ret None) (em, s) = (Ok None, (em1, s))
    /\ providers em1 = providers em).
  { destruct (_is_provider_available em (primary_provider_name em)).
    - destruct (try_named_raising (primary_provider_name em) texts (em, s) Hall)
        as [em1 [E1 [P1 _]]]. exists em1. split; [exact E1|exact P1].
    - exists em. split; reflexivity. }
  destruct H1 as [em1 [E1 P1]]. unfold bind at 1. rewrite E1.
  unfold bind at 1, get_state. cbn [fst snd].
  assert (Hall1 : all_raise (providers em1) texts) by (rewrite P1; exact Hall).
  assert (H2 : exists em2,
    (if negb (String.eqb (fallback_provider_name em1) (primary_provider_name em1))
        && _is_provider_available em1 (fallback_provider_name em1)
     then try_named (fallback_provider_name em1) texts
     else ret None) (em1, s) = (Ok None, (em2, s))).
  { destruct (negb _ && _).
    - destruct (try_named_raising (fallback_provider_name em1) texts (em1, s) Hall1)
        as [em2 [E2 _]]. exists em2. exact E2.
    - exists em1. reflexivity. }
  destruct H2 as [em2 E2]. unfold bind at 1. rewrite E2.
  destruct (try_emergency_raising (providers em1) texts (em2, s) Hall1)
    as [em3 E3].
  cbn [snd] in E3. exists em3. exact E3.
Qed.


(** X13: a provider call that ends in something that is not an
    [Exception] (a cancellation) is not treated as a failure of the
    provider: [_generate_embeddings] lets it through, records nothing and
    tries no other provider; with the cache off, so does [embed]. *)
Theorem generate_embeddings_lets_a_cancellation_through
    (em : EmbeddingManager) (s : S) (primary : EmbeddingProvider)
    (texts : list string) (e : exn) :
  od_get (providers em) (primary_provider_name em) = Some primary ->
  _is_provider_available em (primary_provider_name em) = true ->
  embed_texts primary texts = Raise e ->
  is_Exception e = false ->
  _generate_embeddings texts (em, s) = (Raise e, (em, s))
  /\ (cache_enabled em = false -> texts <> [] ->
      embed texts (em, s) = (Raise e, (em, s))).
Proof.
  intros Hprim Havail He Hexc.
  assert (Hgen : _generate_embeddings texts (em, s) = (Raise e, (em, s))).
  { unfold _generate_embeddings, bind, get_state. cbn [fst snd].
    rewrite Havail. unfold try_named, bind, get_state. cbn [fst snd].
    rewrite Hprim. unfold try_provider. rewrite He, Hexc. reflexivity. }
  split; [exact Hgen|]. intros Hoff Hne.
  destruct texts as [|t texts]; [contradiction|].
  unfold embed, bind, get_state. cbn [fst snd]. rewrite Hoff. cbn [andb].
  unfold generate_all, bind. rewrite Hgen. reflexivity.
Qed.

(** *** The breaker *)

Lemma record_failure_count (em : EmbeddingManager) (n : string) :
  default 0 (failure_counts (_record_failure em n) !! n)
  = default 0 (failure_counts em !! n) + 1
  /\ max_failures (_record_failure em n) = max_failures em
  /\ providers (_record_failure em n) = providers em.
Proof.
  unfold _record_failure.
  destruct (max_failures em <=? _); cbn [failure_counts set_failures max_failures providers];
    rewrite lookup_insert_eq; repeat split.
Qed.

Lemma record_failure_status (em : EmbeddingManager) (n : string) :
  default false (provider_status (_record_failure em n) !! n)
  = default false (provider_status em !! n)
    && (default 0 (failure_counts em !! n) + 1 <? max_failures em).
Proof.
  unfold _record_failure.
  destruct (max_failures em <=? default 0 (failure_counts em !! n) + 1) eqn:E;
    cbn [provider_status set_failures].
  - rewrite lookup_insert_eq. cbn. apply Z.leb_le in E.
    assert (E' : (default 0 (failure_counts em !! n) + 1 <? max_failures em) = false)
      by (apply Z.ltb_ge; exact E).
    rewrite E'. symmetry. apply andb_false_r.
  - apply Z.leb_gt in E.
    assert (E' : (default 0 (failure_counts em !! n) + 1 <? max_failures em) = true)
      by (apply Z.ltb_lt; exact E).
    rewrite E'. symmetry. apply andb_true_r.
Qed.

(** X14: a registered provider that is available and has no recorded
    failure stays available for as long as fewer than [max_failures]
    failures have been recorded for it, and is unavailable from the
    [max_failures]-th recorded failure on. *)
Theorem provider_is_dropped_at_max_failures
    (em : EmbeddingManager) (n : string) (k : nat) :
  od_mem (providers em) n = true ->
  provider_status em !! n = Some true ->
  default 0 (failure_counts em !! n) = 0 ->
  _is_provider_available (Nat.iter k (fun em' => _record_failure em' n) em) n
  = (Z.of_nat k <? max_failures em).
Proof.
  intros Hreg Hstatus Hcount.
  assert (Hinv :
    let em' := Nat.iter k (fun em' => _record_failure em' n) em in
    default 0 (failure_counts em' !! n) = Z.of_nat k
    /\ max_failures em' = max_failures em
    /\ providers em' = providers em
    /\ default false (provider_status em' !! n)
       = (if (0 <? k)%nat then Z.of_nat k <? max_failures em else true)).
  { induction k as [|k IH]; cbn zeta.
    - change (Nat.iter 0 (fun em' => _record_failure em' n) em) with em.
      rewrite Hcount, Hstatus. repeat split.
    - rewrite Nat.iter_succ. cbn zeta in IH. destruct IH as [Ic [Im [Ip Is]]].
      set (em' := Nat.iter k (fun em' => _record_failure em' n) em) in *.
      destruct (record_failure_count em' n) as [Rc [Rm Rp]].
      rewrite Rc, Rm, Rp, record_failure_status, Ic, Im, Ip, Is.
      repeat split; try lia.
      replace (Z.of_nat k + 1) with (Z.of_nat (Datatypes.S k)) by lia.
      change (0 <? Datatypes.S k)%nat with true.
      destruct (0 <? k)%nat eqn:Ek; [|reflexivity].
      destruct (Z.of_nat (Datatypes.S k) <? max_failures em) eqn:E1;
        [|apply andb_false_r].
      apply Z.ltb_lt in E1.
      assert (E2 : (Z.of_nat k <? max_failures em) = true) by (apply Z.ltb_lt; lia).
      rewrite E2. reflexivity. }
  cbn zeta in Hinv. destruct Hinv as [Ic [Im [Ip Is]]].
  unfold _is_provider_available, od_mem in *. rewrite Ip, Ic, Im, Is.
  destruct (od_get (providers em) n); [|discriminate]. cbn [andb].
  destruct (0 <? k)%nat; [apply andb_diag|reflexivity].
Qed.


Lemma fold_reset_config (items : list (string * EmbeddingProvider))
    (em : EmbeddingManager) :
  providers (fold_left reset_registered items em) = providers em
  /\ max_failures (fold_left reset_registered items em) = max_failures em.
Proof.
  revert em. induction items as [|[n p] items IH]; intros em; [split; reflexivity|].
  cbn [fold_left]. destruct (IH (reset_registered em (n, p))) as [-> ->].
  split; reflexivity.
Qed.

Lemma fold_reset_other (items : list (string * EmbeddingProvider))
    (em : EmbeddingManager) (n : string) :
  ~ In n (map fst items) ->
  provider_status (fold_left reset_registered items em) !! n
  = provider_status em !! n
  /\ failure_counts (fold_left reset_registered items em) !! n
     = failure_counts em !! n.
Proof.
  revert em. induction items as [|[n' p'] items IH]; intros em Hnot;
    [split; reflexivity|].
  cbn [fold_left]. cbn [map fst] in Hnot.
  destruct (IH (reset_registered em (n', p'))) as [-> ->];
    [intros Hin; apply Hnot; right; exact Hin|].
  unfold reset_registered. cbn [provider_status failure_counts set_failures fst snd].
  assert (n' <> n) by (intros ->; apply Hnot; left; reflexivity).
  rewrite !lookup_insert_ne by assumption. split; reflexivity.
Qed.

Lemma fold_reset_lookup (items : list (string * EmbeddingProvider))
    (em : EmbeddingManager) (n : string) (p : EmbeddingProvider) :
  List.NoDup (map fst items) -> In (n, p) items ->
  provider_status (fold_left reset_registered items em) !! n
  = Some (is_available p)
  /\ failure_counts (fold_left reset_registered items em) !! n = Some 0.
Proof.
  revert em. induction items as [|[n' p'] items IH]; intros em Hnd Hin; [destruct Hin|].
  cbn [map fst] in Hnd. apply List.NoDup_cons_iff in Hnd. destruct Hnd as [Hn' Hnd].
  cbn [fold_left]. destruct Hin as [Heq|Hin].
  - injection Heq as -> ->.
    destruct (fold_reset_other items (reset_registered em (n, p)) n Hn') as [-> ->].
    unfold reset_registered. cbn [provider_status failure_counts set_failures fst snd].
    rewrite !lookup_insert_eq. split; reflexivity.
  - apply IH; assumption.
Qed.

(** X15: [reset_failures] closes the breaker again. Called for one
    registered provider, or for all of them ([None] or the empty string),
    it sets the failure count of the provider to zero and its status to
    what [is_available()] answers, so that the provider is available again
    exactly when [is_available()] holds, whatever failures were recorded
    before. Called for one provider, it leaves the status and the count of
    every other provider alone. *)
Theorem reset_failures_reopens_the_provider
    (em : EmbeddingManager) (n : string) (p : EmbeddingProvider)
    (target : option string) :
  List.NoDup (map fst (providers em)) ->
  od_get (providers em) n = Some p ->
  0 < max_failures em ->
  target = None \/ target = Some EmptyString \/ target = Some n ->
  _is_provider_available (reset_failures em target) n = is_available p
  /\ failure_counts (reset_failures em target) !! n = Some 0
  /\ (target = Some n -> n <> EmptyString ->
      forall n', n' <> n ->
        provider_status (reset_failures em target) !! n' = provider_status em !! n'
        /\ failure_counts (reset_failures em target) !! n' = failure_counts em !! n').
Proof.
  intros Hnd Hreg Hmax Htarget.
  assert (Hall :
    _is_provider_available (fold_left reset_registered (providers em) em) n
    = is_available p
    /\ failure_counts (fold_left reset_registered (providers em) em) !! n = Some 0).
  { destruct (fold_reset_lookup (providers em) em n p Hnd (od_get_In _ _ _ Hreg))
      as [Hs Hc].
    destruct (fold_reset_config (providers em) em) as [Hp Hm].
    split; [|exact Hc].
    unfold _is_provider_available, od_mem. rewrite Hp, Hm, Hs, Hc, Hreg. cbn.
    assert (E : (0 <? max_failures em) = true) by (apply Z.ltb_lt; exact Hmax).
    rewrite E. apply andb_true_r. }
  assert (Hone : forall c r, n = String c r ->
    _is_provider_available (reset_failures em (Some n)) n = is_available p
    /\ failure_counts (reset_failures em (Some n)) !! n = Some 0
    /\ forall n', n' <> n ->
        provider_status (reset_failures em (Some n)) !! n' = provider_status em !! n'
        /\ failure_counts (reset_failures em (Some n)) !! n' = failure_counts em !! n').
  { intros c r ->. unfold reset_failures. rewrite Hreg.
    unfold _is_provider_available, od_mem.
    cbn [providers provider_status failure_counts max_failures set_failures].
    rewrite Hreg, !lookup_insert_eq. cbn.
    assert (E : (0 <? max_failures em) = true) by (apply Z.ltb_lt; exact Hmax).
    rewrite E. split; [apply andb_true_r|]. split; [reflexivity|].
    intros n' Hne. rewrite !lookup_insert_ne by congruence. split; reflexivity. }
  destruct Htarget as [-> | [-> | ->]].
  - cbn [reset_failures]. destruct Hall as [Ha Hc].
    split; [exact Ha|]. split; [exact Hc|]. discriminate.
  - cbn [reset_failures]. destruct Hall as [Ha Hc].
    split; [exact Ha|]. split; [exact Hc|].
    intros Heq Hne. injection Heq as <-. contradiction.
  - destruct n as [|c r].
    + cbn [reset_failures]. destruct Hall as [Ha Hc].
      split; [exact Ha|]. split; [exact Hc|]. intros _ Hne. contradiction.
    + destruct (Hone c r eq_refl) as [Ha [Hc Ho]].
      split; [exact Ha|]. split; [exact Hc|]. intros _ _. exact Ho.
Qed.

(** X16: for every backend that keeps the storage laws, [embed] changes
    nothing that [get_file], [get_file_by_path] or [get_chunk] can see,
    whether it returns or raises: embedding reads and writes the cache
    only. *)
Theorem embed_leaves_files_and_chunks_alone
    (texts : list string) (st : state (S := S)) :
  (forall id, get_file id (snd (snd (embed texts st))) = get_file id (snd st))
  /\ (forall path, get_file_by_path path (snd (snd (embed texts st)))
                   = get_file_by_path path (snd st))
  /\ (forall id, get_chunk id (snd (snd (embed texts st))) = get_chunk id (snd st)).
Proof.
  split; [|split].
  - intros id. apply (sobs_embed (fun s => get_file id s)).
    intros h p m v s. apply cache_embedding_get_file.
  - intros path. apply (sobs_embed (fun s => get_file_by_path path s)).
    intros h p m v s. apply cache_embedding_get_file_by_path.
  - intros id. apply (sobs_embed (fun s => get_chunk id s)).
    intros h p m v s. apply cache_embedding_get_chunk.
Qed.

End EmbedMore.

Lemma embed_leaves_files_and_chunks_alone_witness :
  let st := (Examples.broken_manager, SQLiteBackend.empty false) in
  (forall id, StorageBase.get_file id (snd (snd (Embeddings.embed ["a"]%string st)))
              = StorageBase.get_file id (snd st))
  /\ (forall path,
        StorageBase.get_file_by_path path
          (snd (snd (Embeddings.embed ["a"]%string st)))
        = StorageBase.get_file_by_path path (snd st))
  /\ (forall id, StorageBase.get_chunk id (snd (snd (Embeddings.embed ["a"]%string st)))
                 = StorageBase.get_chunk id (snd st)).
Proof.
  intros st.
  exact (embed_leaves_files_and_chunks_alone (S := SQLiteBackend.t)
           ["a"]%string st).
Defined.

Lemma embed_answers_from_the_cache_alone_witness :
  Embeddings.embed ["bb"; "bb"]%string
    (Scenarios.caching_manager, Scenarios.cache_with_bb)
  = (Ok (map (fun _ : string => Some [(2 # 1)%Q]) ["bb"; "bb"]%string),
     (Scenarios.caching_manager, Scenarios.cache_with_bb)).
Proof.
  apply (embed_answers_from_the_cache_alone (S := SQLiteBackend.t)
           Scenarios.caching_manager Scenarios.cache_with_bb
           Scenarios.length_provider (fun _ => [(2 # 1)%Q]) ["bb"; "bb"]%string).
  - reflexivity.
  - reflexivity.
  - reflexivity.
  - intros t [<-|[<-|[]]]; vm_compute; reflexivity.
Defined.

Lemma generate_embeddings_reports_total_failure_witness :
  fst (Embeddings._generate_embeddings ["a"]%string
         (Examples.broken_manager, SQLiteBackend.empty false))
  = Raise (RuntimeError "All embedding providers failed")
  /\ snd (snd (Embeddings._generate_embeddings ["a"]%string
                 (Examples.broken_manager, SQLiteBackend.empty false)))
     = SQLiteBackend.empty false.
Proof.
  apply (generate_embeddings_reports_total_failure (S := SQLiteBackend.t)).
  intros n p [Heq|[]]. injection Heq as <- <-.
  eexists. split; reflexivity.
Defined.

Lemma generate_embeddings_lets_a_cancellation_through_witness :
  Embeddings._generate_embeddings ["a"]%string
    (Manager.embeddings (Scenarios.idle_manager Scenarios.cancelled_provider),
     SQLiteBackend.empty false)
  = (Raise CancelledError,
     (Manager.embeddings (Scenarios.idle_manager Scenarios.cancelled_provider),
      SQLiteBackend.empty false))
  /\ (Embeddings.cache_enabled
        (Manager.embeddings (Scenarios.idle_manager Scenarios.cancelled_provider))
      = false ->
      ["a"]%string <> [] ->
      Embeddings.embed ["a"]%string
        (Manager.embeddings (Scenarios.idle_manager Scenarios.cancelled_provider),
         SQLiteBackend.empty false)
      = (Raise CancelledError,
         (Manager.embeddings (Scenarios.idle_manager Scenarios.cancelled_provider),
          SQLiteBackend.empty false))).
Proof.
  apply (generate_embeddings_lets_a_cancellation_through (S := SQLiteBackend.t)
           (Manager.embeddings (Scenarios.idle_manager Scenarios.cancelled_provider))
           (SQLiteBackend.empty false) Scenarios.cancelled_provider
           ["a"]%string CancelledError); reflexivity.
Defined.

Lemma provider_is_dropped_at_max_failures_witness :
  Embeddings._is_provider_available
    (Nat.iter 2 (fun em' => Embeddings._record_failure em' "openai")
       Scenarios.fallback_manager) "openai"
  = (Z.of_nat 2 <? Embeddings.max_failures Scenarios.fallback_manager).
Proof.
  apply (provider_is_dropped_at_max_failures Scenarios.fallback_manager
           "openai" 2); reflexivity.
Defined.

Lemma reset_failures_reopens_the_provider_witness :
  Embeddings._is_provider_available
    (EmbeddingsReset.reset_failures
       (Nat.iter 2 (fun em' => Embeddings._record_failure em' "openai")
          Scenarios.fallback_manager) (Some "openai"%string)) "openai"
  = Embeddings.is_available Scenarios.failing_provider
  /\ Embeddings.failure_counts
       (EmbeddingsReset.reset_failures
          (Nat.iter 2 (fun em' => Embeddings._record_failure em' "openai")
             Scenarios.fallback_manager) (Some "openai"%string)) !! "openai"%string = Some 0
  /\ (Some "openai"%string = Some "openai"%string -> "openai"%string <> EmptyString ->
      forall n', n' <> "openai"%string ->
        Embeddings.provider_status
          (EmbeddingsReset.reset_failures
             (Nat.iter 2 (fun em' => Embeddings._record_failure em' "openai")
                Scenarios.fallback_manager) (Some "openai"%string)) !! n'
        = Embeddings.provider_status
            (Nat.iter 2 (fun em' => Embeddings._record_failure em' "openai")
               Scenarios.fallback_manager) !! n'
        /\ Embeddings.failure_counts
             (EmbeddingsReset.reset_failures
                (Nat.iter 2 (fun em' => Embeddings._record_failure em' "openai")
                   Scenarios.fallback_manager) (Some "openai"%string)) !! n'
           = Embeddings.failure_counts
               (Nat.iter 2 (fun em' => Embeddings._record_failure em' "openai")
                  Scenarios.fallback_manager) !! n').
Proof.
  apply (reset_failures_reopens_the_provider
           (Nat.iter 2 (fun em' => Embeddings._record_failure em' "openai")
              Scenarios.fallback_manager)
           "openai" Scenarios.failing_provider (Some "openai"%string)).
  - vm_compute. repeat constructor; cbn; intuition discriminate.
  - reflexivity.
  - reflexivity.
  - right. right. reflexivity.
Defined.

(** ** manager.py: the statistics of a sync *)

Section SyncAccounting.
Import Models Manager StorageBase.
Context {S : Type} `{StorageBackend S}.

Local Abbreviation accounted stats n :=
  (files_processed stats + Z.of_nat (length (errors stats)) = n
   /\ 0 <= files_added stats /\ 0 <= files_updated stats
   /\ files_added stats + files_updated stats <= files_processed stats
   /\ files_deleted stats = 0 /\ chunks_created stats = 0
   /\ embeddings_generated stats = 0).

Lemma sync_one_accounted (env : Env.t) (stats : SyncStats) (file_path : string)
    (mm : Manager.t S) (n : Z) :
  accounted stats n ->
  match fst (sync_one env stats file_path mm) with
  | Ok stats' => accounted stats' (n + 1)
  | Raise e => is_Exception e = false
  end.
Proof.
  intros [Hsum [Ha [Hu [Hle [Hd [Hc He]]]]]].
  unfold sync_one, try_except.
  match goal with |- context [fst (match ?m mm with _ => _ end)] =>
    destruct (m mm) as [[stats'|e] mm'] eqn:Hbody end.
  - cbn [fst]. unfold bind, get_state in Hbody. cbn [fst snd] in Hbody.
    assert (Hbump : exists a u, stats' = bump stats a u
                                /\ 0 <= a /\ 0 <= u /\ a + u <= 1).
    { destruct (get_file_by_path file_path (storage mm)) as [existing|].
      - destruct (FileProcessor.is_file_changed _ _ _ _).
        + destruct (ingest_file env file_path None mm) as [[id|e] mm1];
            [|discriminate Hbody].
          injection Hbody as <- _. exists 0, 1. repeat split; lia.
        + injection Hbody as <- _. exists 0, 0. repeat split; lia.
      - destruct (ingest_file env file_path None mm) as [[id|e] mm1];
          [|discriminate Hbody].
        injection Hbody as <- _. exists 1, 0. repeat split; lia. }
    destruct Hbump as [a [u [-> [Ha' [Hu' Hau]]]]]. unfold bump.
    cbn [files_processed files_added files_updated files_deleted chunks_created
         embeddings_generated errors].
    repeat split; lia.
  - destruct (is_Exception e) eqn:Hexc; [|cbn [fst]; exact Hexc].
    unfold ret, add_error. cbn [fst].
    cbn [files_processed files_added files_updated files_deleted chunks_created
         embeddings_generated errors].
    rewrite length_app. cbn [length]. repeat split; lia.
Qed.

Lemma sync_files_from_accounted (env : Env.t) (files : list string)
    (stats : SyncStats) (mm : Manager.t S) (n : Z) :
  accounted stats n ->
  match fst (_sync_files_from env files stats mm) with
  | Ok stats' => accounted stats' (n + Z.of_nat (length files))
  | Raise e => is_Exception e = false
  end.
Proof.
  revert stats mm n. induction files as [|f files IH]; intros stats mm n Hacc.
  - cbn. rewrite Z.add_0_r. exact Hacc.
  - cbn [_sync_files_from]. unfold bind.
    pose proof (sync_one_accounted env stats f mm n Hacc) as Hone.
    destruct (sync_one env stats f mm) as [[stats1|e] mm1]; cbn [fst] in *.
    + specialize (IH stats1 mm1 (n + 1) Hone).
      replace (n + Z.of_nat (length (f :: files)))
        with (n + 1 + Z.of_nat (length files)) by (cbn [length]; lia).
      exact IH.
    + exact Hone.
Qed.

(** X17: when [_sync_files] returns, every path it was given is accounted
    for exactly once, as a processed file or as an entry of [errors]; the
    added and updated files are among the processed ones; and the counters
    [files_deleted], [chunks_created] and [embeddings_generated] are still
    zero, since the loop never writes them. The only thing [_sync_files]
    can raise is what [except Exception] does not catch. *)
Theorem sync_files_accounts_for_every_path
    (env : Env.t) (files : list string) (mm : Manager.t S) :
  match fst (_sync_files env files mm) with
  | Ok stats =>
      files_processed stats + Z.of_nat (length (errors stats))
      = Z.of_nat (length files)
      /\ 0 <= files_added stats /\ 0 <= files_updated stats
      /\ files_added stats + files_updated stats <= files_processed stats
      /\ files_deleted stats = 0 /\ chunks_created stats = 0
      /\ embeddings_generated stats = 0
  | Raise e => is_Exception e = false
  end.
Proof.
  unfold _sync_files.
  pose proof (sync_files_from_accounted env files SyncStats_default mm 0) as Hacc.
  cbn [Z.add] in Hacc. apply Hacc. cbn. repeat split; lia.
Qed.

(** X18: on a path that the storage does not know, whatever
    [process_file] raises (the file is missing, is a directory, is too
    large or has an unsupported extension) comes out of [ingest_file] as
    it is, and the manager, its storage and the identifier supply are as
    before. *)
Theorem ingest_file_rejected_path_changes_nothing
    (env : Env.t) (file_path : string) (metadata : option pydict)
    (mm : Manager.t S) (e : exn) :
  get_file_by_path file_path (storage mm) = None ->
  fst (FileProcessor.process_file (file_processor mm) env file_path metadata
         (uuid_counter mm)) = Raise e ->
  ingest_file env file_path metadata mm = (Raise e, mm).
Proof.
  intros Hnew Hraise. unfold ingest_file, bind, get_state. cbn [fst snd].
  rewrite Hnew. unfold ingest_file_process, bind, get_state. cbn [fst snd].
  unfold on_uuid.
  assert (Hn : snd (FileProcessor.process_file (file_processor mm) env file_path
                      metadata (uuid_counter mm)) = uuid_counter mm).
  { revert Hraise. unfold FileProcessor.process_file.
    destruct (negb (Env.exists_ env file_path)); [reflexivity|].
    destruct (Env.stat env file_path) as [f|]; [|reflexivity].
    destruct (Env.read env file_path) as [content|]; [|reflexivity].
    destruct (_ <? _); [reflexivity|].
    destruct (negb _); [reflexivity|]. discriminate. }
  destruct (FileProcessor.process_file (file_processor mm) env file_path metadata
              (uuid_counter mm)) as [r n'].
  cbn [fst snd] in *. subst r n'. destruct mm; reflexivity.
Qed.

End SyncAccounting.

Lemma ingest_file_rejected_path_changes_nothing_witness :
  Manager.ingest_file Scenarios.docs_env "docs/missing.txt" None
    (Scenarios.idle_manager Scenarios.length_provider)
  = (Raise (FileNotFoundError "File not found: docs/missing.txt"),
     Scenarios.idle_manager Scenarios.length_provider).
Proof.
  apply (ingest_file_rejected_path_changes_nothing (S := SQLiteBackend.t));
    reflexivity.
Defined.

(** ** manager.py: ingestion with a working provider *)

Section IngestReturns.
Import Models Manager StorageBase.
Context {S : Type} `{StorageLaws S}.

Local Abbreviation working em primary :=
  (od_get (Embeddings.providers em) (Embeddings.primary_provider_name em)
   = Some primary
   /\ Embeddings._is_provider_available em (Embeddings.primary_provider_name em)
      = true
   /\ forall t, exists v, Embeddings.embed_texts primary [t] = Ok [v]).

Lemma generate_working (em : Embeddings.EmbeddingManager)
    (primary : Embeddings.EmbeddingProvider) (t : string) (v : ndarray) (s : S) :
  working em primary ->
  Embeddings.embed_texts primary [t] = Ok [v] ->
  Embeddings._generate_embeddings [t] (em, s) = (Ok [v], (em, s)).
Proof.
  intros [Hreg [Havail _]] Hv.
  unfold Embeddings._generate_embeddings, bind, get_state. cbn [fst snd].
  rewrite Havail. unfold Embeddings.try_named, bind, get_state. cbn [fst snd].
  rewrite Hreg. unfold Embeddings.try_provider. rewrite Hv. reflexivity.
Qed.

Lemma embed_single_working (em : Embeddings.EmbeddingManager)
    (primary : Embeddings.EmbeddingProvider) (t : string) (s : S) :
  working em primary ->
  exists v s', Embeddings.embed_single t (em, s) = (Ok (Some v), (em, s')).
Proof.
  intros Hw. pose proof Hw as [Hreg [Havail Hans]].
  destruct (Hans t) as [v Hv].
  pose proof (generate_working em primary t v s Hw Hv) as Hgen.
  unfold Embeddings.embed_single, Embeddings.embed. unfold bind at 1 2, get_state.
  cbn [fst snd].
  destruct (Embeddings.cache_enabled em && Embeddings.has_storage_backend em) eqn:Ec.
  - assert (Hsb : Embeddings.has_storage_backend em = true).
    { apply andb_true_iff in Ec. tauto. }
    unfold Embeddings._get_cached_embeddings. cbn [fst snd].
    rewrite Hsb, Hreg. cbn [negb Embeddings.lookup_all].
    destruct (get_cached_embedding _ _ _ s) as [c|].
    + exists c, s. reflexivity.
    + cbn [Embeddings.select map nth]. unfold bind at 1. rewrite Hgen.
      destruct (cache_embeddings_ok [t] [v] (em, s)) as [s' Hs'].
      unfold bind at 1. rewrite Hs'. cbn [fst snd].
      exists v, s'. reflexivity.
  - unfold Embeddings.generate_all, bind, get_state. rewrite Hgen. cbn [fst snd].
    rewrite Ec. exists v, s. reflexivity.
Qed.

(** The loop over the chunks ends normally when the provider works, the
    chunk ids are new and distinct, and the files of the chunks exist. *)
Lemma store_chunks_working (primary : Embeddings.EmbeddingProvider)
    (chunks : list ChunkInfo) (mm : Manager.t S) :
  working (embeddings mm) primary ->
  List.NoDup (map ci_id chunks) ->
  (forall c, In c chunks ->
     get_chunk (ci_id c) (storage mm) = None
     /\ get_file (ci_file_id c) (storage mm) <> None) ->
  fst (store_chunks chunks mm) = Ok tt.
Proof.
  revert mm. induction chunks as [|c chunks IH]; intros mm Hw Hnd Hpre;
    [reflexivity|].
  cbn [map] in Hnd. apply List.NoDup_cons_iff in Hnd. destruct Hnd as [Hc Hnd].
  unfold store_chunks. cbn [for_each]. fold (store_chunks chunks).
  destruct (embed_single_working (embeddings mm) primary (ci_text c) (storage mm) Hw)
    as [v [s' Hemb]].
  assert (Hframe : forall X (o : S -> X),
            (forall h p m e s, o (snd (cache_embedding h p m e s)) = o s) ->
            o s' = o (storage mm)).
  { intros X o Ho.
    pose proof (sobs_embed_single o Ho (ci_text c) (embeddings mm, storage mm)) as Hs.
    rewrite Hemb in Hs. exact Hs. }
  destruct (Hpre c (or_introl eq_refl)) as [Hnew Hfile].
  assert (Hadd : fst (add_chunk c (Some v) s') = Ok (ci_id c)).
  { apply add_chunk_succeeds.
    - rewrite (Hframe _ (get_chunk (ci_id c))); [exact Hnew|].
      intros. apply cache_embedding_get_chunk.
    - rewrite (Hframe _ (get_file (ci_file_id c))); [exact Hfile|].
      intros. apply cache_embedding_get_file. }
  unfold bind at 1. unfold bind at 1. unfold on_embeddings at 1. rewrite Hemb.
  unfold bind at 1. unfold on_storage at 1. cbn [storage].
  destruct (add_chunk c (Some v) s') as [r s''] eqn:Eadd. cbn [fst] in Hadd. subst r.
  unfold ret at 1.
  apply IH.
  - cbn [embeddings]. exact Hw.
  - exact Hnd.
  - intros c' Hc'. cbn [storage]. destruct (Hpre c' (or_intror Hc')) as [Hnew' Hfile'].
    assert (Hs'' : s'' = snd (add_chunk c (Some v) s')) by (rewrite Eadd; reflexivity).
    rewrite Hs''. split.
    + rewrite add_chunk_get_chunk_other.
      * rewrite (Hframe _ (get_chunk (ci_id c'))); [exact Hnew'|].
        intros. apply cache_embedding_get_chunk.
      * intros Heq. apply Hc. rewrite <- Heq. apply in_map. exact Hc'.
    + rewrite add_chunk_get_file.
      rewrite (Hframe _ (get_file (ci_file_id c'))); [exact Hfile'|].
      intros. apply cache_embedding_get_file.
Qed.

(** X19: from a manager whose coming identifiers are unused and whose
    primary provider is registered, available and answers every text with
    one vector, [ingest_text] returns, on every backend that keeps the
    storage laws. The id it returns is the next identifier of the supply;
    the file is stored under it with the MD5 of the text as hash, and every
    chunk the processor made is stored and names that file. *)
Theorem ingest_text_returns_with_a_working_provider
    (env : Env.t) (text : string) (metadata : option pydict)
    (primary : Embeddings.EmbeddingProvider) (mm : Manager.t S) :
  uuid_fresh mm ->
  od_get (Embeddings.providers (embeddings mm))
    (Embeddings.primary_provider_name (embeddings mm)) = Some primary ->
  Embeddings._is_provider_available (embeddings mm)
    (Embeddings.primary_provider_name (embeddings mm)) = true ->
  (forall t, exists v, Embeddings.embed_texts primary [t] = Ok [v]) ->
  exists f chunks,
    fst (FileProcessor.process_text (file_processor mm) env text None None
           metadata (uuid_counter mm)) = Ok (f, chunks)
    /\ fst (ingest_text env text metadata mm)
       = Ok (FileProcessor.uuid_of (uuid_counter mm))
    /\ fi_id f = FileProcessor.uuid_of (uuid_counter mm)
    /\ fi_hash f = MD5.md5_hex text
    /\ get_file (fi_id f) (storage (snd (ingest_text env text metadata mm)))
       = Some f
    /\ (forall c, In c chunks ->
          ci_file_id c = fi_id f
          /\ get_chunk (ci_id c) (storage (snd (ingest_text env text metadata mm)))
             = Some c).
Proof.
  intros Hfresh Hreg Havail Hans.
  destruct (ingest_text_once env text metadata mm Hfresh)
    as [f [chunks [Hpt [Hid [Hpath [Hhash [Hids [Hfid [_ [_ [Hget [_ [_ [_ Hok]]]]]]]]]]]]]].
  exists f, chunks.
  assert (Hret : fst (ingest_text env text metadata mm) = Ok (fi_id f)).
  { destruct (Hfresh (uuid_counter mm) (le_n _)) as [Hnofile [Hnopath _]].
    rewrite <- Hid in Hnofile. rewrite <- Hpath in Hnopath.
    unfold ingest_text, bind, get_state. unfold on_uuid at 1.
    destruct (FileProcessor.process_text (file_processor mm) env text None None
                metadata (uuid_counter mm)) as [r n'] eqn:Ept.
    cbn [fst] in Hpt. subst r.
    cbn [fst snd storage embeddings file_processor watch_directories last_sync
         sync_in_progress uuid_counter].
    unfold on_storage at 1. cbn [storage].
    pose proof (add_file_ok f (storage mm)) as Haf.
    destruct (add_file f (storage mm)) as [r s1] eqn:Eaf. cbn [fst] in Haf. subst r.
    cbn [embeddings file_processor watch_directories last_sync sync_in_progress
         uuid_counter].
    assert (Hs1 : s1 = snd (add_file f (storage mm))) by (rewrite Eaf; reflexivity).
    match goal with |- context [store_chunks chunks ?m] => set (mm_a := m) end.
    assert (Hst : fst (store_chunks chunks mm_a) = Ok tt).
    { apply (store_chunks_working primary).
      - cbn [embeddings mm_a]. repeat split; assumption.
      - rewrite Hids. apply NoDup_ListNoDup. apply uuid_seq_NoDup.
      - intros c Hc. cbn [storage mm_a]. rewrite Hs1. split.
        + rewrite add_file_get_chunk by assumption.
          assert (Hin : In (ci_id c) (map ci_id chunks)) by (apply in_map; exact Hc).
          rewrite Hids in Hin. apply in_map_iff in Hin.
          destruct Hin as [k [Hk Hin]]. apply in_seq in Hin.
          rewrite <- Hk. apply (Hfresh k). lia.
        + rewrite (Hfid c Hc), add_file_get_file. discriminate. }
    destruct (store_chunks chunks mm_a) as [[[]|e] mm']; [reflexivity|discriminate Hst]. }
  split; [exact Hpt|]. split; [rewrite Hret, Hid; reflexivity|].
  split; [exact Hid|]. split; [exact Hhash|]. split; [exact Hget|].
  intros c Hc. split; [exact (Hfid c Hc)|].
  destruct (Hok (fi_id f) Hret) as [_ Hstored]. exact (Hstored c Hc).
Qed.

(** What [process_file] hands to [ingest_file] for a regular file of a
    supported type that is not too large. *)
Lemma process_file_plan (fp : FileProcessor.t) (env : Env.t) (file_path : string)
    (metadata : option pydict) (entry : Env.Entry) (content : string) (n : nat) :
  Env.stat env file_path = Some entry ->
  Env.read env file_path = Some content ->
  Env.st_size entry <= FileProcessor.max_file_size fp ->
  FileProcessor._is_supported_file fp file_path = true ->
  let f := FileProcessor._create_file_info file_path content entry metadata
             (FileProcessor.uuid_of n) in
  let chunks := FileProcessor._create_chunks fp env f content (Datatypes.S n) in
  FileProcessor.process_file fp env file_path metadata n
  = (Ok (f, chunks), (Datatypes.S n + length chunks)%nat)
  /\ map ci_id chunks
     = map FileProcessor.uuid_of (seq (Datatypes.S n) (length chunks))
  /\ (forall c, In c chunks -> ci_file_id c = FileProcessor.uuid_of n).
Proof.
  intros Hstat Hread Hsize Hsup. cbv zeta. split; [|split].
  - unfold FileProcessor.process_file, Env.exists_, od_mem.
    unfold Env.stat in Hstat. rewrite Hstat. cbn [negb].
    unfold Env.stat. rewrite Hstat, Hread.
    assert (E : (FileProcessor.max_file_size fp <? Env.st_size entry) = false)
      by (apply Z.ltb_ge; exact Hsize).
    rewrite E, Hsup. reflexivity.
  - unfold FileProcessor._create_chunks.
    rewrite chunk_infos_ids, chunk_infos_length. reflexivity.
  - intros c Hin. unfold FileProcessor._create_chunks in Hin.
    apply chunk_infos_file_id in Hin. exact Hin.
Qed.

(** X20: [ingest_file] on a path the storage does not know, naming a
    regular file of a supported type within the size limit, with unused
    coming identifiers and a working primary provider: it returns the next
    identifier of the supply; the file is stored under it with its path,
    the MD5 of its content and its modification time; and every chunk the
    processor made is stored and names that file. *)
Theorem ingest_file_stores_a_new_file
    (env : Env.t) (file_path : string) (metadata : option pydict)
    (entry : Env.Entry) (content : string)
    (primary : Embeddings.EmbeddingProvider) (mm : Manager.t S) :
  uuid_fresh mm ->
  get_file_by_path file_path (storage mm) = None ->
  Env.stat env file_path = Some entry ->
  Env.read env file_path = Some content ->
  Env.st_size entry <= FileProcessor.max_file_size (file_processor mm) ->
  FileProcessor._is_supported_file (file_processor mm) file_path = true ->
  od_get (Embeddings.providers (embeddings mm))
    (Embeddings.primary_provider_name (embeddings mm)) = Some primary ->
  Embeddings._is_provider_available (embeddings mm)
    (Embeddings.primary_provider_name (embeddings mm)) = true ->
  (forall t, exists v, Embeddings.embed_texts primary [t] = Ok [v]) ->
  let mm' := snd (ingest_file env file_path metadata mm) in
  exists f,
    fst (ingest_file env file_path metadata mm) = Ok (fi_id f)
    /\ fi_id f = FileProcessor.uuid_of (uuid_counter mm)
    /\ fi_path f = file_path
    /\ fi_hash f = MD5.md5_hex content
    /\ fi_mtime f = Env.st_mtime entry
    /\ get_file (fi_id f) (storage mm') = Some f
    /\ (forall c,
          In c (FileProcessor._create_chunks (file_processor mm) env f content
                  (Datatypes.S (uuid_counter mm))) ->
          ci_file_id c = fi_id f
          /\ get_chunk (ci_id c) (storage mm') = Some c).
Proof.
  intros Hfresh Hnew Hstat Hread Hsize Hsup Hreg Havail Hans. cbv zeta.
  destruct (process_file_plan (file_processor mm) env file_path metadata entry
              content (uuid_counter mm) Hstat Hread Hsize Hsup)
    as [Hpf [Hids Hfid]].
  set (f := FileProcessor._create_file_info file_path content entry metadata
              (FileProcessor.uuid_of (uuid_counter mm))) in *.
  set (chunks := FileProcessor._create_chunks (file_processor mm) env f content
                   (Datatypes.S (uuid_counter mm))) in *.
  exists f.
  destruct (Hfresh (uuid_counter mm) (le_n _)) as [Hnofile _].
  change (FileProcessor.uuid_of (uuid_counter mm)) with (fi_id f) in Hnofile.
  change file_path with (fi_path f) in Hnew.
  set (mm_a := Manager.mk (snd (add_file f (storage mm))) (embeddings mm)
                 (file_processor mm) (watch_directories mm) (last_sync mm)
                 (sync_in_progress mm)
                 (Datatypes.S (uuid_counter mm) + length chunks)).
  assert (Hst : fst (store_chunks chunks mm_a) = Ok tt).
  { apply (store_chunks_working primary).
    - cbn [embeddings mm_a]. repeat split; assumption.
    - rewrite Hids. apply NoDup_ListNoDup. apply uuid_seq_NoDup.
    - intros c Hc. cbn [storage mm_a]. split.
      + rewrite add_file_get_chunk by assumption.
        assert (Hin : In (ci_id c) (map ci_id chunks)) by (apply in_map; exact Hc).
        rewrite Hids in Hin. apply in_map_iff in Hin.
        destruct Hin as [k [Hk Hin]]. apply in_seq in Hin.
        rewrite <- Hk. apply (Hfresh k). lia.
      + rewrite (Hfid c Hc). change (FileProcessor.uuid_of (uuid_counter mm))
          with (fi_id f). rewrite add_file_get_file. discriminate. }
  assert (Hrun : ingest_file env (fi_path f) metadata mm
                 = (Ok (fi_id f), snd (store_chunks chunks mm_a))).
  { unfold ingest_file, bind, get_state. cbn [fst snd]. rewrite Hnew.
    unfold ingest_file_process, bind, get_state. unfold on_uuid at 1.
    cbn [fst snd]. change (fi_path f) with file_path. rewrite Hpf.
    cbn [fst snd storage embeddings file_processor watch_directories last_sync
         sync_in_progress uuid_counter].
    unfold on_storage at 1. cbn [storage].
    pose proof (add_file_ok f (storage mm)) as Haf.
    unfold mm_a in Hst |- *.
    destruct (add_file f (storage mm)) as [r s1]. cbn [fst snd] in *. subst r.
    cbn [embeddings file_processor watch_directories last_sync sync_in_progress
         uuid_counter].
    destruct (store_chunks chunks _) as [[[]|e] mm']; [reflexivity|discriminate Hst]. }
  change (fi_path f) with file_path in Hrun. rewrite Hrun. cbn [fst snd].
  split; [reflexivity|]. split; [reflexivity|]. split; [reflexivity|].
  split; [reflexivity|]. split; [reflexivity|].
  split.
  - rewrite store_chunks_get_file. cbn [storage mm_a]. apply add_file_get_file.
  - intros c Hc. split; [exact (Hfid c Hc)|].
    apply store_chunks_stored; [exact Hst| |exact Hc].
    rewrite Hids. apply uuid_seq_NoDup.
Qed.

End IngestReturns.

Lemma ingest_text_returns_with_a_working_provider_witness :
  exists f chunks,
    fst (FileProcessor.process_text
           (Manager.file_processor (Scenarios.idle_manager Scenarios.length_provider))
           Scenarios.docs_env "hello" None None None
           (Manager.uuid_counter (Scenarios.idle_manager Scenarios.length_provider)))
    = Ok (f, chunks)
    /\ fst (Manager.ingest_text Scenarios.docs_env "hello" None
              (Scenarios.idle_manager Scenarios.length_provider))
       = Ok (FileProcessor.uuid_of
               (Manager.uuid_counter
                  (Scenarios.idle_manager Scenarios.length_provider)))
    /\ Models.fi_id f
       = FileProcessor.uuid_of
           (Manager.uuid_counter (Scenarios.idle_manager Scenarios.length_provider))
    /\ Models.fi_hash f = MD5.md5_hex "hello"
    /\ StorageBase.get_file (Models.fi_id f)
         (Manager.storage
            (snd (Manager.ingest_text Scenarios.docs_env "hello" None
                    (Scenarios.idle_manager Scenarios.length_provider))))
       = Some f
    /\ (forall c, In c chunks ->
          Models.ci_file_id c = Models.fi_id f
          /\ StorageBase.get_chunk (Models.ci_id c)
               (Manager.storage
                  (snd (Manager.ingest_text Scenarios.docs_env "hello" None
                          (Scenarios.idle_manager Scenarios.length_provider))))
             = Some c).
Proof.
  apply (ingest_text_returns_with_a_working_provider Scenarios.docs_env "hello"
           None Scenarios.length_provider
           (Scenarios.idle_manager Scenarios.length_provider)).
  - apply idle_manager_fresh.
  - reflexivity.
  - reflexivity.
  - intros t. eexists. reflexivity.
Defined.

Lemma ingest_file_stores_a_new_file_witness :
  exists f,
    fst (Manager.ingest_file Scenarios.docs_env "docs/a.txt" None
           (Scenarios.idle_manager Scenarios.length_provider))
    = Ok (Models.fi_id f)
    /\ Models.fi_id f
       = FileProcessor.uuid_of
           (Manager.uuid_counter (Scenarios.idle_manager Scenarios.length_provider))
    /\ Models.fi_path f = "docs/a.txt"%string
    /\ Models.fi_hash f = MD5.md5_hex "hello"
    /\ Models.fi_mtime f
       = Env.st_mtime (Env.mkEntry (Env.RegularFile "hello") 5 1700000000)
    /\ StorageBase.get_file (Models.fi_id f)
         (Manager.storage
            (snd (Manager.ingest_file Scenarios.docs_env "docs/a.txt" None
                    (Scenarios.idle_manager Scenarios.length_provider))))
       = Some f
    /\ (forall c,
          In c (FileProcessor._create_chunks
                  (Manager.file_processor
                     (Scenarios.idle_manager Scenarios.length_provider))
                  Scenarios.docs_env f "hello"
                  (Datatypes.S
                     (Manager.uuid_counter
                        (Scenarios.idle_manager Scenarios.length_provider)))) ->
          Models.ci_file_id c = Models.fi_id f
          /\ StorageBase.get_chunk (Models.ci_id c)
               (Manager.storage
                  (snd (Manager.ingest_file Scenarios.docs_env "docs/a.txt" None
                          (Scenarios.idle_manager Scenarios.length_provider))))
             = Some c).
Proof.
  apply (ingest_file_stores_a_new_file Scenarios.docs_env "docs/a.txt" None
           (Env.mkEntry (Env.RegularFile "hello") 5 1700000000) "hello"
           Scenarios.length_provider
           (Scenarios.idle_manager Scenarios.length_provider)).
  - apply idle_manager_fresh.
  - reflexivity.
  - reflexivity.
  - reflexivity.
  - vm_compute. discriminate.
  - reflexivity.
  - reflexivity.
  - reflexivity.
  - intros t. eexists. reflexivity.
Defined.

(** ** search/hybrid.py: what a hybrid search returns *)

Section HybridRanking.
Import Models HybridSearch.

Lemma StronglySorted_filter_keep {A : Type} (R : A -> A -> Prop) (p : A -> bool)
    (l : list A) :
  StronglySorted R l -> StronglySorted R (List.filter p l).
Proof.
  induction 1 as [|a l Hs IH Hall]; cbn; [constructor|].
  destruct (p a); [|exact IH]. constructor; [exact IH|].
  rewrite List.Forall_forall in *. intros x Hx. apply filter_In in Hx.
  apply Hall. exact (proj1 Hx).
Qed.

Lemma StronglySorted_take_keep {A : Type} (R : A -> A -> Prop) (n : nat)
    (l : list A) :
  StronglySorted R l -> StronglySorted R (take n l).
Proof.
  intros Hs. revert n. induction Hs as [|a l Hs IH Hall]; intros [|n]; cbn;
    try constructor.
  - apply IH.
  - rewrite List.Forall_forall in *. intros x Hx. apply Hall.
    apply list_elem_of_In. apply list_elem_of_In in Hx.
    exact (subseteq_take n l x Hx).
Qed.

Lemma list_prefix_In {A : Type} (l : list A) (n : Z) (x : A) :
  In x (list_prefix l n) -> In x l.
Proof.
  unfold list_prefix. intros Hx. apply list_elem_of_In.
  apply list_elem_of_In in Hx. exact (subseteq_take _ l x Hx).
Qed.

Lemma list_prefix_length {A : Type} (l : list A) (n : Z) :
  0 <= n -> Z.of_nat (length (list_prefix l n)) <= n.
Proof.
  intros Hn. unfold list_prefix, PyStr.clamp_index.
  assert (E : (n <? 0) = false) by (apply Z.ltb_ge; exact Hn). rewrite E.
  rewrite length_take. lia.
Qed.

(** X21: a hybrid search whose two weights are given and are not zero,
    whose widened options pass validation and whose two searches answer
    with candidates of positive score. It returns at most [max_results]
    results, in descending order of score; every result is a span returned
    by one of the two searches, its score is the weighted sum of the two
    scores for the span (zero for the search that did not return it),
    raised by a tenth when both returned it and cut at 1, and that score is
    at least [min_score]. *)
Theorem hybrid_search_ranks_by_the_combined_score
    (vector_search keyword_search : SearchOptions -> result (list SearchResult))
    (options expanded : SearchOptions) (V K : list SearchResult) (vw kw : Q) :
  SearchOptions_new (mode options) (max_results options * 3)
    (py_max (1 # 10) (min_score options - (2 # 10))%Q) (sources options)
    (vector_weight options) (keyword_weight options) = Ok expanded ->
  vector_search expanded = Ok V ->
  keyword_search expanded = Ok K ->
  vector_weight options = Some vw -> Qeq_bool vw 0 = false ->
  keyword_weight options = Some kw -> Qeq_bool kw 0 = false ->
  (forall x, In x (V ++ K) -> Qgtb (sr_score x) 0 = true) ->
  0 <= max_results options ->
  exists results,
    _hybrid_search vector_search keyword_search options = Ok results
    /\ Z.of_nat (length results) <= max_results options
    /\ StronglySorted score_ge results
    /\ (forall r, In r results ->
          sr_score r = spec_combined V K vw kw (key r)
          /\ (min_score options <= sr_score r)%Q
          /\ spec_in_mode V (key r) || spec_in_mode K (key r) = true).
Proof.
  intros Hexp HV HK Hvw Hvw0 Hkw Hkw0 Hpos Hmax.
  eexists. split.
  { apply (hybrid_search_on_regular_options vector_search keyword_search
             options expanded V K vw kw); assumption. }
  destruct (merge_results_by_the_formula V K vw kw Hpos) as [Hsorted [Hscore _]].
  split; [apply list_prefix_length; exact Hmax|]. split.
  - unfold list_prefix. apply StronglySorted_take_keep.
    apply StronglySorted_filter_keep. exact Hsorted.
  - intros r Hr. apply list_prefix_In in Hr. apply filter_In in Hr.
    destruct Hr as [Hin Hge]. destruct (Hscore r Hin) as [Hs Hm].
    split; [exact Hs|]. split; [|exact Hm].
    unfold Qgeb in Hge. apply Qle_bool_iff. exact Hge.
Qed.

End HybridRanking.

Lemma hybrid_search_ranks_by_the_combined_score_witness :
  exists results,
    HybridSearch._hybrid_search Scenarios.vector_engine Scenarios.keyword_engine
      Scenarios.usual_options = Ok results
    /\ Z.of_nat (length results) <= Models.max_results Scenarios.usual_options
    /\ StronglySorted HybridSearch.score_ge results
    /\ (forall r, In r results ->
          Models.sr_score r
          = HybridSearch.spec_combined [Scenarios.vector_hit]
              [Scenarios.keyword_hit] (7 # 10) (3 # 10) (HybridSearch.key r)
          /\ (Models.min_score Scenarios.usual_options <= Models.sr_score r)%Q
          /\ HybridSearch.spec_in_mode [Scenarios.vector_hit] (HybridSearch.key r)
             || HybridSearch.spec_in_mode [Scenarios.keyword_hit] (HybridSearch.key r)
             = true).
Proof.
  apply (hybrid_search_ranks_by_the_combined_score Scenarios.vector_engine
           Scenarios.keyword_engine Scenarios.usual_options
           (Models.mkSearchOptions Models.ModeHybrid 30 (1 # 10) None
              (Some (7 # 10)%Q) (Some (3 # 10)%Q))
           [Scenarios.vector_hit] [Scenarios.keyword_hit] (7 # 10) (3 # 10)).
  - reflexivity.
  - reflexivity.
  - reflexivity.
  - reflexivity.
  - reflexivity.
  - reflexivity.
  - reflexivity.
  - intros x [<-|[<-|[]]]; reflexivity.
  - vm_compute. discriminate.
Defined.

(** ** storage/memory_backend.py: the shared arrays stay in step *)

Section OrderedDictKeys.
Context {V : Type}.

Lemma od_set_keys (d : list (string * V)) (k : string) (v : V) :
  map fst (od_set d k v)
  = if od_mem d k then map fst d else map fst d ++ [k].
Proof.
  unfold od_mem. induction d as [|[k' v'] d IH]; cbn; [reflexivity|].
  destruct (String.eqb k k') eqn:E; cbn.
  - apply String.eqb_eq in E. subst k'. reflexivity.
  - rewrite IH. destruct (od_get d k); reflexivity.
Qed.

Lemma od_get_None_keys (d : list (string * V)) (k : string) :
  od_get d k = None <-> ~ In k (map fst d).
Proof.
  induction d as [|[k' v'] d IH]; cbn; [tauto|].
  destruct (String.eqb k k') eqn:E.
  - apply String.eqb_eq in E. subst k'. split; [discriminate|]. intros Hn.
    exfalso. apply Hn. left. reflexivity.
  - apply String.eqb_neq in E. rewrite IH. split.
    + intros Hn [Heq|Hin]; [congruence|contradiction].
    + intros Hn Hin. apply Hn. right. exact Hin.
Qed.

Lemma od_set_keys_NoDup (d : list (string * V)) (k : string) (v : V) :
  List.NoDup (map fst d) -> List.NoDup (map fst (od_set d k v)).
Proof.
  intros Hnd. rewrite od_set_keys. unfold od_mem.
  destruct (od_get d k) eqn:E; [exact Hnd|].
  apply od_get_None_keys in E.
  rewrite <- (rev_involutive (map fst d ++ [k])). apply List.NoDup_rev.
  rewrite rev_app_distr. cbn. constructor; [|apply List.NoDup_rev; exact Hnd].
  intros Hin. apply E. apply in_rev. exact Hin.
Qed.

Lemma od_del_In (d : list (string * V)) (k k' : string) (v : V) :
  In (k', v) (od_del d k) -> In (k', v) d.
Proof.
  induction d as [|[k0 v0] d IH]; cbn; [tauto|].
  destruct (String.eqb k k0); [tauto|]. intros [Heq|Hin]; [left; exact Heq|].
  right. exact (IH Hin).
Qed.

Lemma od_del_keys_In (d : list (string * V)) (k k' : string) :
  In k' (map fst (od_del d k)) -> In k' (map fst d).
Proof.
  intros Hin. apply in_map_iff in Hin. destruct Hin as [[k0 v0] [<- Hin]].
  apply od_del_In in Hin. apply in_map_iff. exists (k0, v0). tauto.
Qed.

Lemma od_del_keys_NoDup (d : list (string * V)) (k : string) :
  List.NoDup (map fst d) -> List.NoDup (map fst (od_del d k)).
Proof.
  induction d as [|[k0 v0] d IH]; cbn; intros Hnd; [constructor|].
  apply List.NoDup_cons_iff in Hnd. destruct Hnd as [Hk0 Hnd].
  destruct (String.eqb k k0); [exact Hnd|]. cbn.
  apply List.NoDup_cons_iff. split; [|exact (IH Hnd)].
  intros Hin. apply Hk0. exact (od_del_keys_In d k k0 Hin).
Qed.

Lemma od_get_del_ne (d : list (string * V)) (k k' : string) :
  k' <> k -> od_get (od_del d k) k' = od_get d k'.
Proof.
  intros Hne. induction d as [|[k0 v0] d IH]; cbn; [reflexivity|].
  destruct (String.eqb k k0) eqn:E.
  - apply String.eqb_eq in E. subst k0.
    apply String.eqb_neq in Hne. rewrite Hne. reflexivity.
  - cbn. destruct (String.eqb k' k0); [reflexivity|exact IH].
Qed.

Lemma od_get_del_eq (d : list (string * V)) (k : string) :
  List.NoDup (map fst d) -> od_get (od_del d k) k = None.
Proof.
  induction d as [|[k0 v0] d IH]; cbn; intros Hnd; [reflexivity|].
  apply List.NoDup_cons_iff in Hnd. destruct Hnd as [Hk0 Hnd].
  destruct (String.eqb k k0) eqn:E.
  - apply String.eqb_eq in E. subst k0. apply od_get_None_keys. exact Hk0.
  - cbn. rewrite E. exact (IH Hnd).
Qed.

Lemma od_del_absent (d : list (string * V)) (k : string) :
  od_get d k = None -> od_del d k = d.
Proof.
  induction d as [|[k0 v0] d IH]; cbn; [reflexivity|].
  destruct (String.eqb k k0); [discriminate|]. intros Hn. rewrite (IH Hn). reflexivity.
Qed.

Lemma od_del_In_other (d : list (string * V)) (k k' : string) (v : V) :
  k' <> k -> In (k', v) d -> In (k', v) (od_del d k).
Proof.
  intros Hne. induction d as [|[k0 v0] d IH]; cbn; [tauto|].
  destruct (String.eqb k k0) eqn:E.
  - apply String.eqb_eq in E. subst k0. intros [Heq|Hin]; [congruence|exact Hin].
  - intros [Heq|Hin]; [left; exact Heq|right; exact (IH Hin)].
Qed.

End OrderedDictKeys.

Section MemoryReachable.
Import Models MemoryBackend MemorySchema.

Lemma list_del_in_range {A : Type} (l : list A) (i : Z) :
  0 <= i < Z.of_nat (length l) ->
  list_del l i = Some (take (Z.to_nat i) l ++ drop (S (Z.to_nat i)) l).
Proof.
  intros Hi. unfold list_del.
  assert (E1 : (i <? 0) = false) by (apply Z.ltb_ge; lia).
  assert (E2 : (0 <=? i) = true) by (apply Z.leb_le; lia).
  assert (E3 : (i <? Z.of_nat (length l)) = true) by (apply Z.ltb_lt; lia).
  rewrite E1, E2, E3. reflexivity.
Qed.

Lemma nth_error_del {A : Type} (l : list A) (k j : nat) :
  nth_error (take k l ++ drop (S k) l) j
  = if (j <? k)%nat then nth_error l j else nth_error l (S j).
Proof.
  revert k j. induction l as [|a l IH]; intros k j.
  - rewrite take_nil, drop_nil. cbn [app]. destruct (j <? k)%nat; destruct j; reflexivity.
  - destruct k as [|k]; [reflexivity|]. destruct j as [|j]; [reflexivity|].
    cbn [take drop app nth_error]. rewrite IH.
    change (S j <? S k)%nat with (j <? k)%nat. reflexivity.
Qed.

Lemma length_del {A : Type} (l : list A) (k : nat) :
  (k < length l)%nat ->
  length (take k l ++ drop (S k) l) = (length l - 1)%nat.
Proof. intros Hk. rewrite length_app, length_take, length_drop. lia. Qed.

Lemma od_get_shift (gi : Z) (d : list (string * Z)) (c : string) :
  od_get (map (fun kv => if gi <? snd kv then (fst kv, snd kv - 1) else kv) d) c
  = option_map (fun g => if gi <? g then g - 1 else g) (od_get d c).
Proof.
  induction d as [|[k g] d IH]; cbn; [reflexivity|].
  destruct (gi <? g) eqn:E; cbn; destruct (String.eqb c k); cbn;
    rewrite ?E; auto.
Qed.

Lemma shift_keys (gi : Z) (d : list (string * Z)) :
  map fst (map (fun kv => if gi <? snd kv then (fst kv, snd kv - 1) else kv) d)
  = map fst d.
Proof.
  induction d as [|[k g] d IH]; cbn; [reflexivity|].
  destruct (gi <? g); cbn; rewrite IH; reflexivity.
Qed.

(** Deleting one chunk keeps the arrays in step and never fails. *)
Lemma delete_chunk_consistent (chunk_id : string) (b : t) :
  keys_unique b -> index_consistent b ->
  fst (_delete_chunk_from_global chunk_id b) = Ok tt
  /\ keys_unique (snd (_delete_chunk_from_global chunk_id b))
  /\ index_consistent (snd (_delete_chunk_from_global chunk_id b))
  /\ files (snd (_delete_chunk_from_global chunk_id b)) = files b
  /\ chunks (snd (_delete_chunk_from_global chunk_id b)) = od_del (chunks b) chunk_id.
Proof.
  intros [Kf [Kc [Ke Ki]]] [Hlen [Hpos Hinj]].
  assert (Hdel : forall {V : Type} (d : list (string * V)),
            (if od_mem d chunk_id then od_del d chunk_id else d) = od_del d chunk_id).
  { intros V d. unfold od_mem. destruct (od_get d chunk_id) eqn:E; [reflexivity|].
    symmetry. apply od_del_absent. exact E. }
  unfold _delete_chunk_from_global.
  destruct (od_get (chunk_to_global_index b) chunk_id) as [gi|] eqn:Eg.
  - destruct (Hpos chunk_id gi Eg) as [Hrange _].
    rewrite (list_del_in_range (embeddings_store b) gi Hrange).
    rewrite (list_del_in_range (metadatas b) gi) by (rewrite Hlen; exact Hrange).
    cbn [fst snd files chunks chunk_embeddings embedding_cache chunk_to_global_index
         initialized embeddings_store metadatas index_built].
    rewrite !Hdel.
    split; [reflexivity|]. split; [|split; [|split; reflexivity]].
    + unfold keys_unique.
      cbn [files chunks chunk_embeddings chunk_to_global_index].
      repeat split; try assumption; try (apply od_del_keys_NoDup; assumption).
      apply od_del_keys_NoDup. rewrite shift_keys. exact Ki.
    + unfold index_consistent.
      cbn [chunk_embeddings chunk_to_global_index embeddings_store metadatas].
      assert (Hk : (Z.to_nat gi < length (embeddings_store b))%nat) by lia.
      assert (Hlookup : forall c g',
                od_get (od_del (map (fun kv => if gi <? snd kv
                                               then (fst kv, snd kv - 1) else kv)
                                    (chunk_to_global_index b)) chunk_id) c = Some g' ->
                c <> chunk_id
                /\ exists g, od_get (chunk_to_global_index b) c = Some g
                             /\ g <> gi
                             /\ g' = (if gi <? g then g - 1 else g)).
      { intros c g' Hc.
        assert (Hne : c <> chunk_id).
        { intros ->. rewrite od_get_del_eq in Hc; [discriminate|].
          rewrite shift_keys. exact Ki. }
        split; [exact Hne|].
        rewrite od_get_del_ne, od_get_shift in Hc by exact Hne.
        destruct (od_get (chunk_to_global_index b) c) as [g|] eqn:Ec; [|discriminate].
        cbn in Hc. injection Hc as <-. exists g. split; [reflexivity|].
        split; [|reflexivity]. intros ->. apply Hne. exact (Hinj c chunk_id gi Ec Eg). }
      split; [|split].
      * rewrite !length_del; lia.
      * intros c g' Hc. destruct (Hlookup c g' Hc) as [Hne [g [Ec [Hg ->]]]].
        destruct (Hpos c g Ec) as [Hgr [e [He Hnth]]].
        rewrite length_del by exact Hk.
        destruct (gi <? g) eqn:Elt.
        -- apply Z.ltb_lt in Elt. split; [lia|]. exists e.
           rewrite od_get_del_ne by exact Hne. split; [exact He|].
           rewrite nth_error_del.
           assert (E : (Z.to_nat (g - 1) <? Z.to_nat gi)%nat = false)
             by (apply Nat.ltb_ge; lia).
           rewrite E. replace (S (Z.to_nat (g - 1))) with (Z.to_nat g) by lia.
           exact Hnth.
        -- apply Z.ltb_ge in Elt. split; [lia|]. exists e.
           rewrite od_get_del_ne by exact Hne. split; [exact He|].
           rewrite nth_error_del.
           assert (E : (Z.to_nat g <? Z.to_nat gi)%nat = true)
             by (apply Nat.ltb_lt; lia).
           rewrite E. exact Hnth.
      * intros c1 c2 g' H1 H2.
        destruct (Hlookup c1 g' H1) as [_ [g1 [E1 [Hg1 F1]]]].
        destruct (Hlookup c2 g' H2) as [_ [g2 [E2 [Hg2 F2]]]].
        apply (Hinj c1 c2 g1 E1). rewrite E2. f_equal.
        destruct (gi <? g1) eqn:L1; destruct (gi <? g2) eqn:L2;
          try apply Z.ltb_lt in L1; try apply Z.ltb_lt in L2;
          try apply Z.ltb_ge in L1; try apply Z.ltb_ge in L2; lia.
  - cbn [fst snd files chunks chunk_embeddings embedding_cache chunk_to_global_index
         initialized embeddings_store metadatas index_built].
    rewrite !Hdel.
    split; [reflexivity|]. split; [|split; [|split; reflexivity]].
    + unfold keys_unique.
      cbn [files chunks chunk_embeddings chunk_to_global_index].
      repeat split; try assumption; apply od_del_keys_NoDup; assumption.
    + unfold index_consistent.
      cbn [chunk_embeddings chunk_to_global_index embeddings_store metadatas].
      split; [exact Hlen|]. split; [|exact Hinj].
      intros c g Hc. destruct (Hpos c g Hc) as [Hgr [e [He Hnth]]].
      split; [exact Hgr|]. exists e. split; [|exact Hnth].
      rewrite od_get_del_ne; [exact He|]. intros ->. congruence.
Qed.


Lemma delete_chunks_consistent (ids : list string) (b : t) :
  keys_unique b -> index_consistent b ->
  fst (for_each ids _delete_chunk_from_global b) = Ok tt
  /\ keys_unique (snd (for_each ids _delete_chunk_from_global b))
  /\ index_consistent (snd (for_each ids _delete_chunk_from_global b))
  /\ files (snd (for_each ids _delete_chunk_from_global b)) = files b
  /\ chunks (snd (for_each ids _delete_chunk_from_global b))
     = fold_left od_del ids (chunks b).
Proof.
  revert b. induction ids as [|i ids IH]; intros b Hk Hc.
  - cbn. split; [reflexivity|]. split; [exact Hk|]. split; [exact Hc|].
    split; reflexivity.
  - cbn [for_each fold_left]. unfold bind.
    destruct (delete_chunk_consistent i b Hk Hc) as [Hok [Hk1 [Hc1 [Hf1 Hch1]]]].
    destruct (_delete_chunk_from_global i b) as [r b1]. cbn [fst snd] in *. subst r.
    destruct (IH b1 Hk1 Hc1) as [Hok2 [Hk2 [Hc2 [Hf2 Hch2]]]].
    split; [exact Hok2|]. split; [exact Hk2|]. split; [exact Hc2|].
    split; [congruence|]. rewrite Hch2, Hch1. reflexivity.
Qed.

Lemma nth_error_snoc_old {A : Type} (l : list A) (a : A) (j : nat) :
  (j < length l)%nat -> nth_error (l ++ [a]) j = nth_error l j.
Proof. intros Hj. apply nth_error_app1. exact Hj. Qed.

Lemma nth_error_snoc_new {A : Type} (l : list A) (a : A) :
  nth_error (l ++ [a]) (length l) = Some a.
Proof. rewrite nth_error_app2, Nat.sub_diag by lia. reflexivity. Qed.

Lemma add_chunk_consistent (c : ChunkInfo) (e : option ndarray) (b : t) :
  keys_unique b -> index_consistent b ->
  keys_unique (snd (add_chunk c e b)) /\ index_consistent (snd (add_chunk c e b)).
Proof.
  intros [Kf [Kc [Ke Ki]]] [Hlen [Hpos Hinj]]. unfold add_chunk.
  destruct e as [e|]; cbn [snd].
  - split.
    + unfold keys_unique. cbn [files chunks chunk_embeddings chunk_to_global_index].
      repeat split; try assumption; apply od_set_keys_NoDup; assumption.
    + unfold index_consistent.
      cbn [chunk_embeddings chunk_to_global_index embeddings_store metadatas].
      rewrite !length_app. cbn [length].
      replace (Z.of_nat (length (embeddings_store b) + 1) - 1)
        with (Z.of_nat (length (embeddings_store b))) by lia.
      split; [lia|]. split.
      * intros cid g Hc. rewrite od_get_set in Hc. rewrite od_get_set.
        destruct (String.eqb (ci_id c) cid).
        -- injection Hc as <-. split; [lia|]. exists e. split; [reflexivity|].
           rewrite Nat2Z.id. apply nth_error_snoc_new.
        -- destruct (Hpos cid g Hc) as [Hr [e' [He' Hn]]]. split; [lia|].
           exists e'. split; [exact He'|].
           rewrite nth_error_snoc_old by lia. exact Hn.
      * intros c1 c2 g H1 H2. rewrite od_get_set in H1, H2.
        destruct (String.eqb (ci_id c) c1) eqn:E1;
          destruct (String.eqb (ci_id c) c2) eqn:E2.
        -- apply String.eqb_eq in E1, E2. congruence.
        -- injection H1 as <-. destruct (Hpos c2 _ H2) as [Hr _]. lia.
        -- injection H2 as <-. destruct (Hpos c1 _ H1) as [Hr _]. lia.
        -- exact (Hinj c1 c2 g H1 H2).
  - split.
    + unfold keys_unique. cbn [files chunks chunk_embeddings chunk_to_global_index].
      repeat split; try assumption; apply od_set_keys_NoDup; assumption.
    + unfold index_consistent.
      cbn [chunk_embeddings chunk_to_global_index embeddings_store metadatas].
      repeat split; try assumption; apply (Hpos _ _ H).
Qed.

Lemma consistent_run (b : t) (c : call) :
  keys_unique b /\ index_consistent b ->
  keys_unique (run b c) /\ index_consistent (run b c).
Proof.
  intros [Hk Hc]. destruct c as [f|f|id|ci e|id|h p m v]; cbn [run].
  - destruct Hk as [Kf [Kc [Ke Ki]]]. split; [|exact Hc].
    unfold keys_unique, add_file.
    cbn [snd files chunks chunk_embeddings chunk_to_global_index].
    repeat split; try assumption. apply od_set_keys_NoDup. exact Kf.
  - unfold update_file. destruct (od_mem (files b) (fi_id f)); [|split; assumption].
    destruct Hk as [Kf [Kc [Ke Ki]]]. split; [|exact Hc].
    unfold keys_unique.
    cbn [snd files chunks chunk_embeddings chunk_to_global_index].
    repeat split; try assumption. apply od_set_keys_NoDup. exact Kf.
  - unfold delete_file. destruct (negb (od_mem (files b) id)); [split; assumption|].
    unfold bind.
    destruct (delete_chunks_consistent (chunks_of_file id b) b Hk Hc)
      as [Hok [Hk1 [Hc1 _]]].
    destruct (for_each (chunks_of_file id b) _delete_chunk_from_global b) as [r b1].
    cbn [fst snd] in *. subst r. cbn [snd].
    destruct Hk1 as [Kf [Kc [Ke Ki]]]. split; [|exact Hc1].
    unfold keys_unique.
    cbn [files chunks chunk_embeddings chunk_to_global_index].
    repeat split; try assumption. apply od_del_keys_NoDup. exact Kf.
  - apply add_chunk_consistent; assumption.
  - unfold delete_chunks_by_file, bind.
    destruct (delete_chunks_consistent (chunks_of_file id b) b Hk Hc)
      as [Hok [Hk1 [Hc1 _]]].
    destruct (for_each (chunks_of_file id b) _delete_chunk_from_global b) as [r b1].
    cbn [fst snd] in *. subst r. cbn [snd ret]. split; assumption.
  - split; assumption.
Qed.

Lemma reachable_consistent (calls : list call) :
  keys_unique (after calls) /\ index_consistent (after calls).
Proof.
  unfold after.
  assert (Hgen : forall b, keys_unique b /\ index_consistent b ->
            keys_unique (fold_left run calls b)
            /\ index_consistent (fold_left run calls b)).
  { induction calls as [|c calls IH]; intros b Hb; [exact Hb|].
    cbn [fold_left]. apply IH. apply consistent_run. exact Hb. }
  apply Hgen. split.
  - repeat split; constructor.
  - split; [reflexivity|]. split; intros; discriminate.
Qed.

(** X22: whatever sequence of [add_file], [update_file], [delete_file],
    [add_chunk], [delete_chunks_by_file] and [cache_embedding] calls is
    made on a new in-memory backend next to empty shared arrays, the
    position recorded for a chunk lies inside [embeddings_store] and holds
    the chunk's own vector, no two chunks are recorded at one position, and
    [metadatas] has the length of [embeddings_store]: the renumbering done
    by every deletion keeps the map and the arrays in step. *)
Theorem memory_index_stays_in_step (calls : list call) :
  index_consistent (after calls).
Proof. exact (proj2 (reachable_consistent calls)). Qed.

Lemma fold_del_In {V : Type} (ids : list string) (d : list (string * V))
    (k : string) (v : V) :
  List.NoDup (map fst d) ->
  In (k, v) (fold_left od_del ids d) -> In (k, v) d /\ ~ In k ids.
Proof.
  revert d. induction ids as [|i ids IH]; intros d Hnd Hin; [split; [exact Hin|tauto]|].
  cbn [fold_left] in Hin.
  destruct (IH (od_del d i) (od_del_keys_NoDup d i Hnd) Hin) as [Hin' Hnot].
  split; [exact (od_del_In d i k v Hin')|].
  intros [Heq|Hids]; [|contradiction]. subst i.
  pose proof (od_get_del_eq d k Hnd) as Hnone.
  apply od_get_None_keys in Hnone. apply Hnone.
  apply in_map_iff. exists (k, v). split; [reflexivity|exact Hin'].
Qed.

Lemma no_chunks_left (file_id : string) (b : t) :
  List.NoDup (map fst (chunks b)) ->
  List.filter (fun kv => String.eqb (ci_file_id (snd kv)) file_id)
    (fold_left od_del (chunks_of_file file_id b) (chunks b)) = [].
Proof.
  intros Hnd. apply filter_none. intros [k c] Hin.
  destruct (fold_del_In _ _ k c Hnd Hin) as [Hin' Hnot].
  cbn [snd]. destruct (String.eqb (ci_file_id c) file_id) eqn:E; [|reflexivity].
  exfalso. apply Hnot. unfold chunks_of_file. apply in_map_iff.
  exists (k, c). split; [reflexivity|]. apply filter_In. split; [exact Hin'|exact E].
Qed.

(** X23: on every state the in-memory backend can reach, deleting never
    raises. [delete_chunks_by_file] returns the number of chunks the file
    had and leaves it with none; [delete_file] reports whether the file was
    known, after it the file is unknown, and a file that was known has no
    chunk left. *)
Theorem memory_deletion_never_fails (calls : list call) (file_id : string) :
  let b := after calls in
  fst (delete_chunks_by_file file_id b)
  = Ok (Z.of_nat (length (get_chunks_by_file file_id b)))
  /\ get_chunks_by_file file_id (snd (delete_chunks_by_file file_id b)) = []
  /\ fst (delete_file file_id b)
     = Ok (match get_file file_id b with Some _ => true | None => false end)
  /\ get_file file_id (snd (delete_file file_id b)) = None
  /\ (get_file file_id b <> None ->
      get_chunks_by_file file_id (snd (delete_file file_id b)) = []).
Proof.
  cbv zeta. destruct (reachable_consistent calls) as [Hk Hc].
  generalize dependent (after calls). intros b Hk Hc.
  destruct (delete_chunks_consistent (chunks_of_file file_id b) b Hk Hc)
    as [Hok [Hk1 [Hc1 [Hf1 Hch1]]]].
  assert (Hgone : forall b1, chunks b1
                    = fold_left od_del (chunks_of_file file_id b) (chunks b) ->
                  get_chunks_by_file file_id b1 = []).
  { intros b1 Hb1. unfold get_chunks_by_file. rewrite Hb1, no_chunks_left;
      [reflexivity|]. exact (proj1 (proj2 Hk)). }
  split; [|split; [|split; [|split]]].
  - unfold delete_chunks_by_file, bind.
    destruct (for_each (chunks_of_file file_id b) _delete_chunk_from_global b)
      as [r b1]. cbn [fst snd] in *. subst r. cbn [fst ret].
    unfold get_chunks_by_file, chunks_of_file.
    rewrite sort_by_start_length, !length_map. reflexivity.
  - unfold delete_chunks_by_file, bind.
    destruct (for_each (chunks_of_file file_id b) _delete_chunk_from_global b)
      as [r b1]. cbn [fst snd] in *. subst r. cbn [snd ret].
    apply Hgone. exact Hch1.
  - unfold delete_file, get_file, od_mem.
    destruct (od_get (files b) file_id); cbn [negb]; [|reflexivity].
    unfold bind.
    destruct (for_each (chunks_of_file file_id b) _delete_chunk_from_global b)
      as [r b1]. cbn [fst snd] in *. subst r. reflexivity.
  - unfold delete_file, get_file, od_mem.
    destruct (od_get (files b) file_id) eqn:E; cbn [negb]; [|exact E].
    unfold bind.
    destruct (for_each (chunks_of_file file_id b) _delete_chunk_from_global b)
      as [r b1]. cbn [fst snd] in *. subst r. cbn [snd files].
    apply od_get_del_eq. rewrite Hf1. exact (proj1 Hk).
  - intros Hsome. unfold delete_file, get_file, od_mem in *.
    destruct (od_get (files b) file_id); [|congruence]. cbn [negb].
    unfold bind.
    destruct (for_each (chunks_of_file file_id b) _delete_chunk_from_global b)
      as [r b1]. cbn [fst snd] in *. subst r. cbn [snd].
    apply Hgone. cbn [chunks]. exact Hch1.
Qed.

End MemoryReachable.

(** ** processing/chunker.py: strings and slices *)

Section PyStrFacts.
Import PyStr.

Lemma chars_of_chars (l : list ascii) : chars (of_chars l) = l.
Proof. apply list_ascii_of_string_of_list_ascii. Qed.

Lemma of_chars_chars (s : string) : of_chars (chars s) = s.
Proof. apply string_of_list_ascii_of_string. Qed.

Lemma length_chars (s : string) : length (chars s) = String.length s.
Proof.
  unfold chars. induction s as [|c s IH]; cbn; [reflexivity|].
  rewrite IH. reflexivity.
Qed.

Lemma len_of_chars (l : list ascii) : len (of_chars l) = Z.of_nat (length l).
Proof. unfold len. rewrite <- length_chars, chars_of_chars. reflexivity. Qed.

Lemma len_chars (s : string) : len s = Z.of_nat (length (chars s)).
Proof. unfold len. rewrite length_chars. reflexivity. Qed.


Lemma of_chars_inj (a b : list ascii) : of_chars a = of_chars b -> a = b.
Proof.
  intros Heq. rewrite <- (chars_of_chars a), <- (chars_of_chars b), Heq. reflexivity.
Qed.

Lemma truthy_of_chars (l : list ascii) : truthy (of_chars l) = true -> l <> [].
Proof. intros Ht ->. discriminate. Qed.

(** A slice between two positions inside the string. *)
Lemma slice_inside (s : string) (i j : Z) :
  0 <= i <= j -> j <= len s ->
  slice s (Some i) (Some j)
  = of_chars (take (Z.to_nat (j - i)) (drop (Z.to_nat i) (chars s)))
  /\ len (slice s (Some i) (Some j)) = j - i.
Proof.
  intros Hij Hj. unfold slice, clamp_index.
  assert (E1 : (i <? 0) = false) by (apply Z.ltb_ge; lia).
  assert (E2 : (j <? 0) = false) by (apply Z.ltb_ge; lia).
  rewrite E1, E2, !Z.min_l by lia. split; [reflexivity|].
  rewrite len_of_chars, length_take, length_drop. rewrite len_chars in Hj. lia.
Qed.



End PyStrFacts.

(** ** processing/chunker.py: the overlap text and the sliding window *)

Section ChunkerFacts.
Import PyStr Chunker.







Lemma snap_back_bounds (chunk_text : string) (bound : Z) (fuel : nat) (j0 j : Z) :
  snap_back chunk_text bound fuel j0 = Some j -> j0 <= j < bound.
Proof.
  revert j0. induction fuel as [|fuel IH]; intros j0; cbn [snap_back]; [discriminate|].
  destruct (bound <=? j0) eqn:E; [discriminate|]. apply Z.leb_gt in E.
  destruct (index chunk_text (- (j0 + 1))) as [c|]; [|discriminate].
  destruct (isspace c).
  - intros Heq. injection Heq as <-. lia.
  - intros Hs. specialize (IH _ Hs). lia.
Qed.

Lemma range_step_In (stop step i : Z) :
  In i (range_step stop step) ->
  0 < step /\ 0 <= i < stop /\ exists k : nat, i = Z.of_nat k * step.
Proof.
  unfold range_step. destruct (step <=? 0) eqn:E; [intros []|].
  apply Z.leb_gt in E. intros Hin. apply in_map_iff in Hin.
  destruct Hin as [k [<- Hk]]. apply in_seq in Hk.
  split; [exact E|]. split; [|exists k; reflexivity].
  assert (Hq : (stop + step - 1) / step * step <= stop + step - 1).
  { rewrite Z.mul_comm. apply Z.mul_div_le. exact E. }
  assert (Hkq : Z.of_nat k + 1 <= (stop + step - 1) / step) by lia.
  nia.
Qed.

Lemma truthy_strip_len (s : string) : truthy (strip s) = true -> 0 < len s.
Proof.
  destruct s as [|c s]; [discriminate|]. intros _. unfold len. cbn. lia.
Qed.

Lemma truthy_ne (s : string) : truthy s = true -> s <> EmptyString.
Proof. intros Ht ->. discriminate. Qed.

(** One window: the chunk it yields, if any. *)
Lemma window_at_exact (self : TextChunker) (input : string) (meta : pydict)
    (i : Z) (c : TextChunk) :
  0 < chunk_size self -> 0 <= i < len input ->
  In c (window_at self input meta i) ->
  start_char c = i
  /\ i < end_char c /\ end_char c <= len input
  /\ end_char c - i <= chunk_size self
  /\ text c = strip (slice input (Some i) (Some (end_char c)))
  /\ text c <> EmptyString
  /\ metadata c = meta.
Proof.
  intros Hsize Hi. unfold window_at.
  set (end0 := Z.min (i + chunk_size self) (len input)).
  assert (Hend0 : i < end0 <= len input) by (unfold end0; lia).
  destruct (slice_inside input i end0 ltac:(lia) ltac:(lia)) as [Hct0 Hlen0].
  remember (slice input (Some i) (Some end0)) as chunk_text0 eqn:Hdef.
  assert (Hplain :
    In c (if truthy (strip chunk_text0)
          then [mkTextChunk (strip chunk_text0) i end0 meta] else []) ->
    start_char c = i /\ i < end_char c /\ end_char c <= len input
    /\ end_char c - i <= chunk_size self
    /\ text c = strip (slice input (Some i) (Some (end_char c)))
    /\ text c <> EmptyString /\ metadata c = meta).
  { destruct (truthy (strip chunk_text0)) eqn:Et; [|intros []].
    intros [<-|[]]. cbn [start_char end_char text metadata].
    split; [reflexivity|]. split; [lia|]. split; [lia|].
    split; [unfold end0; lia|]. split; [rewrite Hdef; reflexivity|].
    split; [apply truthy_ne; exact Et|reflexivity]. }
  destruct ((end0 <? len input) && negb _); [|exact Hplain].
  destruct (snap_back chunk_text0 (Z.min 50 (len chunk_text0)) 50 0) as [j|] eqn:Es;
    [|exact Hplain].
  apply snap_back_bounds in Es. rewrite Hlen0 in Es.
  set (ct := slice chunk_text0 None (Some (- (j + 1)))).
  assert (Hct : ct = slice input (Some i) (Some (i + (end0 - i - (j + 1))))
                /\ len ct = end0 - i - (j + 1)).
  { destruct (slice_inside input i (i + (end0 - i - (j + 1))) ltac:(lia) ltac:(lia))
      as [Hs Hl].
    assert (Heq : ct = slice input (Some i) (Some (i + (end0 - i - (j + 1))))).
    { rewrite Hs. unfold ct, slice, clamp_index. rewrite Hlen0.
      assert (E : (- (j + 1) <? 0) = true) by (apply Z.ltb_lt; lia).
      rewrite E, Z.max_r by lia. change (Z.to_nat 0) with 0%nat. rewrite drop_0.
      rewrite Hct0, chars_of_chars, take_take. f_equal. f_equal. lia. }
    split; [exact Heq|]. rewrite Heq, Hl. lia. }
  destruct Hct as [Hct Hlen]. fold ct.
  destruct (truthy (strip ct)) eqn:Et; [|intros []].
  intros [<-|[]]. cbn [start_char end_char text metadata].
  pose proof (truthy_strip_len ct Et) as Hpos.
  rewrite Hlen in *.
  split; [reflexivity|]. split; [lia|]. split; [lia|].
  split; [unfold end0 in *; lia|]. split; [rewrite <- Hct; reflexivity|].
  split; [apply truthy_ne; exact Et|reflexivity].
Qed.

(** X25: with [0 <= overlap < chunk_size], every chunk of
    [_chunk_sliding_window] starts at a multiple of [chunk_size - overlap],
    spans a non-empty range of at most [chunk_size] characters inside the
    text, and its text is exactly that range of the input with the
    surrounding whitespace removed, and is not empty. *)
Theorem sliding_window_chunks_are_exact
    (self : TextChunker) (input : string) (meta : pydict) :
  0 <= overlap self < chunk_size self ->
  Forall (fun c =>
            0 <= start_char c < end_char c
            /\ end_char c <= len input
            /\ end_char c - start_char c <= chunk_size self
            /\ (exists k : nat,
                  start_char c = Z.of_nat k * (chunk_size self - overlap self))
            /\ text c = strip (slice input (Some (start_char c)) (Some (end_char c)))
            /\ text c <> EmptyString
            /\ metadata c = meta)
         (_chunk_sliding_window self input meta).
Proof.
  intros Hcfg. apply List.Forall_forall. intros c Hc.
  unfold _chunk_sliding_window in Hc. apply in_flat_map in Hc.
  destruct Hc as [i [Hi Hc]]. apply range_step_In in Hi.
  destruct Hi as [Hstep [Hrange Hk]].
  destruct (window_at_exact self input meta i c ltac:(lia) Hrange Hc)
    as [Hs [He1 [He2 [He3 [Ht [Hne Hm]]]]]].
  rewrite Hs. repeat split; try assumption; lia.
Qed.

End ChunkerFacts.

Lemma sliding_window_chunks_are_exact_witness :
  Forall (fun c =>
            0 <= Chunker.start_char c < Chunker.end_char c
            /\ Chunker.end_char c <= PyStr.len Scenarios.window_text
            /\ Chunker.end_char c - Chunker.start_char c
               <= Chunker.chunk_size Scenarios.window_chunker
            /\ (exists k : nat,
                  Chunker.start_char c
                  = Z.of_nat k * (Chunker.chunk_size Scenarios.window_chunker
                                  - Chunker.overlap Scenarios.window_chunker))
            /\ Chunker.text c
               = PyStr.strip (PyStr.slice Scenarios.window_text
                                (Some (Chunker.start_char c))
                                (Some (Chunker.end_char c)))
            /\ Chunker.text c <> EmptyString
            /\ Chunker.metadata c = [])
         (Chunker._chunk_sliding_window Scenarios.window_chunker
            Scenarios.window_text []).
Proof.
  apply (sliding_window_chunks_are_exact Scenarios.window_chunker
           Scenarios.window_text []).
  cbn. lia.
Defined.

(** ** processing/chunker.py: the chunks of the legacy path *)

Section LegacyChunks.
Import PyStr Chunker.

Lemma is_prefix_take (sub l : list ascii) :
  is_prefix sub l = true ->
  take (length sub) l = sub /\ (length sub <= length l)%nat.
Proof.
  revert l. induction sub as [|a sub IH]; intros l Hp; [split; [reflexivity|cbn; lia]|].
  destruct l as [|b l]; [discriminate|]. cbn in Hp.
  destruct (Ascii.eqb a b) eqn:E; [|discriminate]. apply Ascii.eqb_eq in E. subst b.
  destruct (IH l Hp) as [Ht Hl]. cbn. rewrite Ht. split; [reflexivity|lia].
Qed.

Lemma is_prefix_of_take (n : nat) (l : list ascii) : is_prefix (take n l) l = true.
Proof.
  revert n. induction l as [|a l IH]; intros [|n]; cbn; try reflexivity.
  rewrite Ascii.eqb_refl. apply IH.
Qed.

(** [find_from] returns the first occurrence, and finds one when there is
    one. *)
Lemma find_from_found (sub l : list ascii) (pos : Z) (q : nat) :
  is_prefix sub (drop q l) = true ->
  exists p : nat,
    (p <= q)%nat /\ find_from sub l pos = pos + Z.of_nat p
    /\ is_prefix sub (drop p l) = true.
Proof.
  revert pos q. induction l as [|a l IH]; intros pos q Hq.
  - rewrite drop_nil in Hq. exists 0%nat. cbn [find_from drop]. rewrite Hq.
    split; [lia|]. split; [lia|reflexivity].
  - cbn [find_from]. destruct (is_prefix sub (a :: l)) eqn:E.
    + exists 0%nat. split; [lia|]. split; [lia|exact E].
    + destruct q as [|q]; [cbn in Hq; congruence|]. cbn [drop] in Hq.
      destruct (IH (pos + 1) q Hq) as [p [Hp [Hf Hpre]]].
      exists (S p). split; [lia|]. split; [rewrite Hf; lia|exact Hpre].
Qed.

(** [text.find(sub, start)] when [sub] occurs at [q], from [start] on. *)
Lemma find_found (s sub : string) (start q : Z) :
  0 <= start <= q -> q <= len s ->
  is_prefix (chars sub) (drop (Z.to_nat q) (chars s)) = true ->
  exists p,
    find s sub start = p /\ start <= p <= q
    /\ is_prefix (chars sub) (drop (Z.to_nat p) (chars s)) = true.
Proof.
  intros Hs Hq Hpre. unfold find.
  assert (E : (len s <? start) = false) by (apply Z.ltb_ge; lia). rewrite E.
  destruct (find_from_found (chars sub) (drop (Z.to_nat start) (chars s)) start
              (Z.to_nat (q - start))) as [p [Hp [Hf Hpp]]].
  - rewrite drop_drop. replace (Z.to_nat start + Z.to_nat (q - start))%nat
      with (Z.to_nat q) by lia. exact Hpre.
  - exists (start + Z.of_nat p). split; [exact Hf|]. split; [lia|].
    rewrite drop_drop in Hpp.
    replace (Z.to_nat (start + Z.of_nat p)) with (Z.to_nat start + p)%nat by lia.
    exact Hpp.
Qed.

(** A slice that starts inside the text, whatever its upper bound. *)
Lemma slice_forward (s : string) (i j : Z) :
  0 <= i <= len s -> i <= j ->
  slice s (Some i) (Some j)
  = of_chars (take (Z.to_nat (j - i)) (drop (Z.to_nat i) (chars s))).
Proof.
  intros Hi Hj. unfold slice, clamp_index.
  assert (E1 : (i <? 0) = false) by (apply Z.ltb_ge; lia).
  assert (E2 : (j <? 0) = false) by (apply Z.ltb_ge; lia).
  rewrite E1, E2, (Z.min_l i) by lia. f_equal.
  destruct (Z.le_gt_cases j (len s)) as [Hle|Hgt].
  - rewrite Z.min_l by lia. reflexivity.
  - rewrite Z.min_r by lia. rewrite len_chars in *.
    rewrite !take_ge; [reflexivity| |]; rewrite length_drop; lia.
Qed.

(** Where a string occurs, the slice of its length gives it back. *)
Lemma slice_of_occurrence (s sub : string) (p : Z) :
  0 <= p ->
  is_prefix (chars sub) (drop (Z.to_nat p) (chars s)) = true ->
  slice s (Some p) (Some (p + len sub)) = sub /\ p + len sub <= len s \/ len s < p.
Proof.
  intros Hp Hpre. destruct (Z.le_gt_cases p (len s)) as [Hle|Hgt]; [left|right; lia].
  apply is_prefix_take in Hpre. destruct Hpre as [Ht Hl].
  rewrite length_drop in Hl. rewrite (len_chars s), (len_chars sub) in *.
  split; [|lia].
  rewrite slice_forward by (rewrite ?len_chars; lia).
  replace (Z.to_nat (p + Z.of_nat (length (chars sub)) - p))
    with (length (chars sub)) by lia.
  rewrite Ht. apply of_chars_chars.
Qed.


(** A piece cut by the legacy chunker: its length and where it lies. *)
Lemma legacy_piece (input : string) (s size : Z) :
  0 <= s < len input -> 0 < size ->
  let piece := slice input (Some s) (Some (s + size)) in
  len piece = Z.min size (len input - s)
  /\ is_prefix (chars piece) (drop (Z.to_nat s) (chars input)) = true.
Proof.
  intros Hs Hsize piece. unfold piece.
  rewrite slice_forward by lia.
  replace (s + size - s) with size by lia. split.
  - rewrite len_of_chars, length_take, length_drop. rewrite len_chars in *. lia.
  - rewrite chars_of_chars. apply is_prefix_of_take.
Qed.

Variables (self : TextChunker) (input : string) (meta : pydict).
Hypothesis Hoverlap : 0 <= overlap self.
Hypothesis Hhalf : 2 * overlap self <= chunk_size self.
Hypothesis Hsize : 0 < chunk_size self.

Local Abbreviation exact_chunk := (fun c : TextChunk =>
  0 <= start_char c /\ start_char c < end_char c /\ end_char c <= len input
  /\ text c = slice input (Some (start_char c)) (Some (end_char c))).

(** One step of the conversion loop, searching from [cp] for the piece cut
    at [s]. *)
Lemma convert_step (s cp : Z) :
  0 <= cp <= s -> s < len input ->
  let piece := slice input (Some s) (Some (s + chunk_size self)) in
  exists p,
    find input piece cp = p /\ cp <= p <= s /\ (p =? -1) = false
    /\ exact_chunk (mkTextChunk piece p (p + len piece) meta).
Proof.
  intros Hcp Hs piece.
  destruct (legacy_piece input s (chunk_size self)) as [Hlen Hpre]; [lia|lia|].
  fold piece in Hlen, Hpre.
  destruct (find_found input piece cp s) as [p [Hf [Hp Hpp]]]; [lia|lia|exact Hpre|].
  exists p. split; [exact Hf|]. split; [exact Hp|].
  split; [apply Z.eqb_neq; lia|].
  destruct (slice_of_occurrence input piece p) as [[Hsl Hle]|Hbad]; [lia|exact Hpp| |lia].
  cbn [start_char end_char text]. split; [lia|]. split; [lia|].
  split; [exact Hle|]. symmetry. exact Hsl.
Qed.

(** Every chunk of the conversion loop is an exact slice, as long as the
    search starts at or before the place the piece was cut at. *)
Lemma convert_existing_exact (fuel : nat) (s cp : Z) :
  0 <= s -> (s < len input -> 0 <= cp) -> cp <= s ->
  Forall exact_chunk
    (convert_existing self input meta
       (existing_chunk_text fuel input (chunk_size self) (overlap self) s) cp).
Proof.
  revert s cp. induction fuel as [|fuel IH]; intros s cp Hs0 Hcp0 Hcp; [constructor|].
  cbn [existing_chunk_text]. destruct (s <? len input) eqn:Es; [|constructor].
  apply Z.ltb_lt in Es.
  assert (Eclamp : (s + chunk_size self - overlap self <? 0) = false)
    by (apply Z.ltb_ge; lia).
  rewrite Eclamp. cbn [convert_existing].
  destruct (convert_step s cp) as [p [Hf [Hp [Hne Hex]]]]; [lia|exact Es|].
  destruct (legacy_piece input s (chunk_size self)) as [Hlen _]; [lia|lia|].
  rewrite Hf, Hne. constructor; [exact Hex|].
  apply IH; [lia| |]; rewrite Hlen; lia.
Qed.

(** While the pieces are full, each one is found where it was cut, and
    the chunks cover the text from there to its end. *)
Lemma convert_existing_covers (fuel : nat) (s : Z) :
  0 <= s -> len input - s < Z.of_nat fuel ->
  forall pos, s <= pos < len input ->
    covered
      (convert_existing self input meta
         (existing_chunk_text fuel input (chunk_size self) (overlap self) s) s)
      pos = true.
Proof.
  revert s. induction fuel as [|fuel IH]; intros s Hs0 Hfuel pos Hpos; [lia|].
  cbn [existing_chunk_text]. destruct (s <? len input) eqn:Es;
    [|apply Z.ltb_ge in Es; lia].
  apply Z.ltb_lt in Es.
  assert (Eclamp : (s + chunk_size self - overlap self <? 0) = false)
    by (apply Z.ltb_ge; lia).
  rewrite Eclamp. cbn [convert_existing].
  destruct (convert_step s s) as [p [Hf [Hp [Hne _]]]]; [lia|exact Es|].
  destruct (legacy_piece input s (chunk_size self)) as [Hlen _]; [lia|lia|].
  rewrite Hf, Hne. clear Hf Hne. assert (p = s) by lia. subst p.
  unfold covered. cbn [existsb start_char end_char].
  destruct (Z.lt_ge_cases pos (s + chunk_size self)) as [Hin|Hout].
  - apply orb_true_iff. left. apply andb_true_iff.
    split; [apply Z.leb_le; lia|apply Z.ltb_lt; rewrite Hlen; lia].
  - apply orb_true_iff. right.
    assert (Hfull : len (slice input (Some s) (Some (s + chunk_size self)))
                    = chunk_size self) by (rewrite Hlen; lia).
    rewrite Hfull. apply (IH (s + chunk_size self - overlap self)); lia.
Qed.

End LegacyChunks.

(** X26: with the legacy chunker importable and an overlap of at most half
    the chunk size, [TextChunker.chunk_text] returns, for a text that is
    not blank, chunks that are exact slices of the text: each has
    [0 <= start_char < end_char <= len(text)] and its text is
    [text[start_char:end_char]]; and every position of the text lies in
    the range of some chunk. *)
Theorem legacy_chunks_are_exact_and_cover_the_text
    (self : Chunker.TextChunker) (input : string) (meta : pydict) :
  0 <= Chunker.overlap self ->
  2 * Chunker.overlap self <= Chunker.chunk_size self ->
  0 < Chunker.chunk_size self ->
  PyStr.truthy (PyStr.strip input) = true ->
  let chunks := Chunker.chunk_text true self input meta in
  Forall (fun c =>
            0 <= Chunker.start_char c /\ Chunker.start_char c < Chunker.end_char c
            /\ Chunker.end_char c <= PyStr.len input
            /\ Chunker.text c
               = PyStr.slice input (Some (Chunker.start_char c))
                   (Some (Chunker.end_char c)))
         chunks
  /\ Chunker.covers_all chunks input = true.
Proof.
  intros Hov Hhalf Hsize Htruthy chunks. unfold chunks, Chunker.chunk_text.
  rewrite Htruthy. cbn [negb]. split.
  - apply convert_existing_exact; try assumption; lia.
  - unfold Chunker.covers_all. apply forallb_forall. intros k Hk.
    apply in_seq in Hk.
    apply convert_existing_covers; try assumption; unfold PyStr.len; lia.
Qed.

Lemma legacy_chunks_are_exact_and_cover_the_text_witness :
  let self := Chunker.mkTextChunker 4 2 false in
  let input := "abcabcabca"%string in
  let chunks := Chunker.chunk_text true self input [] in
  Forall (fun c =>
            0 <= Chunker.start_char c /\ Chunker.start_char c < Chunker.end_char c
            /\ Chunker.end_char c <= PyStr.len input
            /\ Chunker.text c
               = PyStr.slice input (Some (Chunker.start_char c))
                   (Some (Chunker.end_char c)))
         chunks
  /\ Chunker.covers_all chunks input = true.
Proof.
  intros self input.
  apply (legacy_chunks_are_exact_and_cover_the_text self input []);
    [cbn; lia|cbn; lia|cbn; lia|reflexivity].
Defined.

(** ** search/keyword_search.py: the relevance score and the result list *)

Section RationalFacts.

Lemma py_min_le_l (a b : Q) : (py_min a b <= a)%Q.
Proof.
  unfold py_min, Qltb. destruct (Qle_bool a b) eqn:E; cbn; [lra|].
  assert (~ (a <= b)%Q) by (rewrite <- Qle_bool_iff; congruence). lra.
Qed.

Lemma py_min_ge (a b c : Q) : (c <= a)%Q -> (c <= b)%Q -> (c <= py_min a b)%Q.
Proof. intros Ha Hb. unfold py_min. destruct (Qltb b a); assumption. Qed.

Lemma py_max_ge_l (a b : Q) : (a <= py_max a b)%Q.
Proof.
  unfold py_max, Qgtb. destruct (Qle_bool b a) eqn:E; cbn; [lra|].
  assert (~ (b <= a)%Q) by (rewrite <- Qle_bool_iff; congruence). lra.
Qed.

Lemma inject_Z_nonneg (z : Z) : 0 <= z -> (0 <= inject_Z z)%Q.
Proof. intros Hz. change 0%Q with (inject_Z 0). rewrite <- Zle_Qle. exact Hz. Qed.

Lemma Qdiv_nonneg (a b : Q) : (0 <= a)%Q -> (0 <= b)%Q -> (0 <= a / b)%Q.
Proof.
  intros Ha Hb. unfold Qdiv. apply Qmult_le_0_compat; [exact Ha|].
  apply Qinv_le_0_compat. exact Hb.
Qed.

Lemma fold_nonneg {A : Type} (f : Q -> A -> Q) (l : list A) (acc : Q) :
  (forall a x, (0 <= a)%Q -> (0 <= f a x)%Q) ->
  (0 <= acc)%Q -> (0 <= fold_left f l acc)%Q.
Proof.
  intros Hf. revert acc. induction l as [|x l IH]; intros acc Hacc; [exact Hacc|].
  cbn. apply IH. apply Hf. exact Hacc.
Qed.

End RationalFacts.

Section KeywordFacts.
Import Models KeywordSearch StorageBase.

(** The score of a text for a query that has at least one term. *)
Lemma relevance_score_range (query text : string) (base_score : Q) :
  _extract_terms (FileProcessor.lower query) <> [] ->
  (0 <= base_score)%Q ->
  (5 # 1000 <= _calculate_relevance_score query text base_score <= 1)%Q.
Proof.
  intros Hterms Hbase. unfold _calculate_relevance_score.
  destruct (_extract_terms (FileProcessor.lower query)) as [|t ts] eqn:Et;
    [contradiction|].
  split; [|apply py_min_le_l].
  apply py_min_ge; [lra|].
  match goal with |- (_ <= _ * _ + ?e * _ + ?tf * _ + ?cov * _ + ?pos * _ + ?lp * _)%Q =>
    assert (He : (0 <= e)%Q);
    [|assert (Htf : (0 <= tf)%Q);
      [|assert (Hcov : (0 <= cov)%Q);
        [|assert (Hpos : (0 <= pos)%Q);
          [|assert (Hlp : (1 # 10 <= lp)%Q); [|lra]]]]]
  end.
  - destruct (PyStr.contains _ _); lra.
  - apply fold_nonneg; [|lra]. intros a x Ha.
    destruct (0 <? _) eqn:E; [|exact Ha].
    apply Z.ltb_lt in E.
    assert ((0 <= inject_Z (term_frequency
               (_extract_terms (FileProcessor.lower text)) x)
             / inject_Z (Z.of_nat (length (_extract_terms (FileProcessor.lower text)))))%Q).
    { apply Qdiv_nonneg; apply inject_Z_nonneg; lia. }
    lra.
  - apply Qdiv_nonneg; apply inject_Z_nonneg; lia.
  - apply Qdiv_nonneg; [|apply inject_Z_nonneg; lia].
    apply fold_nonneg; [|lra]. intros a x Ha.
    destruct (_ =? -1); [exact Ha|].
    pose proof (py_max_ge_l 0
      (1 - inject_Z (PyStr.find (FileProcessor.lower text) x 0)
           / inject_Z (PyStr.len (FileProcessor.lower text)))). lra.
  - apply py_max_ge_l.
Qed.


Lemma relevance_score_unit (query text : string) (base_score : Q) :
  (0 <= base_score <= 1)%Q ->
  (0 <= _calculate_relevance_score query text base_score <= 1)%Q.
Proof.
  intros Hbase.
  destruct (_extract_terms (FileProcessor.lower query)) as [|t ts] eqn:Et.
  - unfold _calculate_relevance_score. rewrite Et. exact Hbase.
  - pose proof (relevance_score_range query text base_score) as Hr.
    rewrite Et in Hr. specialize (Hr ltac:(discriminate) ltac:(lra)). lra.
Qed.

Context {S : Type} `{StorageBackend S}.
Variable search_keyword : string -> Z -> Q -> S -> result (list (ChunkInfo * Q)).

Local Abbreviation from_row query s r c b f :=
  (get_file (ci_file_id c) s = Some f
   /\ sr_file_id r = ci_file_id c /\ sr_file_path r = fi_path f
   /\ sr_text r = ci_text c
   /\ sr_start_char r = ci_start_char c /\ sr_end_char r = ci_end_char c
   /\ sr_search_type r = "keyword"%string
   /\ sr_score r = _calculate_relevance_score query (ci_text c) b).

Lemma collect_returns (query : string) (options : SearchOptions) (s : S)
    (rows : list (ChunkInfo * Q)) :
  (forall c b, In (c, b) rows ->
     (0 <= b <= 1)%Q /\ 0 <= ci_start_char c <= ci_end_char c) ->
  exists results,
    collect query options s rows = Ok results
    /\ forall r, In r results ->
         (min_score options <= sr_score r <= 1)%Q
         /\ exists c b f, In (c, b) rows /\ from_row query s r c b f.
Proof.
  induction rows as [|[c b] rows IH]; intros Hrows.
  - exists []. split; [reflexivity|]. intros r [].
  - destruct (IH (fun c' b' Hin => Hrows c' b' (or_intror Hin))) as [rest [Hrest Hall]].
    assert (Hlift : forall r, In r rest ->
              (min_score options <= sr_score r <= 1)%Q
              /\ exists c0 b0 f, In (c0, b0) ((c, b) :: rows) /\ from_row query s r c0 b0 f).
    { intros r Hr. destruct (Hall r Hr) as [Hs [c0 [b0 [f [Hin Hf]]]]].
      split; [exact Hs|]. exists c0, b0, f. split; [right; exact Hin|exact Hf]. }
    cbn [collect].
    destruct (get_file (ci_file_id c) s) as [f|] eqn:Ef;
      [|exists rest; split; [exact Hrest|exact Hlift]].
    destruct (Qgeb _ (min_score options)) eqn:Ege;
      [|exists rest; split; [exact Hrest|exact Hlift]].
    destruct (Hrows c b (or_introl eq_refl)) as [Hb Hrange].
    pose proof (relevance_score_unit query (ci_text c) b Hb) as Hunit.
    unfold SearchResults.SearchResult_new.
    rewrite (proj2 (float_in_range_iff 0 1 _) Hunit).
    assert (E1 : (0 <=? ci_start_char c) = true) by (apply Z.leb_le; lia).
    assert (E2 : (0 <=? ci_end_char c) = true) by (apply Z.leb_le; lia).
    assert (E3 : (ci_end_char c <? ci_start_char c) = false) by (apply Z.ltb_ge; lia).
    rewrite E1, E2, E3. cbn [app]. rewrite Hrest.
    eexists. split; [reflexivity|]. intros r [<-|Hr]; [|exact (Hlift r Hr)].
    cbn [sr_score sr_file_id sr_file_path sr_text sr_start_char sr_end_char
         sr_search_type].
    split.
    + split; [|exact (proj2 Hunit)]. unfold Qgeb in Ege.
      apply Qle_bool_iff. exact Ege.
    + exists c, b, f. split; [left; reflexivity|]. repeat split. exact Ef.
Qed.

(** X27: [KeywordSearch.search] on rows from the storage whose scores lie
    in [0, 1] and whose ranges satisfy [0 <= start_char <= end_char]. It
    returns (no result fails the validation of [SearchResult]) at most
    [max_results] results in descending order of score; each result comes
    from a row whose file the storage knows, carries that chunk's file id,
    text and range and the file's path, and its score is the relevance
    score of the row, which is at least [min_score] and at most 1. *)
Theorem keyword_search_returns_ranked_valid_results
    (query : string) (options : SearchOptions) (s : S)
    (rows : list (ChunkInfo * Q)) :
  search_keyword query (max_results options * 2) 0%Q s = Ok rows ->
  (forall c b, In (c, b) rows ->
     (0 <= b <= 1)%Q /\ 0 <= ci_start_char c <= ci_end_char c) ->
  0 <= max_results options ->
  exists results,
    search search_keyword query (Some options) s = Ok results
    /\ Z.of_nat (length results) <= max_results options
    /\ StronglySorted HybridSearch.score_ge results
    /\ forall r, In r results ->
         (min_score options <= sr_score r <= 1)%Q
         /\ exists c b f,
              In (c, b) rows
              /\ get_file (ci_file_id c) s = Some f
              /\ sr_file_id r = ci_file_id c /\ sr_file_path r = fi_path f
              /\ sr_text r = ci_text c
              /\ sr_start_char r = ci_start_char c
              /\ sr_end_char r = ci_end_char c
              /\ sr_search_type r = "keyword"%string
              /\ sr_score r = _calculate_relevance_score query (ci_text c) b.
Proof.
  intros Hrows Hvalid Hmax.
  destruct (collect_returns query options s rows Hvalid) as [found [Hfound Hall]].
  unfold search. rewrite Hrows, Hfound. eexists. split; [reflexivity|].
  split; [apply list_prefix_length; exact Hmax|]. split.
  - unfold HybridSearch.list_prefix. apply StronglySorted_take_keep.
    apply sort_by_score_sorted.
  - intros r Hr. apply list_prefix_In in Hr.
    apply (proj1 (sort_by_score_In _ _)) in Hr. exact (Hall r Hr).
Qed.

End KeywordFacts.

Lemma keyword_search_returns_ranked_valid_results_witness :
  exists results,
    KeywordSearch.search KeywordExamples.one_row "hello"
      (Some Scenarios.usual_options) Scenarios.db_with_file = Ok results
    /\ Z.of_nat (length results) <= Models.max_results Scenarios.usual_options
    /\ StronglySorted HybridSearch.score_ge results
    /\ forall r, In r results ->
         (Models.min_score Scenarios.usual_options <= Models.sr_score r <= 1)%Q
         /\ exists c b f,
              In (c, b) [(Scenarios.notes_chunk, (1 # 2)%Q)]
              /\ StorageBase.get_file (Models.ci_file_id c) Scenarios.db_with_file
                 = Some f
              /\ Models.sr_file_id r = Models.ci_file_id c
              /\ Models.sr_file_path r = Models.fi_path f
              /\ Models.sr_text r = Models.ci_text c
              /\ Models.sr_start_char r = Models.ci_start_char c
              /\ Models.sr_end_char r = Models.ci_end_char c
              /\ Models.sr_search_type r = "keyword"%string
              /\ Models.sr_score r
                 = KeywordSearch._calculate_relevance_score "hello"
                     (Models.ci_text c) b.
Proof.
  apply (keyword_search_returns_ranked_valid_results KeywordExamples.one_row
           "hello" Scenarios.usual_options Scenarios.db_with_file
           [(Scenarios.notes_chunk, (1 # 2)%Q)]).
  - reflexivity.
  - intros c b [Heq|[]]. injection Heq as <- <-. cbn. split; [lra|lia].
  - cbn. lia.
Defined.

(** ** The embedding cache of the two backends *)

Section CacheRoundTrip.

(** X28: what is read back from the embedding cache right after a write.
    On the SQLite backend the same hash, provider and model give the vector
    back unless it is empty (an empty BLOB reads as a miss), and a lookup
    under any other hash is unaffected. On the in-memory backend the same
    triple gives the vector back, and a lookup under any other key
    [provider:model:hash] is unaffected. *)
Theorem embedding_cache_round_trip
    (h p m : string) (v : ndarray) (db : SQLiteBackend.t) (b : MemoryBackend.t) :
  SQLiteBackend.get_cached_embedding h p m
    (snd (SQLiteBackend.cache_embedding h p m v db))
  = match v with [] => None | _ => Some v end
  /\ (forall h' p' m', h' <> h ->
        SQLiteBackend.get_cached_embedding h' p' m'
          (snd (SQLiteBackend.cache_embedding h p m v db))
        = SQLiteBackend.get_cached_embedding h' p' m' db)
  /\ MemoryBackend.get_cached_embedding h p m
       (snd (MemoryBackend.cache_embedding h p m v b)) = Some v
  /\ (forall h' p' m',
        MemoryBackend.cache_key h' p' m' <> MemoryBackend.cache_key h p m ->
        MemoryBackend.get_cached_embedding h' p' m'
          (snd (MemoryBackend.cache_embedding h p m v b))
        = MemoryBackend.get_cached_embedding h' p' m' b).
Proof.
  split; [|split; [|split]].
  - unfold SQLiteBackend.get_cached_embedding, SQLiteBackend.cache_embedding.
    cbn [snd SQLiteBackend.embedding_cache].
    rewrite find_app, find_filter_none.
    + cbn. rewrite !String.eqb_refl. cbn. destruct v; reflexivity.
    + intros r Hr. apply andb_true_iff in Hr. destruct Hr as [Hr _].
      apply andb_true_iff in Hr. destruct Hr as [Hr _]. rewrite Hr. reflexivity.
  - intros h' p' m' Hne.
    unfold SQLiteBackend.get_cached_embedding, SQLiteBackend.cache_embedding.
    cbn [snd SQLiteBackend.embedding_cache].
    rewrite find_app, find_filter_keep.
    + destruct (List.find _ (SQLiteBackend.embedding_cache db)); [reflexivity|].
      cbn. apply String.eqb_neq in Hne. rewrite String.eqb_sym, Hne. reflexivity.
    + intros r _ Hr. apply andb_true_iff in Hr. destruct Hr as [Hr _].
      apply andb_true_iff in Hr. destruct Hr as [Hr _].
      apply String.eqb_eq in Hr. apply negb_true_iff. apply String.eqb_neq. congruence.
  - unfold MemoryBackend.get_cached_embedding, MemoryBackend.cache_embedding.
    cbn [snd MemoryBackend.embedding_cache]. apply lookup_insert_eq.
  - intros h' p' m' Hne.
    unfold MemoryBackend.get_cached_embedding, MemoryBackend.cache_embedding.
    cbn [snd MemoryBackend.embedding_cache]. apply lookup_insert_ne. congruence.
Qed.

End CacheRoundTrip.

(** ** processing/file_processor.py: the change check *)

Section ChangeCheck.

(** X29: [is_file_changed] answers "unchanged" exactly when the path
    exists, its modification time is within one second of the stored one,
    and the stored hash is the MD5 of the text "path:size:mtime". The
    content of the file is never read: a file rewritten with the same size
    and modification time counts as unchanged. *)
Theorem is_file_changed_compares_path_size_and_mtime
    (env : Env.t) (file_path stored_hash : string) (stored_mtime : Z) :
  FileProcessor.is_file_changed env file_path stored_hash stored_mtime = false
  <-> exists entry,
        Env.stat env file_path = Some entry
        /\ Z.abs (Env.st_mtime entry - stored_mtime) <= 1
        /\ MD5.md5_hex
             (file_path ++ ":" ++ PyStr.str_of_int (Env.st_size entry) ++ ":"
                        ++ PyStr.str_of_float (Env.st_mtime entry))
           = stored_hash.
Proof.
  unfold FileProcessor.is_file_changed, FileProcessor.get_file_hash,
    Env.exists_, od_mem, Env.stat.
  destruct (od_get (Env.fs env) file_path) as [entry|]; cbn [negb].
  - destruct (1 <? Z.abs (Env.st_mtime entry - stored_mtime)) eqn:E.
    + apply Z.ltb_lt in E. split; [discriminate|].
      intros [e [He [Hm _]]]. injection He as <-. lia.
    + apply Z.ltb_ge in E. rewrite negb_false_iff, String.eqb_eq. split.
      * intros Hh. exists entry. repeat split; assumption.
      * intros [e [He [_ Hh]]]. injection He as <-. exact Hh.
  - split; [discriminate|]. intros [e [He _]]. discriminate.
Qed.

End ChangeCheck.
